(** * ig-mcp-cursor: the tool dispatcher, the session store and the broker client

    A shallow embedding of [src/index.ts] ([executeToolCall] and its helpers),
    [src/session-manager.ts] ([SessionManager]) and [src/ig-client.ts]
    ([IGClient]), followed by the properties the specification states about
    them.

    Conventions of the embedding.
    - JavaScript values that the program handles without knowing their shape
      (tool arguments, broker response bodies, thrown values) are [Json]
      trees; a number is identified with its canonical text [String(n)].
    - Module-level mutable state ([sessions], [authenticatedConnections],
      [clients], [currentConnectionId]) is one [State] record, threaded
      through a state-and-exception monad; every HTTP request a client
      issues is appended to the [network] field of that record.
    - The broker is an oracle [broker] of the [World]: given the requests
      issued so far and the current request it resolves with a response or
      rejects with a thrown value.
    - [console.error] logging is not modelled. *)

From stdpp Require Import base option list strings pretty gmap.
From Stdlib Require Import ZArith Ascii.

Set Warnings "-register-all".
Local Open Scope string_scope.
Local Open Scope Z_scope.

(** ** JavaScript values *)

Inductive Json : Type :=
| JUndef
| JNull
| JBool (b : bool)
| JNum (text : string)
| JStr (s : string)
| JArr (items : list Json)
| JObj (fields : list (string * Json)).

(** [JNum] of an integer. *)
Definition JInt (z : Z) : Json := JNum (pretty z).

(** First binding of a key in a field list. *)
Fixpoint assoc (k : string) (fs : list (string * Json)) : option Json :=
  match fs with
  | [] => None
  | (k', v) :: fs' => if bool_decide (k' = k) then Some v else assoc k fs'
  end.

(** [!!v] *)
Definition truthy (v : Json) : bool :=
  match v with
  | JUndef | JNull => false
  | JBool b => b
  | JNum t => negb (bool_decide (t = "0")) && negb (bool_decide (t = "NaN"))
  | JStr s => negb (bool_decide (s = EmptyString))
  | JArr _ | JObj _ => true
  end.

(** [a || b] *)
Definition js_or (a b : Json) : Json := if truthy a then a else b.

(** [v == null] *)
Definition nullish (v : Json) : bool :=
  match v with JUndef | JNull => true | _ => false end.

(** [typeof v === 'object'] (true of [null] as well) *)
Definition typeof_object (v : Json) : bool :=
  match v with JNull | JArr _ | JObj _ => true | _ => false end.

(** [v === s] for a string literal [s] *)
Definition strict_eq_str (v : Json) (s : string) : bool :=
  match v with JStr s' => bool_decide (s' = s) | _ => false end.

(** [k in v], used on values for which [typeof v === 'object'] and [!!v] *)
Definition has_key (k : string) (v : Json) : bool :=
  match v with JObj fs => bool_decide (is_Some (assoc k fs)) | _ => false end.

(** [v?.k]: [undefined] on [null]/[undefined]; none of the keys the program
    reads is a property of a primitive or of an array. *)
Definition opt_get (v : Json) (k : string) : Json :=
  match v with JObj fs => default JUndef (assoc k fs) | _ => JUndef end.

Fixpoint join (sep : string) (l : list string) : string :=
  match l with
  | [] => EmptyString
  | [s] => s
  | s :: l' => s +:+ sep +:+ join sep l'
  end.

(** [String(v)], also the conversion a template literal applies, for a
    value on which the conversion returns (see [printable]). *)
Fixpoint js_String (v : Json) : string :=
  match v with
  | JUndef => "undefined"
  | JNull => "null"
  | JBool true => "true"
  | JBool false => "false"
  | JNum t => t
  | JStr s => s
  | JArr l =>
      join "," (map (fun x => if nullish x then EmptyString else js_String x) l)
  | JObj _ => "[object Object]"
  end.

(** Whether [String(v)] returns.  The conversion of an object calls its
    [toString]; a member of that name in a value that was parsed from JSON is
    not callable, [valueOf] then gives the object back, and the conversion
    throws.  An array converts each of its items but [null] and
    [undefined]. *)
Fixpoint printable (v : Json) : bool :=
  match v with
  | JObj fs => negb (bool_decide (is_Some (assoc "toString" fs)))
  | JArr l => forallb (fun x => nullish x || printable x) l
  | _ => true
  end.

(** [typeof v === 'string'] *)
Definition is_string (v : Json) : bool :=
  match v with JStr _ => true | _ => false end.

(** The properties of [{...v}] for an object or a nullish [v]; the
    indexed properties of a string or an array are not modelled. *)
Definition spread (v : Json) : list (string * Json) :=
  match v with JObj fs => fs | _ => [] end.

(** ** JSON text

    [JSON.stringify(v, null, 2)] is represented by the document that the
    text denotes: [undefined] properties are left out, [undefined] array
    items and non-finite numbers become [null]. *)

Definition non_finite (t : string) : bool :=
  bool_decide (t = "NaN") || bool_decide (t = "Infinity")
  || bool_decide (t = "-Infinity").

Fixpoint wire (v : Json) : Json :=
  match v with
  | JUndef => JNull
  | JNum t => if non_finite t then JNull else JNum t
  | JArr l => JArr (map wire l)
  | JObj fs =>
      JObj ((fix props (fs : list (string * Json)) :=
               match fs with
               | [] => []
               | (k, JUndef) :: fs' => props fs'
               | (k, x) :: fs' => (k, wire x) :: props fs'
               end) fs)
  | _ => v
  end.

Inductive JsonText : Type := Text (document : Json).

Definition JSON_stringify (v : Json) : JsonText := Text (wire v).
Definition JSON_parse (t : JsonText) : Json := let 'Text d := t in d.

(** ** Thrown values *)

(** An instance of [Error]: [name], [message] and [stack], which are not
    enumerable, and the enumerable properties of its own (the [code] of a
    system error, say). *)
Record JsError : Type := mkError {
  err_name : string;
  err_message : string;
  err_stack : option string;
  err_own : list (string * Json);
}.

(** An axios response: [response.status], [response.statusText],
    [response.headers] (names in lower case) and [response.data]. *)
Record HttpResponse : Type := mkResponse {
  resp_status : Z;
  resp_statusText : string;
  resp_headers : gmap string string;
  resp_data : Json;
}.

Record AxiosConfig : Type := mkAxiosConfig {
  cfg_url : Json;
  cfg_method : Json;
  cfg_data : Json;
}.

(** An error for which [axios.isAxiosError] holds. *)
Record AxiosError : Type := mkAxiosError {
  ax_error : JsError;
  ax_response : option HttpResponse;
  ax_config : option AxiosConfig;
}.

(** What a [throw] or a rejection carries: an axios error, another
    instance of [Error], or a value that is neither (and for which
    [axios.isAxiosError] is false). *)
Inductive Thrown : Type :=
| ThrowAxios (e : AxiosError)
| ThrowError (e : JsError)
| ThrowValue (v : Json).

(** The [TypeError] raised by reading property [k] of [null]/[undefined];
    the stack text is the engine's. *)
Definition TypeError_read (stack : string -> string) (v : Json) (k : string)
  : Thrown :=
  let msg := "Cannot read properties of " +:+ js_String v
             +:+ " (reading '" +:+ k +:+ "')" in
  ThrowError (mkError "TypeError" msg (Some (stack msg)) []).

Definition TypeError_call (stack : string -> string) (what : string) : Thrown :=
  let msg := what +:+ " is not a function" in
  ThrowError (mkError "TypeError" msg (Some (stack msg)) []).

(** The [TypeError] of a conversion to a string that cannot be made. *)
Definition TypeError_convert (stack : string -> string) : Thrown :=
  let msg := "Cannot convert object to primitive value" in
  ThrowError (mkError "TypeError" msg (Some (stack msg)) []).

(** [Error.prototype.toString] *)
Definition Error_toString (e : JsError) : string :=
  if bool_decide (err_name e = EmptyString) then err_message e
  else if bool_decide (err_message e = EmptyString) then err_name e
  else err_name e +:+ ": " +:+ err_message e.

(** [error instanceof Error] *)
Definition instanceof_Error (t : Thrown) : option JsError :=
  match t with
  | ThrowAxios e => Some (ax_error e)
  | ThrowError e => Some e
  | ThrowValue _ => None
  end.

(** [String(error)], where the conversion returns. *)
Definition Thrown_String (t : Thrown) : string :=
  match t with
  | ThrowAxios e => Error_toString (ax_error e)
  | ThrowError e => Error_toString e
  | ThrowValue v => js_String v
  end.

(** ** The state-and-exception monad *)

Definition M (S A : Type) : Type := S -> (Thrown + A) * S.

Definition ret {S A} (a : A) : M S A := fun s => (inr a, s).

Definition bind {S A B} (m : M S A) (k : A -> M S B) : M S B :=
  fun s => match m s with
           | (inr a, s') => k a s'
           | (inl e, s') => (inl e, s')
           end.

Definition throw {S A} (e : Thrown) : M S A := fun s => (inl e, s).

(** [try { body } catch (error) { handler }] *)
Definition try_catch {S A} (body : M S A) (handler : Thrown -> M S A) : M S A :=
  fun s => match body s with
           | (inr a, s') => (inr a, s')
           | (inl e, s') => handler e s'
           end.

Definition gets {S A} (f : S -> A) : M S A := fun s => (inr (f s), s).
Definition modify {S} (f : S -> S) : M S unit := fun s => (inr tt, f s).

Declare Scope js_scope.
Delimit Scope js_scope with js.
Notation "x <- m ;; k" := (bind m (fun x => k))
  (at level 100, m at next level, right associativity) : js_scope.
Notation "m ;;; k" := (bind m (fun _ => k))
  (at level 100, right associativity) : js_scope.
Local Open Scope js_scope.

(** [v.k], which throws on [null] and [undefined]. *)
Definition get_prop {S} (stack : string -> string) (v : Json) (k : string)
  : M S Json :=
  if nullish v then throw (TypeError_read stack v k) else ret (opt_get v k).

(** [String(v)] and [`${v}`], which throw where the conversion cannot be
    made. *)
Definition ToString {S} (stack : string -> string) (v : Json) : M S string :=
  if printable v then ret (js_String v) else throw (TypeError_convert stack).

(** ** Compact JSON text, as [JSON.stringify(v)] inside a template literal

    The quote, the backslash and the control characters are escaped. *)

Definition dquote_char : ascii := ascii_of_nat 34.
Definition dquote : string := String dquote_char EmptyString.

Definition hex_digit (n : nat) : ascii :=
  match n with
  | 0 => "0" | 1 => "1" | 2 => "2" | 3 => "3" | 4 => "4" | 5 => "5" | 6 => "6"
  | 7 => "7" | 8 => "8" | 9 => "9" | 10 => "a" | 11 => "b" | 12 => "c"
  | 13 => "d" | 14 => "e" | _ => "f"
  end%nat%char.

(** The escape of one character in a JSON string. *)
Definition escape_char (c : ascii) : string :=
  let n := nat_of_ascii c in
  if bool_decide (c = dquote_char) || bool_decide (c = "\"%char)
  then String "\"%char (String c EmptyString)
  else if bool_decide (n = 8)%nat then "\b"
  else if bool_decide (n = 9)%nat then "\t"
  else if bool_decide (n = 10)%nat then "\n"
  else if bool_decide (n = 12)%nat then "\f"
  else if bool_decide (n = 13)%nat then "\r"
  else if bool_decide (n < 32)%nat
  then "\u00" +:+ String (hex_digit (n / 16)) (String (hex_digit (n mod 16)) EmptyString)
  else String c EmptyString.

Fixpoint escape (s : string) : string :=
  match s with
  | EmptyString => EmptyString
  | String c s' => escape_char c +:+ escape s'
  end.

Definition quote (s : string) : string := dquote +:+ escape s +:+ dquote.

Fixpoint compact (v : Json) : string :=
  match v with
  | JUndef | JNull => "null"
  | JBool true => "true"
  | JBool false => "false"
  | JNum t => if non_finite t then "null" else t
  | JStr s => quote s
  | JArr l => "[" +:+ join "," (map compact l) +:+ "]"
  | JObj fs =>
      "{" +:+
      join "," ((fix props (fs : list (string * Json)) :=
                   match fs with
                   | [] => []
                   | (k, JUndef) :: fs' => props fs'
                   | (k, x) :: fs' => (quote k +:+ ":" +:+ compact x) :: props fs'
                   end) fs)
      +:+ "}"
  end.

(** [`${JSON.stringify(v)}`] *)
Definition stringify_in_template (v : Json) : string :=
  match v with JUndef => "undefined" | _ => compact v end.

(** ** The outside world *)

Record HttpRequest : Type := mkRequest {
  req_method : Json;
  req_url : string;
  req_baseURL : string;
  req_headers : gmap string Json;
  req_params : Json;
  req_data : Json;
}.

Inductive HttpOutcome : Type :=
| Resolve (response : HttpResponse)
| Reject (error : Thrown).

Record World : Type := mkWorld {
  (** the broker, as seen through axios: the answer to a request, given the
      requests issued before it *)
  broker : list HttpRequest -> HttpRequest -> HttpOutcome;
  (** the stack text the engine attaches to an error it raises *)
  engine_stack : string -> string;
  (** [new Date()] *)
  now : Z;
}.

(** ** types.ts *)

Record IGCredentials : Type := mkCredentials {
  username : Json;
  password : Json;
  apiKey : Json;
}.

Record IGSession : Type := mkSession {
  securityToken : Json;
  clientSessionToken : Json;
  cst : Json;
  xSecurityToken : Json;
  accountId : Json;
  accountType : Json;
  lightstreamerEndpoint : Json;
  authenticated : bool;
  authenticatedAt : option Z;
}.

Record IGError : Type := mkIGError {
  errorCode : Json;
  errorMessage : Json;
}.

Record IGResponse (T : Type) : Type := mkIGResponse {
  success : bool;
  data : option T;
  error : option IGError;
  debug : Json;
  userMessage : option string;
}.
Arguments mkIGResponse {T}.
Arguments success {T}.
Arguments data {T}.
Arguments error {T}.
Arguments debug {T}.
Arguments userMessage {T}.

(** ** ig-client.ts *)

(** Field lists of object literals, later bindings winning. *)
Definition obj_to_map (fs : list (string * Json)) : gmap string Json :=
  fold_left (fun m kv => <[kv.1 := kv.2]> m) fs ∅.

Definition headers_to_Json (h : gmap string string) : Json :=
  JObj (map (fun kv => (kv.1, JStr kv.2)) (map_to_list h)).

Record IGClient : Type := mkClient {
  client_apiKey : Json;
  baseUrl : string;
  (** [this.axiosInstance.defaults.headers] *)
  defaults_headers : gmap string Json;
}.

(** [new IGClient(apiKey, baseUrl)] *)
Definition new_IGClient (key : Json) (url : string) : IGClient :=
  mkClient key url
    (obj_to_map [("Content-Type", JStr "application/json");
                 ("Accept", JStr "application/json");
                 ("X-IG-API-KEY", key);
                 ("Version", JStr "2")]).

(** What a method of the client reads and writes: the object itself and the
    requests sent so far. *)
Record ClientCtx : Type := mkCtx {
  this : IGClient;
  net : list HttpRequest;
}.

Definition set_default_header (k : string) (v : Json) : M ClientCtx unit :=
  modify (fun c =>
    mkCtx (mkClient (client_apiKey (this c)) (baseUrl (this c))
                    (<[k := v]> (defaults_headers (this c))))
          (net c)).

(** The request a call to [this.axiosInstance] hands to axios from a
    given client: the headers of the call override the defaults of the
    instance.  Names are compared as they are written, whereas axios compares
    them without regard to case: the names the client itself uses are fixed
    and differ in more than case. *)
Definition request_from (c : IGClient) (method : Json) (url : string)
    (hdrs : list (string * Json)) (params body : Json) : HttpRequest :=
  mkRequest method url (baseUrl c) (obj_to_map hdrs ∪ defaults_headers c)
            params body.

Section IGClient_methods.

Context (w : World).

(** One request through [this.axiosInstance]: the request is recorded and
    the broker answers. *)
Definition axios_request (method : Json) (url : string)
    (hdrs : list (string * Json)) (params body : Json)
  : M ClientCtx HttpResponse :=
  fun c =>
    let req := request_from (this c) method url hdrs params body in
    let c' := mkCtx (this c) (net c ++ [req]) in
    match broker w (net c) req with
    | Resolve response => (inr response, c')
    | Reject e => (inl e, c')
    end.

Definition read {S} (v : Json) (k : string) : M S Json :=
  get_prop (engine_stack w) v k.

Definition to_String {S} (v : Json) : M S string :=
  ToString (engine_stack w) v.

(** [this.axiosInstance.request(config)] with a method the caller chose:
    axios lower-cases [config.method || 'get'] before anything is sent, which
    throws for a truthy method that is no string. *)
Definition axios_request_config (method : Json) (url : string)
    (hdrs : list (string * Json)) (params body : Json)
  : M ClientCtx HttpResponse :=
  if truthy method && negb (is_string method) then
    throw (TypeError_call (engine_stack w)
             ("(config.method || this.defaults.method || " +:+ dquote +:+ "get"
              +:+ dquote +:+ ").toLowerCase"))
  else axios_request method url hdrs params body.

(** The user-friendly message chosen from the upstream status. *)
Definition friendlyMessage (status : option Z) (userMessage : string) : string :=
  match status with
  | Some s =>
      if bool_decide (s = 401) || bool_decide (s = 403) then
        "Authentication failed. Please check your credentials and try logging in again."
      else if bool_decide (s = 404) then
        "The requested resource was not found. Please check the parameters."
      else if bool_decide (s = 429) then
        "Rate limit exceeded. Please wait a moment before trying again."
      else if bool_decide (s = 500) || bool_decide (s = 502)
              || bool_decide (s = 503) then
        "IG API is currently unavailable. Please try again later."
      else userMessage
  | None => userMessage
  end.

(** The result for an error that is not an axios error, given what
    [JSON.stringify] sees of [errorObj] and the value of
    [errorObj.message || String(error)]. *)
Definition non_axios_failure {T} (errorObj errorMessage : Json)
    (userMessage : string) : IGResponse T :=
  mkIGResponse false None
    (Some (mkIGError (JStr "UNKNOWN_ERROR") errorMessage))
    (JObj [("error", errorObj)])
    (Some userMessage).

Definition handleError {S T} (error : Thrown) (userMessage : string)
  : M S (IGResponse T) :=
  match error with
  | ThrowAxios axiosError =>
      let status := resp_status <$> ax_response axiosError in
      let errorData := from_option resp_data JUndef (ax_response axiosError) in
      let errorCode := JStr "UNKNOWN_ERROR" in
      let errorMessage := JStr (err_message (ax_error axiosError)) in
      let '(errorCode, errorMessage) :=
        if truthy errorData then
          if typeof_object errorData && has_key "errorCode" errorData then
            (opt_get errorData "errorCode",
             js_or (opt_get errorData "errorMessage") errorMessage)
          else
            match errorData with
            | JStr s => (errorCode, JStr s)
            | _ => (errorCode, errorMessage)
            end
        else (errorCode, errorMessage) in
      ret (mkIGResponse false None
             (Some (mkIGError errorCode errorMessage))
             (JObj [("status", from_option JInt JUndef status);
                    ("statusText",
                     from_option (fun r => JStr (resp_statusText r)) JUndef
                       (ax_response axiosError));
                    ("response", errorData);
                    ("request",
                     let config := ax_config axiosError in
                     JObj [("url", from_option cfg_url JUndef config);
                           ("method", from_option cfg_method JUndef config);
                           ("data", from_option cfg_data JUndef config)])])
             (Some (friendlyMessage status userMessage)))
  | ThrowError errorObj =>
      (* Non-Axios error: [JSON.stringify] keeps the enumerable properties
         of its own *)
      ret (non_axios_failure (JObj (err_own errorObj))
             (js_or (JStr (err_message errorObj))
                    (JStr (Error_toString errorObj)))
             userMessage)
  | ThrowValue errorObj =>
      (* Non-Axios error that is no [Error]: reading [message] throws on
         [null] and [undefined], [String(error)] where it cannot convert *)
      message <- read errorObj "message";;
      if truthy message then
        ret (non_axios_failure errorObj message userMessage)
      else
        text <- to_String errorObj;;
        ret (non_axios_failure errorObj (JStr text) userMessage)
  end.

Definition succeeded {T} (d : T) (msg : string) : IGResponse T :=
  mkIGResponse true (Some d) None JUndef (Some msg).

Definition header (response : HttpResponse) (k : string) : Json :=
  from_option JStr JUndef (resp_headers response !! k).

Definition authenticate (credentials : IGCredentials)
  : M ClientCtx (IGResponse IGSession) :=
  try_catch
    (response <- axios_request (JStr "post") "/session"
                   [("Version", JStr "2")] JUndef
                   (JObj [("identifier", username credentials);
                          ("password", password credentials)]);;
     let cst := header response "cst" in
     let xSecurityToken := header response "x-security-token" in
     if negb (truthy cst) || negb (truthy xSecurityToken) then
       ret (mkIGResponse false None
              (Some (mkIGError (JStr "AUTH_ERROR")
                       (JStr "Missing authentication tokens in response")))
              (JObj [("status", JInt (resp_status response));
                     ("response", headers_to_Json (resp_headers response))])
              (Some "Authentication failed: Invalid response from IG API"))
     else
       accountId <- read (resp_data response) "accountId";;
       accountType <- read (resp_data response) "accountType";;
       lightstreamerEndpoint <- read (resp_data response) "lightstreamerEndpoint";;
       let session :=
         mkSession xSecurityToken cst cst xSecurityToken
                   accountId accountType lightstreamerEndpoint
                   true (Some (now w)) in
       (* Set default headers for subsequent requests *)
       set_default_header "CST" cst;;;
       set_default_header "X-SECURITY-TOKEN" xSecurityToken;;;
       ret (succeeded session "Successfully authenticated with IG API"))
    (fun error => handleError error "Authentication failed").

Definition setSession (session : IGSession) : M ClientCtx unit :=
  if truthy (cst session) && truthy (xSecurityToken session) then
    set_default_header "CST" (cst session);;;
    set_default_header "X-SECURITY-TOKEN" (xSecurityToken session)
  else ret tt.

Definition getAccounts : M ClientCtx (IGResponse Json) :=
  try_catch
    (response <- axios_request (JStr "get") "/accounts"
                   [("Version", JStr "1")] JUndef JUndef;;
     accounts <- read (resp_data response) "accounts";;
     ret (succeeded accounts "Account information retrieved successfully"))
    (fun error => handleError error "Failed to retrieve account information").

Definition getAccountBalance (accountId : Json) : M ClientCtx (IGResponse Json) :=
  try_catch
    (id <- to_String accountId;;
     response <- axios_request (JStr "get") ("/accounts/" +:+ id)
                   [("Version", JStr "1")] JUndef JUndef;;
     id <- to_String accountId;;
     ret (succeeded (resp_data response)
            ("Account balance for " +:+ id +:+ " retrieved successfully")))
    (fun error =>
       id <- to_String accountId;;
       handleError error ("Failed to retrieve balance for account " +:+ id)).

Definition getPositions : M ClientCtx (IGResponse Json) :=
  try_catch
    (response <- axios_request (JStr "get") "/positions"
                   [("Version", JStr "2")] JUndef JUndef;;
     positions <- read (resp_data response) "positions";;
     ret (succeeded positions "Positions retrieved successfully"))
    (fun error => handleError error "Failed to retrieve positions").

(** [(p: Position) => p.status === 'OPEN'] *)
Definition is_open {S} (p : Json) : M S bool :=
  st <- read p "status";; ret (strict_eq_str st "OPEN").

(** [Array.prototype.filter] with a callback that may throw. *)
Fixpoint filterM {S} (f : Json -> M S bool) (l : list Json) : M S (list Json) :=
  match l with
  | [] => ret []
  | p :: l' =>
      keep <- f p;;
      rest <- filterM f l';;
      ret (if keep then p :: rest else rest)
  end.

Definition getOpenPositions : M ClientCtx (IGResponse Json) :=
  try_catch
    (response <- axios_request (JStr "get") "/positions"
                   [("Version", JStr "2")] JUndef JUndef;;
     positions <- read (resp_data response) "positions";;
     filtered <-
       (if nullish positions then ret JUndef
        else match positions with
             | JArr l => kept <- filterM is_open l;; ret (JArr kept)
             | _ => throw (TypeError_call (engine_stack w)
                             "response.data.positions?.filter")
             end);;
     let openPositions := js_or filtered (JArr []) in
     ret (succeeded openPositions "Open positions retrieved successfully"))
    (fun error => handleError error "Failed to retrieve open positions").

Definition closePosition (dealId direction size : Json)
  : M ClientCtx (IGResponse Json) :=
  try_catch
    (response <- axios_request (JStr "delete") "/positions/otc"
                   [("Version", JStr "1")] JUndef
                   (JObj [("dealId", dealId);
                          ("direction",
                           (* Opposite direction to close *)
                           if strict_eq_str direction "BUY"
                           then JStr "SELL" else JStr "BUY");
                          ("size", size);
                          ("orderType", JStr "MARKET");
                          ("timeInForce", JStr "FILL_OR_KILL")]);;
     id <- to_String dealId;;
     ret (succeeded (resp_data response)
            ("Position " +:+ id +:+ " closed successfully")))
    (fun error =>
       id <- to_String dealId;;
       handleError error ("Failed to close position " +:+ id)).

(** [Object.keys(payload).forEach(key => payload[key] === undefined &&
    delete payload[key])] *)
Definition remove_undefined (fs : list (string * Json)) : list (string * Json) :=
  List.filter (fun kv => match kv.2 with JUndef => false | _ => true end) fs.

Definition placeOrder (request accountId : Json) : M ClientCtx (IGResponse Json) :=
  try_catch
    (epic <- read request "epic";;
     let payload :=
       [("epic", epic);
        ("expiry", opt_get request "expiry");
        ("direction", opt_get request "direction");
        ("size", opt_get request "size");
        ("orderType", js_or (opt_get request "orderType") (JStr "MARKET"));
        ("timeInForce",
         js_or (opt_get request "timeInForce") (JStr "EXECUTE_AND_ELIMINATE"));
        ("level", opt_get request "level");
        ("guaranteedStop", js_or (opt_get request "guaranteedStop") (JBool false));
        ("stopLevel", opt_get request "stopLevel");
        ("stopDistance", opt_get request "stopDistance");
        ("limitLevel", opt_get request "limitLevel");
        ("limitDistance", opt_get request "limitDistance");
        ("currencyCode", opt_get request "currencyCode");
        ("forceOpen",
         JBool (match opt_get request "forceOpen" with
                | JBool false => false
                | _ => true
                end));
        ("goodTillDate", opt_get request "goodTillDate")] in
     (* Remove undefined values *)
     let payload := remove_undefined payload in
     response <- axios_request (JStr "post") "/positions/otc"
                   (("Version", JStr "2") ::
                    (if truthy accountId
                     then [("IG-ACCOUNT-ID", accountId)] else []))
                   JUndef (JObj payload);;
     (* Check if we actually got a deal reference or deal ID *)
     let dealReference :=
       js_or (opt_get (resp_data response) "dealReference")
             (opt_get (resp_data response) "dealReferenceId") in
     let dealId := opt_get (resp_data response) "dealId" in
     userMessage <-
       (if truthy dealReference then
          reference <- to_String dealReference;;
          ret ("Order placed successfully. Deal reference: " +:+ reference)
        else if truthy dealId then
          id <- to_String dealId;;
          ret ("Order placed successfully. Deal ID: " +:+ id)
        else
          ret ("Order accepted but no deal reference received. Response: "
               +:+ stringify_in_template (resp_data response)));;
     ret (succeeded (resp_data response) userMessage))
    (fun error => handleError error "Failed to place order").

Definition getWorkingOrders : M ClientCtx (IGResponse Json) :=
  try_catch
    (response <- axios_request (JStr "get") "/workingorders"
                   [("Version", JStr "2")] JUndef JUndef;;
     workingOrders <- read (resp_data response) "workingOrders";;
     ret (succeeded workingOrders "Working orders retrieved successfully"))
    (fun error => handleError error "Failed to retrieve working orders").

Definition deleteWorkingOrder (dealId : Json) : M ClientCtx (IGResponse Json) :=
  try_catch
    (id <- to_String dealId;;
     response <- axios_request (JStr "delete") ("/workingorders/otc/" +:+ id)
                   [("Version", JStr "2")] JUndef JUndef;;
     id <- to_String dealId;;
     ret (succeeded (resp_data response)
            ("Working order " +:+ id +:+ " deleted successfully")))
    (fun error =>
       id <- to_String dealId;;
       handleError error ("Failed to delete working order " +:+ id)).

Definition getMarketData (epic : Json) : M ClientCtx (IGResponse Json) :=
  try_catch
    (name <- to_String epic;;
     response <- axios_request (JStr "get") ("/markets/" +:+ name)
                   [("Version", JStr "3")] JUndef JUndef;;
     name <- to_String epic;;
     ret (succeeded (resp_data response)
            ("Market data for " +:+ name +:+ " retrieved successfully")))
    (fun error =>
       name <- to_String epic;;
       handleError error ("Failed to retrieve market data for " +:+ name)).

Definition searchInstruments (searchTerm : Json) : M ClientCtx (IGResponse Json) :=
  try_catch
    (response <- axios_request (JStr "get") "/markets"
                   [("Version", JStr "1")]
                   (JObj [("searchTerm", searchTerm)]) JUndef;;
     term <- to_String searchTerm;;
     ret (succeeded (resp_data response)
            ("Search results for " +:+ dquote +:+ term
             +:+ dquote +:+ " retrieved successfully")))
    (fun error =>
       term <- to_String searchTerm;;
       handleError error
         ("Failed to search for instruments matching " +:+ dquote
          +:+ term +:+ dquote)).

Definition getHistoricalPrices (epic resolution from to pageSize : Json)
  : M ClientCtx (IGResponse Json) :=
  (* pageSize: number = 100 *)
  let pageSize := match pageSize with JUndef => JNum "100" | _ => pageSize end in
  try_catch
    (name <- to_String epic;;
     step <- to_String resolution;;
     start <- to_String from;;
     stop <- to_String to;;
     response <- axios_request (JStr "get")
                   ("/prices/" +:+ name +:+ "/" +:+ step
                    +:+ "/" +:+ start +:+ "/" +:+ stop)
                   [("Version", JStr "2")]
                   (JObj [("pageSize", pageSize)]) JUndef;;
     prices <- read (resp_data response) "prices";;
     name <- to_String epic;;
     ret (succeeded (JObj [("prices", prices)])
            ("Historical prices for " +:+ name +:+ " retrieved successfully")))
    (fun error =>
       name <- to_String epic;;
       handleError error
         ("Failed to retrieve historical prices for " +:+ name)).

Definition getWatchlists : M ClientCtx (IGResponse Json) :=
  try_catch
    (response <- axios_request (JStr "get") "/watchlists"
                   [("Version", JStr "1")] JUndef JUndef;;
     ret (succeeded (resp_data response) "Watchlists retrieved successfully"))
    (fun error => handleError error "Failed to retrieve watchlists").

Definition getWatchlistMarkets (watchlistId : Json) : M ClientCtx (IGResponse Json) :=
  try_catch
    (id <- to_String watchlistId;;
     response <- axios_request (JStr "get") ("/watchlists/" +:+ id)
                   [("Version", JStr "1")] JUndef JUndef;;
     id <- to_String watchlistId;;
     ret (succeeded (resp_data response)
            ("Watchlist " +:+ id +:+ " markets retrieved successfully")))
    (fun error =>
       id <- to_String watchlistId;;
       handleError error ("Failed to retrieve watchlist " +:+ id +:+ " markets")).

(** [endpoint.startsWith('/') ? endpoint : `/${endpoint}`] *)
Definition endpoint_url {S} (endpoint : Json) : M S string :=
  match endpoint with
  | JStr s => ret (if String.prefix "/" s then s else "/" +:+ s)
  | JUndef | JNull => throw (TypeError_read (engine_stack w) endpoint "startsWith")
  | _ => throw (TypeError_call (engine_stack w) "endpoint.startsWith")
  end.

Definition callAPI (method endpoint payload version additionalHeaders : Json)
  : M ClientCtx (IGResponse Json) :=
  (* version: string = '1' *)
  let version := match version with JUndef => JStr "1" | _ => version end in
  try_catch
    (url <- endpoint_url endpoint;;
     let hdrs := ("Version", version) :: spread additionalHeaders in
     let body :=
       if truthy payload
          && (strict_eq_str method "POST" || strict_eq_str method "PUT")
       then payload else JUndef in
     let params :=
       if truthy payload
          && negb (strict_eq_str method "POST" || strict_eq_str method "PUT")
          && strict_eq_str method "GET"
       then payload else JUndef in
     response <- axios_request_config method url hdrs params body;;
     path <- to_String endpoint;;
     ret (succeeded (resp_data response)
            ("API call to " +:+ path +:+ " completed successfully")))
    (fun error =>
       path <- to_String endpoint;;
       handleError error ("Failed to call API endpoint: " +:+ path)).

End IGClient_methods.

(** ** Process state *)

(** Environment configuration, read once when the module is loaded. *)
Record Config : Type := mkConfig {
  API_KEY : string;
  USERNAME : string;
  PASSWORD : string;
  API_URL : string;
  MCP_SERVER_API_KEY : string;
  REQUIRE_ENV_CREDENTIALS : bool;
  REQUIRE_AUTHENTICATION : bool;
}.

Record ConnectionSession : Type := mkStore {
  session : option IGSession;
  credentials : option IGCredentials;
}.

Record State : Type := mkState {
  (** session-manager.ts: [const sessions = new Map()] *)
  sessions : gmap string ConnectionSession;
  (** index.ts: [const authenticatedConnections = new Set()] *)
  authenticatedConnections : gset string;
  (** index.ts: [const clients = new Map()] *)
  clients : gmap string IGClient;
  (** index.ts: [let currentConnectionId] *)
  currentConnectionId : string;
  (** every request sent to the broker so far, oldest first *)
  network : list HttpRequest;
}.

Definition set_sessions (f : gmap string ConnectionSession -> gmap string ConnectionSession)
    (st : State) : State :=
  mkState (f (sessions st)) (authenticatedConnections st) (clients st)
          (currentConnectionId st) (network st).

Definition set_authenticatedConnections (f : gset string -> gset string)
    (st : State) : State :=
  mkState (sessions st) (f (authenticatedConnections st)) (clients st)
          (currentConnectionId st) (network st).

Definition set_clients (f : gmap string IGClient -> gmap string IGClient)
    (st : State) : State :=
  mkState (sessions st) (authenticatedConnections st) (f (clients st))
          (currentConnectionId st) (network st).

(** ** session-manager.ts

    A store is a mutable object reached only through its entry in
    [sessions]; assigning one of its fields rewrites the entry. *)

Module SessionManager.

Definition getSessionStore (connectionId : string) : M State ConnectionSession :=
  fun st =>
    match sessions st !! connectionId with
    | Some store => (inr store, st)
    | None =>
        let store := mkStore None None in
        (inr store, set_sessions (insert connectionId store) st)
    end.

Definition setSession (connectionId : string) (s : IGSession) : M State unit :=
  store <- getSessionStore connectionId;;
  modify (set_sessions
            (insert connectionId (mkStore (Some s) (credentials store)))).

Definition getSession (connectionId : string) : M State (option IGSession) :=
  store <- getSessionStore connectionId;;
  ret (session store).

Definition setCredentials (connectionId : string) (c : IGCredentials)
  : M State unit :=
  store <- getSessionStore connectionId;;
  modify (set_sessions
            (insert connectionId (mkStore (session store) (Some c)))).

Definition clearSession (connectionId : string) : M State unit :=
  store <- getSessionStore connectionId;;
  modify (set_sessions (insert connectionId (mkStore None (credentials store))));;;
  modify (set_sessions (insert connectionId (mkStore None None))).

(** [session?.authenticated === true] *)
Definition isAuthenticated (connectionId : string) : M State bool :=
  s <- getSession connectionId;;
  ret (match s with
       | Some s => authenticated s
       | None => false
       end).

Definition clearAll : M State unit :=
  modify (set_sessions (fun _ => ∅)).

(** The entries are listed in the order of the finite map; the source
    lists them in the order in which the connections were first seen. *)
Definition getAllSessions : M State (list (string * option IGSession)) :=
  gets (fun st => map_to_list (session <$> sessions st)).

End SessionManager.

(** ** index.ts *)

Record Content : Type := mkContent {
  type : string;
  text : JsonText;
}.

(** The result of a tool call. *)
Record Envelope : Type := mkEnvelope {
  content : list Content;
  isError : bool;
}.

(** [{ content: [{ type: 'text', text: JSON.stringify(body, null, 2) }],
       isError }] *)
Definition envelope (body : Json) (is_error : bool) : Envelope :=
  mkEnvelope [mkContent "text" (JSON_stringify body)] is_error.

(** [userMessage || fallback] on a [string | undefined] *)
Definition or_string (m : option string) (fallback : string) : string :=
  match m with
  | Some s => if bool_decide (s = EmptyString) then fallback else s
  | None => fallback
  end.

Definition formatResponse (d : Json) (message : option string) (dbg : Json) : Json :=
  let result :=
    [("message", JStr (or_string message "Operation completed successfully"));
     ("data", d)] in
  if truthy dbg && typeof_object dbg
  then JObj (result ++ [("debug", dbg)])
  else JObj result.

Section Dispatcher.

Context (cfg : Config) (w : World).

(** [s || fallback] on strings *)
Definition str_or (s fallback : string) : string :=
  if bool_decide (s = EmptyString) then fallback else s.

(** Get or create IG client for a connection *)
Definition getClient (connectionId : string) : M State IGClient :=
  fun st =>
    match clients st !! connectionId with
    | Some client => (inr client, st)
    | None =>
        let client :=
          new_IGClient (JStr (str_or (API_KEY cfg) "default-key")) (API_URL cfg) in
        (inr client, set_clients (insert connectionId client) st)
    end.

(** A method call on the client object of a connection.  [client] is the
    object as it was when the variable was bound; the object itself lives in
    the entry of [connectionId], which no other variable refers to. *)
Definition invoke {A} (connectionId : string) (client : IGClient)
    (method : M ClientCtx A) : M State A :=
  fun st =>
    let obj := default client (clients st !! connectionId) in
    let '(r, c) := method (mkCtx obj (network st)) in
    (r, mkState (sessions st) (authenticatedConnections st)
                (<[connectionId := this c]> (clients st))
                (currentConnectionId st) (net c)).

Definition getSession (connectionId : string) : M State (option IGSession) :=
  SessionManager.getSession connectionId.

(** Check if authenticated *)
Definition ensureAuthenticated (connectionId : string) : M State (option string) :=
  s <- getSession connectionId;;
  ret (match s with
       | Some s =>
           if negb (authenticated s)
           then Some "Not authenticated. Please use the login tool first."
           else None
       | None => Some "Not authenticated. Please use the login tool first."
       end).

(** Validate MCP server API key if required *)
Definition validateApiKey (key : Json) : bool :=
  if bool_decide (MCP_SERVER_API_KEY cfg = EmptyString) then true
  else strict_eq_str key (MCP_SERVER_API_KEY cfg).

(** The connection gate as a function of the state: what
    [isConnectionAuthenticated] answers. *)
Definition connection_allowed (st : State) (connectionId : string) : bool :=
  negb (REQUIRE_AUTHENTICATION cfg)
  || bool_decide (MCP_SERVER_API_KEY cfg = EmptyString)
  || bool_decide (connectionId ∈ authenticatedConnections st).

(** Check if connection is authenticated *)
Definition isConnectionAuthenticated (connectionId : string) : M State bool :=
  if negb (REQUIRE_AUTHENTICATION cfg)
     || bool_decide (MCP_SERVER_API_KEY cfg = EmptyString)
  then ret true
  else gets (fun st => bool_decide (connectionId ∈ authenticatedConnections st)).

(** Authenticate a connection *)
Definition authenticateConnection (connectionId : string) (key : Json)
  : M State bool :=
  if negb (REQUIRE_AUTHENTICATION cfg)
     || bool_decide (MCP_SERVER_API_KEY cfg = EmptyString)
  then ret true
  else if validateApiKey key then
    modify (set_authenticatedConnections (fun s => {[connectionId]} ∪ s));;;
    ret true
  else ret false.

(** Check if credentials should be allowed via tool call *)
Definition allowToolCredentials : bool := negb (REQUIRE_ENV_CREDENTIALS cfg).

(** [!!(args?.username || args?.password || args?.apiKey)] *)
Definition credentialsFromTool (args : Json) : bool :=
  truthy (js_or (js_or (opt_get args "username") (opt_get args "password"))
                (opt_get args "apiKey")).

(** Use provided credentials or fall back to environment variables *)
Definition effective_credentials (args : Json) : IGCredentials :=
  mkCredentials (js_or (opt_get args "username") (JStr (USERNAME cfg)))
                (js_or (opt_get args "password") (JStr (PASSWORD cfg)))
                (js_or (opt_get args "apiKey") (JStr (API_KEY cfg))).

(** The [case] labels of the [switch (name)]. *)
Inductive Tool : Type :=
| mcp_authenticate | ig_login | ig_logout | ig_get_accounts
| ig_get_account_balance | ig_get_positions | ig_get_open_positions
| ig_close_position | ig_place_order | ig_get_working_orders
| ig_delete_working_order | ig_get_market_data | ig_search_instruments
| ig_get_historical_prices | ig_get_watchlists | ig_get_watchlist_markets
| ig_call_api.

Definition tool_names : list (string * Tool) :=
  [("mcp_authenticate", mcp_authenticate); ("ig_login", ig_login);
   ("ig_logout", ig_logout); ("ig_get_accounts", ig_get_accounts);
   ("ig_get_account_balance", ig_get_account_balance);
   ("ig_get_positions", ig_get_positions);
   ("ig_get_open_positions", ig_get_open_positions);
   ("ig_close_position", ig_close_position);
   ("ig_place_order", ig_place_order);
   ("ig_get_working_orders", ig_get_working_orders);
   ("ig_delete_working_order", ig_delete_working_order);
   ("ig_get_market_data", ig_get_market_data);
   ("ig_search_instruments", ig_search_instruments);
   ("ig_get_historical_prices", ig_get_historical_prices);
   ("ig_get_watchlists", ig_get_watchlists);
   ("ig_get_watchlist_markets", ig_get_watchlist_markets);
   ("ig_call_api", ig_call_api)].

(** The label selected by [switch (name)]; [None] is [default]. *)
Fixpoint select (name : string) (labels : list (string * Tool)) : option Tool :=
  match labels with
  | [] => None
  | (label, t) :: rest =>
      if bool_decide (name = label) then Some t else select name rest
  end.

(** What [ig_login] does with the answer of [authenticate], on the client
    that was asked. *)
Definition login_result (connectionId : string) (client : IGClient)
    (creds : IGCredentials) (result : IGResponse IGSession) : M State Envelope :=
  match data result with
  | Some s =>
      if success result then
        SessionManager.setSession connectionId s;;;
        SessionManager.setCredentials connectionId creds;;;
        invoke connectionId client (setSession s);;;
        ret (envelope
               (formatResponse
                  (JObj [("authenticated", JBool true);
                         ("accountId", accountId s);
                         ("accountType", accountType s)])
                  (Some (or_string (userMessage result) "Successfully authenticated"))
                  (JObj [("sessionToken", JStr "***hidden***")]))
               false)
      else
        ret (envelope
               (formatResponse JNull
                  (Some (or_string (userMessage result) "Authentication failed"))
                  (debug result))
               true)
  | None =>
      ret (envelope
             (formatResponse JNull
                (Some (or_string (userMessage result) "Authentication failed"))
                (debug result))
             true)
  end.

(** The shape shared by every broker-facing [case]: check the session,
    re-apply its tokens to the client, call the client, wrap the result. *)
Definition broker_tool (connectionId : string) (client : IGClient)
    (call : M ClientCtx (IGResponse Json)) : M State Envelope :=
  authError <- ensureAuthenticated connectionId;;
  match authError with
  | Some msg => ret (envelope (formatResponse JNull (Some msg) JUndef) true)
  | None =>
      s <- getSession connectionId;;
      match s with
      | Some s => invoke connectionId client (setSession s)
      | None => ret tt
      end;;;
      result <- invoke connectionId client call;;
      ret (envelope
             (formatResponse (default JUndef (data result))
                             (userMessage result) (debug result))
             (negb (success result)))
  end.

(** The body of the [try] block of [executeToolCall]. *)
Definition handler (connectionId : string) (client : IGClient)
    (name : string) (args : Json) : M State Envelope :=
  (* Security: Check if authentication is required for this connection *)
  allowed <- isConnectionAuthenticated connectionId;;
  if negb allowed && negb (bool_decide (name = "mcp_authenticate")) then
    ret (envelope
           (formatResponse JNull
              (Some "Unauthorized: Connection not authenticated. Please call 'mcp_authenticate' first with your MCP_SERVER_API_KEY. This prevents unauthorized access to your IG account.")
              (JObj [("securityPolicy", JStr "Authentication required");
                     ("requiresAuthentication", JBool (REQUIRE_AUTHENTICATION cfg));
                     ("apiKeyRequired",
                      JBool (negb (bool_decide (MCP_SERVER_API_KEY cfg = EmptyString))))]))
           true)
  else
  match select name tool_names with
  | Some mcp_authenticate =>
      let providedApiKey := js_or (opt_get args "apiKey") (JStr EmptyString) in
      if bool_decide (MCP_SERVER_API_KEY cfg = EmptyString) then
        ret (envelope
               (formatResponse (JObj [("authenticated", JBool true)])
                  (Some "No API key required. Server is open for connections.")
                  JNull)
               false)
      else
        accepted <- authenticateConnection connectionId providedApiKey;;
        if accepted then
          ret (envelope
                 (formatResponse
                    (JObj [("authenticated", JBool true);
                           ("connectionId", JStr connectionId)])
                    (Some "Successfully authenticated with MCP server. You can now use IG API tools.")
                    JNull)
                 false)
        else
          ret (envelope
                 (formatResponse JNull
                    (Some "Authentication failed: Invalid API key. Please provide the correct MCP_SERVER_API_KEY.")
                    (JObj [("authenticated", JBool false)]))
                 true)
  | Some ig_login =>
      (* Security: Check if credentials via tool are allowed *)
      if REQUIRE_ENV_CREDENTIALS cfg && credentialsFromTool args then
        ret (envelope
               (formatResponse JNull
                  (Some "SECURITY: This server requires credentials to be set via environment variables only. Credentials cannot be passed through tool calls. Set IG_USERNAME, IG_PASSWORD, and IG_API_KEY as environment variables.")
                  (JObj [("securityPolicy", JStr "REQUIRE_ENV_CREDENTIALS is enabled")]))
               true)
      else
        let creds := effective_credentials args in
        if negb (truthy (username creds)) || negb (truthy (password creds))
           || negb (truthy (apiKey creds)) then
          ret (envelope
                 (formatResponse JNull
                    (Some "Missing credentials. Please provide username, password, and apiKey, or set them via environment variables (IG_USERNAME, IG_PASSWORD, IG_API_KEY).")
                    (JObj [("provided",
                            JObj [("username", JBool (truthy (opt_get args "username")));
                                  ("password", JBool (truthy (opt_get args "password")));
                                  ("apiKey", JBool (truthy (opt_get args "apiKey")))]);
                           ("envVarsSet",
                            JObj [("username", JBool (truthy (JStr (USERNAME cfg))));
                                  ("password", JBool (truthy (JStr (PASSWORD cfg))));
                                  ("apiKey", JBool (truthy (JStr (API_KEY cfg))))]);
                           ("requireEnvCredentials",
                            JBool (REQUIRE_ENV_CREDENTIALS cfg))]))
                 true)
        else if truthy (opt_get args "apiKey")
                && negb (strict_eq_str (opt_get args "apiKey") (API_KEY cfg)) then
          (* Update client with provided API key if different *)
          modify (set_clients (delete connectionId));;;
          let newClient := new_IGClient (apiKey creds) (API_URL cfg) in
          modify (set_clients (insert connectionId newClient));;;
          result <- invoke connectionId newClient (authenticate w creds);;
          login_result connectionId newClient creds result
        else
          result <- invoke connectionId client (authenticate w creds);;
          login_result connectionId client creds result
  | Some ig_logout =>
      authError <- ensureAuthenticated connectionId;;
      match authError with
      | Some msg => ret (envelope (formatResponse JNull (Some msg) JUndef) true)
      | None =>
          SessionManager.clearSession connectionId;;;
          ret (envelope
                 (formatResponse JNull
                    (Some "Successfully logged out and session cleared") JUndef)
                 false)
      end
  | Some ig_get_accounts =>
      broker_tool connectionId client (getAccounts w)
  | Some ig_get_account_balance =>
      broker_tool connectionId client
        (getAccountBalance w (opt_get args "accountId"))
  | Some ig_get_positions =>
      broker_tool connectionId client (getPositions w)
  | Some ig_get_open_positions =>
      broker_tool connectionId client (getOpenPositions w)
  | Some ig_close_position =>
      broker_tool connectionId client
        (closePosition w (opt_get args "dealId") (opt_get args "direction")
                       (opt_get args "size"))
  | Some ig_place_order =>
      let orderRequest :=
        JObj (map (fun k => (k, opt_get args k))
                  ["epic"; "expiry"; "direction"; "size"; "orderType"; "level";
                   "timeInForce"; "goodTillDate"; "guaranteedStop"; "stopLevel";
                   "stopDistance"; "limitLevel"; "limitDistance"; "currencyCode";
                   "forceOpen"]) in
      broker_tool connectionId client
        (placeOrder w orderRequest (opt_get args "accountId"))
  | Some ig_get_working_orders =>
      broker_tool connectionId client (getWorkingOrders w)
  | Some ig_delete_working_order =>
      broker_tool connectionId client (deleteWorkingOrder w (opt_get args "dealId"))
  | Some ig_get_market_data =>
      broker_tool connectionId client (getMarketData w (opt_get args "epic"))
  | Some ig_search_instruments =>
      broker_tool connectionId client
        (searchInstruments w (opt_get args "searchTerm"))
  | Some ig_get_historical_prices =>
      broker_tool connectionId client
        (getHistoricalPrices w (opt_get args "epic") (opt_get args "resolution")
           (opt_get args "from") (opt_get args "to")
           (js_or (opt_get args "pageSize") (JNum "100")))
  | Some ig_get_watchlists =>
      broker_tool connectionId client (getWatchlists w)
  | Some ig_get_watchlist_markets =>
      broker_tool connectionId client
        (getWatchlistMarkets w (opt_get args "watchlistId"))
  | Some ig_call_api =>
      broker_tool connectionId client
        (callAPI w (opt_get args "method") (opt_get args "endpoint")
                 (opt_get args "payload")
                 (js_or (opt_get args "version") (JStr "1"))
                 (opt_get args "additionalHeaders"))
  | None =>
      ret (envelope
             (formatResponse JNull (Some ("Unknown tool: " +:+ name)) JNull)
             true)
  end.

(** The [catch (error)] block of [executeToolCall]. *)
Definition unexpected (error : Thrown) : Envelope :=
  envelope
    (formatResponse JNull
       (Some ("Unexpected error: " +:+
              match instanceof_Error error with
              | Some e => err_message e
              | None => Thrown_String error
              end))
       (JObj [("error",
               match instanceof_Error error with
               | Some e => from_option JStr JUndef (err_stack e)
               | None => JStr (Thrown_String error)
               end)]))
    true.

(** Shared tool call handler logic (used by both stdio and HTTP transports) *)
Definition executeToolCall (name : string) (args : Json) : M State Envelope :=
  connectionId <- gets currentConnectionId;;
  client <- getClient connectionId;;
  try_catch (handler connectionId client name args)
            (fun error => ret (unexpected error)).

End Dispatcher.

(** ** Observations used in the statements *)

(** The session store of a connection holds a session whose
    [authenticated] flag is [true]. *)
Definition has_authenticated_session (st : State) (connectionId : string) : bool :=
  match sessions st !! connectionId with
  | Some store =>
      match session store with
      | Some s => authenticated s
      | None => false
      end
  | None => false
  end.

(** The document a caller decodes from the text of an envelope. *)
Definition decoded (env : Envelope) : Json :=
  match content env with
  | c :: _ => JSON_parse (text c)
  | [] => JUndef
  end.

(** A field of the decoded document; [None] when it is absent. *)
Definition decoded_field (k : string) (env : Envelope) : option Json :=
  match decoded env with
  | JObj fs => assoc k fs
  | _ => None
  end.

Definition data_absent_or_null (env : Envelope) : Prop :=
  decoded_field "data" env = None \/ decoded_field "data" env = Some JNull.

(** The per-resource operations of the client, with their arguments. *)
Inductive ResourceCall : Type :=
| GetAccounts
| GetAccountBalance (accountId : Json)
| GetPositions
| GetOpenPositions
| ClosePosition (dealId direction size : Json)
| PlaceOrder (request accountId : Json)
| GetWorkingOrders
| DeleteWorkingOrder (dealId : Json)
| GetMarketData (epic : Json)
| SearchInstruments (searchTerm : Json)
| GetHistoricalPrices (epic resolution from to pageSize : Json)
| GetWatchlists
| GetWatchlistMarkets (watchlistId : Json)
| CallAPI (method endpoint payload version additionalHeaders : Json).

Definition perform (w : World) (c : ResourceCall) : M ClientCtx (IGResponse Json) :=
  match c with
  | GetAccounts => getAccounts w
  | GetAccountBalance a => getAccountBalance w a
  | GetPositions => getPositions w
  | GetOpenPositions => getOpenPositions w
  | ClosePosition d dir sz => closePosition w d dir sz
  | PlaceOrder r a => placeOrder w r a
  | GetWorkingOrders => getWorkingOrders w
  | DeleteWorkingOrder d => deleteWorkingOrder w d
  | GetMarketData e => getMarketData w e
  | SearchInstruments t => searchInstruments w t
  | GetHistoricalPrices e r f t p => getHistoricalPrices w e r f t p
  | GetWatchlists => getWatchlists w
  | GetWatchlistMarkets i => getWatchlistMarkets w i
  | CallAPI m e p v h => callAPI w m e p v h
  end.

(** The type ['BUY' | 'SELL'] and, in the words of the specification, the
    opposite direction. *)
Inductive Direction : Type := BUY | SELL.

Definition Direction_to_Json (d : Direction) : Json :=
  match d with BUY => JStr "BUY" | SELL => JStr "SELL" end.

Definition opposite (d : Direction) : Direction :=
  match d with BUY => SELL | SELL => BUY end.

(** In the words of the specification: the positions whose status equals
    [OPEN], in their order. *)
Definition open_sublist (positions : list Json) : list Json :=
  List.filter (fun p => strict_eq_str (opt_get p "status") "OPEN") positions.

(** The session kept for a connection, if any. *)
Definition session_of (st : State) (connectionId : string) : option IGSession :=
  match sessions st !! connectionId with
  | Some store => session store
  | None => None
  end.

(** The state once [getSessionStore] has made sure the entry exists. *)
Definition provision (connectionId : string) (st : State) : State :=
  match sessions st !! connectionId with
  | Some _ => st
  | None => set_sessions (insert connectionId (mkStore None None)) st
  end.

(** Computations that leave their state alone. *)
Definition pure_m {S A} (m : M S A) : Prop := forall s, (m s).2 = s.

(** Computations whose results report success, and client methods whose
    failures carry no data. *)
Definition succeeds {S T} (m : M S (IGResponse T)) : Prop :=
  forall s r s', m s = (inr r, s') -> success r = true.

Definition failure_without_data {T} (m : M ClientCtx (IGResponse T)) : Prop :=
  forall ctx r ctx', m ctx = (inr r, ctx') -> success r = false -> data r = None.

(** The three ways the dispatcher builds an envelope. *)
Inductive shaped : Envelope -> Prop :=
| shaped_rejection m dbg :
    shaped (envelope (formatResponse JNull m dbg) true)
| shaped_success body :
    shaped (envelope body false)
| shaped_result (r : IGResponse Json) :
    (success r = false -> data r = None) ->
    shaped (envelope (formatResponse (default JUndef (data r))
                                     (userMessage r) (debug r))
                     (negb (success r))).

(** ** Concrete scenarios *)

Module Scenario.

Definition url : string := "https://demo-api.ig.com/gateway/deal".

(** No gatekeeping secret, credentials in the environment. *)
Definition cfg_open : Config :=
  mkConfig "env-key" "env-user" "env-pass" url EmptyString false true.

(** As [cfg_open], with strict-credential mode on. *)
Definition cfg_strict : Config :=
  mkConfig "env-key" "env-user" "env-pass" url EmptyString true true.

(** A gatekeeping secret, with [REQUIRE_AUTHENTICATION=false]. *)
Definition cfg_gate_off : Config :=
  mkConfig "env-key" "env-user" "env-pass" url "s3cret" false false.

Definition session_response : HttpResponse :=
  mkResponse 200 "OK"
    (list_to_map [("cst", "CST-1"); ("x-security-token", "XST-1")])
    (JObj [("accountId", JStr "ABC123"); ("accountType", JStr "SPREADBET")]).

(** HTTP success on the session endpoint without the second token. *)
Definition tokenless_response : HttpResponse :=
  mkResponse 200 "OK" (list_to_map [("cst", "CST-1")])
    (JObj [("accountId", JStr "ABC123")]).

Definition position (dealId status : string) : Json :=
  JObj [("dealId", JStr dealId); ("status", JStr status)].

Definition positions_response : HttpResponse :=
  mkResponse 200 "OK" ∅
    (JObj [("positions",
            JArr [position "D1" "OPEN"; position "D2" "CLOSED";
                  position "D3" "OPEN"])]).

Definition unauthorized : AxiosError :=
  mkAxiosError
    (mkError "AxiosError" "Request failed with status code 401" None [])
    (Some (mkResponse 401 "Unauthorized" ∅
             (JObj [("errorCode", JStr "error.security.client-token-invalid")])))
    None.

Definition stack (msg : string) : string := "TypeError: " +:+ msg.

(** A broker that logs in and lists three positions. *)
Definition w_ok : World :=
  mkWorld (fun _ req =>
             if bool_decide (req_url req = "/session")
             then Resolve session_response
             else Resolve positions_response)
          stack 0.

Definition w_tokenless : World :=
  mkWorld (fun _ _ => Resolve tokenless_response) stack 0.

(** A broker that answers 401 to everything. *)
Definition w_401 : World :=
  mkWorld (fun _ _ => Reject (ThrowAxios unauthorized)) stack 0.

(** A transport that rejects with [null]. *)
Definition w_null : World :=
  mkWorld (fun _ _ => Reject (ThrowValue JNull)) stack 0.

Definition st_fresh : State := mkState ∅ ∅ ∅ "conn_1" [].

Definition st_logged_in : State :=
  (executeToolCall cfg_open w_ok "ig_login" JUndef st_fresh).2.

Definition ctx_fresh : ClientCtx :=
  mkCtx (new_IGClient (JStr "env-key") url) [].

End Scenario.

(** ** index.ts: the tool registry and the JSON-RPC front end *)

(** [tools.map(tool => tool.name)]: the names under which the tools are
    declared, in the order of the [tools] array. *)
Definition declared_tool_names : list string :=
  ["mcp_authenticate"; "ig_login"; "ig_logout"; "ig_get_accounts";
   "ig_get_account_balance"; "ig_get_positions"; "ig_get_open_positions";
   "ig_close_position"; "ig_place_order"; "ig_get_working_orders";
   "ig_delete_working_order"; "ig_get_market_data"; "ig_search_instruments";
   "ig_get_historical_prices"; "ig_get_watchlists";
   "ig_get_watchlist_markets"; "ig_call_api"].

(** The client call behind a broker-facing [case], with the arguments as
    the [case] extracts them; [None] for the three cases that call no
    per-resource operation. *)
Definition call_of_tool (t : Tool) (args : Json) : option ResourceCall :=
  match t with
  | mcp_authenticate | ig_login | ig_logout => None
  | ig_get_accounts => Some GetAccounts
  | ig_get_account_balance => Some (GetAccountBalance (opt_get args "accountId"))
  | ig_get_positions => Some GetPositions
  | ig_get_open_positions => Some GetOpenPositions
  | ig_close_position =>
      Some (ClosePosition (opt_get args "dealId") (opt_get args "direction")
                          (opt_get args "size"))
  | ig_place_order =>
      Some (PlaceOrder
              (JObj (map (fun k => (k, opt_get args k))
                         ["epic"; "expiry"; "direction"; "size"; "orderType";
                          "level"; "timeInForce"; "goodTillDate";
                          "guaranteedStop"; "stopLevel"; "stopDistance";
                          "limitLevel"; "limitDistance"; "currencyCode";
                          "forceOpen"]))
              (opt_get args "accountId"))
  | ig_get_working_orders => Some GetWorkingOrders
  | ig_delete_working_order => Some (DeleteWorkingOrder (opt_get args "dealId"))
  | ig_get_market_data => Some (GetMarketData (opt_get args "epic"))
  | ig_search_instruments => Some (SearchInstruments (opt_get args "searchTerm"))
  | ig_get_historical_prices =>
      Some (GetHistoricalPrices (opt_get args "epic") (opt_get args "resolution")
              (opt_get args "from") (opt_get args "to")
              (js_or (opt_get args "pageSize") (JNum "100")))
  | ig_get_watchlists => Some GetWatchlists
  | ig_get_watchlist_markets =>
      Some (GetWatchlistMarkets (opt_get args "watchlistId"))
  | ig_call_api =>
      Some (CallAPI (opt_get args "method") (opt_get args "endpoint")
              (opt_get args "payload")
              (js_or (opt_get args "version") (JStr "1"))
              (opt_get args "additionalHeaders"))
  end.

(** The failure message each per-resource operation hands to
    [handleError], where the argument it quotes converts to a string. *)
Definition failure_message (c : ResourceCall) : string :=
  match c with
  | GetAccounts => "Failed to retrieve account information"
  | GetAccountBalance a =>
      "Failed to retrieve balance for account " +:+ js_String a
  | GetPositions => "Failed to retrieve positions"
  | GetOpenPositions => "Failed to retrieve open positions"
  | ClosePosition d _ _ => "Failed to close position " +:+ js_String d
  | PlaceOrder _ _ => "Failed to place order"
  | GetWorkingOrders => "Failed to retrieve working orders"
  | DeleteWorkingOrder d => "Failed to delete working order " +:+ js_String d
  | GetMarketData e => "Failed to retrieve market data for " +:+ js_String e
  | SearchInstruments t =>
      "Failed to search for instruments matching " +:+ dquote
      +:+ js_String t +:+ dquote
  | GetHistoricalPrices e _ _ _ _ =>
      "Failed to retrieve historical prices for " +:+ js_String e
  | GetWatchlists => "Failed to retrieve watchlists"
  | GetWatchlistMarkets i =>
      "Failed to retrieve watchlist " +:+ js_String i +:+ " markets"
  | CallAPI _ e _ _ _ => "Failed to call API endpoint: " +:+ js_String e
  end.

(** The same message, given the text of the quoted argument. *)
Definition failure_text (c : ResourceCall) (text : string) : string :=
  match c with
  | GetAccounts => "Failed to retrieve account information"
  | GetAccountBalance _ => "Failed to retrieve balance for account " +:+ text
  | GetPositions => "Failed to retrieve positions"
  | GetOpenPositions => "Failed to retrieve open positions"
  | ClosePosition _ _ _ => "Failed to close position " +:+ text
  | PlaceOrder _ _ => "Failed to place order"
  | GetWorkingOrders => "Failed to retrieve working orders"
  | DeleteWorkingOrder _ => "Failed to delete working order " +:+ text
  | GetMarketData _ => "Failed to retrieve market data for " +:+ text
  | SearchInstruments _ =>
      "Failed to search for instruments matching " +:+ dquote
      +:+ text +:+ dquote
  | GetHistoricalPrices _ _ _ _ _ =>
      "Failed to retrieve historical prices for " +:+ text
  | GetWatchlists => "Failed to retrieve watchlists"
  | GetWatchlistMarkets _ =>
      "Failed to retrieve watchlist " +:+ text +:+ " markets"
  | CallAPI _ _ _ _ _ => "Failed to call API endpoint: " +:+ text
  end.

(** The argument a per-resource operation quotes in its messages. *)
Definition quoted (c : ResourceCall) : option Json :=
  match c with
  | GetAccountBalance a => Some a
  | ClosePosition d _ _ => Some d
  | DeleteWorkingOrder d => Some d
  | GetMarketData e => Some e
  | SearchInstruments t => Some t
  | GetHistoricalPrices e _ _ _ _ => Some e
  | GetWatchlistMarkets i => Some i
  | CallAPI _ e _ _ _ => Some e
  | _ => None
  end.

(** The quoted argument, if there is one, converts to a string. *)
Definition message_printable (c : ResourceCall) : bool :=
  from_option printable true (quoted c).

(** The [catch] block of each per-resource operation. *)
Definition catch_block (w : World) (c : ResourceCall) (error : Thrown)
  : M ClientCtx (IGResponse Json) :=
  match quoted c with
  | Some v =>
      text <- to_String w v;;
      handleError w error (failure_text c text)
  | None => handleError w error (failure_text c EmptyString)
  end.

(** Calls whose request the code and the arguments determine: the URL is
    fixed or built from arguments that convert to strings, [placeOrder] has
    a request object to read and an account id that can be a header.  The
    generic [callAPI], whose caller chooses method and headers, is not among
    them. *)
Definition sends_request (c : ResourceCall) : bool :=
  match c with
  | GetAccountBalance a => printable a
  | DeleteWorkingOrder d => printable d
  | GetMarketData e => printable e
  | GetWatchlistMarkets i => printable i
  | GetHistoricalPrices e r f t _ =>
      printable e && printable r && printable f && printable t
  | PlaceOrder request a => negb (nullish request) && printable a
  | CallAPI _ _ _ _ _ => false
  | _ => true
  end.

(** Thrown values that are instances of [Error]. *)
Definition is_error (e : Thrown) : Prop :=
  match e with
  | ThrowValue _ => False
  | _ => True
  end.

(** Computations that throw nothing but instances of [Error]. *)
Definition throws_errors {S A} (m : M S A) : Prop :=
  forall s e s', m s = (inl e, s') -> is_error e.

(** A transport that rejects with instances of [Error] only, as axios
    does. *)
Definition rejects_with_errors (w : World) : Prop :=
  forall history req e, broker w history req = Reject e -> is_error e.

(** What a call may do to the process state on behalf of connection
    [connectionId]: the current identity stays, gate authorisations are only
    added, other connections keep their store entry and their client, and
    requests are only appended to the log. *)
Definition framed (connectionId : string) (st st' : State) : Prop :=
  currentConnectionId st' = currentConnectionId st
  /\ authenticatedConnections st ⊆ authenticatedConnections st'
  /\ (forall c, c <> connectionId -> sessions st' !! c = sessions st !! c)
  /\ (forall c, c <> connectionId -> clients st' !! c = clients st !! c)
  /\ (exists sent, network st' = (network st ++ sent)%list).

(** A computation whose final state is related to its initial state. *)
Definition preserves {S A} (R : S -> S -> Prop) (m : M S A) : Prop :=
  forall s, R s (m s).2.

(** A client method that only appends to the request log. *)
Definition appends {A} (m : M ClientCtx A) : Prop :=
  forall ctx, exists sent, net (m ctx).2 = (net ctx ++ sent)%list.

(** The gate set stays as it is. *)
Definition same_gate (st st' : State) : Prop :=
  authenticatedConnections st' = authenticatedConnections st.

(** Every connection keeps its session. *)
Definition same_sessions (st st' : State) : Prop :=
  forall c, session_of st' c = session_of st c.

Section Transport.

Context (cfg : Config) (w : World).

(** The envelope of the connection gate. *)
Definition gate_refusal : Envelope :=
  envelope
    (formatResponse JNull
       (Some "Unauthorized: Connection not authenticated. Please call 'mcp_authenticate' first with your MCP_SERVER_API_KEY. This prevents unauthorized access to your IG account.")
       (JObj [("securityPolicy", JStr "Authentication required");
              ("requiresAuthentication", JBool (REQUIRE_AUTHENTICATION cfg));
              ("apiKeyRequired",
               JBool (negb (bool_decide (MCP_SERVER_API_KEY cfg = EmptyString))))]))
    true.

(** [executeToolCall(name, args)] for a [name] as it arrives from a
    transport.  No [case] label is strictly equal to a value that is no
    string: such a name passes the gate check and falls to [default]. *)
Definition executeToolCall_any (name args : Json) : M State Envelope :=
  match name with
  | JStr s => executeToolCall cfg w s args
  | _ =>
      connectionId <- gets currentConnectionId;;
      client <- getClient cfg connectionId;;
      try_catch
        (allowed <- isConnectionAuthenticated cfg connectionId;;
         if negb allowed then ret gate_refusal
         else
           label <- to_String w name;;
           ret (envelope
                  (formatResponse JNull (Some ("Unknown tool: " +:+ label)) JNull)
                  true))
        (fun error => ret (unexpected error))
  end.

(** The [result] member of a JSON-RPC reply. *)
Inductive RpcResult : Type :=
| ToolsListResult                 (* [{ tools }], the declared tools *)
| ToolCallResult (env : Envelope)
| InitializeResult (info : Json).

(** A JSON-RPC reply: [{jsonrpc: '2.0', id, result}] or
    [{jsonrpc: '2.0', id, error: {code, message, data?}}]. *)
Inductive RpcReply : Type :=
| Reply (id : Json) (result : RpcResult)
| Failure (id : Json) (code : Z) (message : string) (data : option string).

(** Handle tools/call request (used by HTTP transport) *)
Definition handleCallTool (name args : Json) : M State Envelope :=
  executeToolCall_any name args.

(** Handle MCP JSON-RPC request over HTTP.  The body is given by what
    [JSON.parse] makes of it: the [SyntaxError] it throws, or the value. *)
Definition handleMCPRequest (body : JsError + Json) : M State RpcReply :=
  try_catch
    (request <- match body with
                | inl syntax_error => throw (ThrowError syntax_error)
                | inr v => ret v
                end;;
     (* Validate JSON-RPC format *)
     jsonrpc <- read w request "jsonrpc";;
     if negb (strict_eq_str jsonrpc "2.0") then
       ret (Failure (js_or (opt_get request "id") JNull) (-32600)
              ("Invalid Request: jsonrpc must be " +:+ dquote +:+ "2.0" +:+ dquote)
              None)
     else if strict_eq_str (opt_get request "method") "tools/list" then
       (* Handle tools/list *)
       ret (Reply (opt_get request "id") ToolsListResult)
     else if strict_eq_str (opt_get request "method") "tools/call" then
       (* Handle tools/call *)
       name <- read w (opt_get request "params") "name";;
       arguments <- read w (opt_get request "params") "arguments";;
       result <- handleCallTool name (js_or arguments (JObj []));;
       ret (Reply (opt_get request "id") (ToolCallResult result))
     else if strict_eq_str (opt_get request "method") "initialize" then
       (* Handle initialize *)
       ret (Reply (opt_get request "id")
              (InitializeResult
                 (JObj [("protocolVersion", JStr "2024-11-05");
                        ("capabilities", JObj [("tools", JObj [])]);
                        ("serverInfo",
                         JObj [("name", JStr "ig-mcp-server");
                               ("version", JStr "1.0.0")])])))
     else
       (* Unknown method *)
       method <- to_String w (opt_get request "method");;
       ret (Failure (js_or (opt_get request "id") JNull) (-32601)
              ("Method not found: " +:+ method) None))
    (fun error =>
       ret (Failure JNull (-32700) "Parse error"
              (Some (match instanceof_Error error with
                     | Some e => err_message e
                     | None => Thrown_String error
                     end)))).

End Transport.

(** Further configurations and brokers for the examples. *)
Module Cases.

Import Scenario.

(** A gatekeeping secret, enforced. *)
Definition cfg_gated : Config :=
  mkConfig "env-key" "env-user" "env-pass" url "s3cret" false true.

(** No credentials in the environment. *)
Definition cfg_bare : Config :=
  mkConfig EmptyString EmptyString EmptyString url EmptyString false true.

Definition teapot : AxiosError :=
  mkAxiosError
    (mkError "AxiosError" "Request failed with status code 418" None [])
    (Some (mkResponse 418 "I'm a teapot" ∅ JNull))
    None.

(** A broker that answers 418 to everything. *)
Definition w_418 : World :=
  mkWorld (fun _ _ => Reject (ThrowAxios teapot)) stack 0.

Definition unreachable : AxiosError :=
  mkAxiosError (mkError "AxiosError" "connect ECONNREFUSED" None []) None None.

(** A broker that cannot be reached. *)
Definition w_down : World :=
  mkWorld (fun _ _ => Reject (ThrowAxios unreachable)) stack 0.

Definition ragged_response : HttpResponse :=
  mkResponse 200 "OK" ∅
    (JObj [("positions", JArr [position "D1" "OPEN"; JNull])]).

(** A broker whose positions list holds a [null]. *)
Definition w_ragged : World :=
  mkWorld (fun _ _ => Resolve ragged_response) stack 0.

Definition some_credentials : IGCredentials :=
  mkCredentials (JStr "u") (JStr "p") (JStr "k").

(** A value, as [JSON.parse] gives it, that has no conversion to a
    string. *)
Definition odd_id : Json := JObj [("toString", JNum "1")].

(** HTTP success on the session endpoint with both tokens and no body. *)
Definition bodiless_response : HttpResponse :=
  mkResponse 200 "OK"
    (list_to_map [("cst", "CST-1"); ("x-security-token", "XST-1")]) JNull.

Definition w_bodiless : World :=
  mkWorld (fun _ _ => Resolve bodiless_response) stack 0.

(** The session that [w_ok] grants. *)
Definition granted : IGSession :=
  mkSession (JStr "XST-1") (JStr "CST-1") (JStr "CST-1") (JStr "XST-1")
            (JStr "ABC123") (JStr "SPREADBET") JUndef true (Some 0).

Definition call_without_params : Json :=
  JObj [("jsonrpc", JStr "2.0"); ("id", JNum "7"); ("method", JStr "tools/call")].

Definition call_positions : Json :=
  JObj [("jsonrpc", JStr "2.0"); ("id", JNum "8"); ("method", JStr "tools/call");
        ("params", JObj [("name", JStr "ig_get_positions")])].

End Cases.
(** ** The monad: inversion *)

Section Monad_facts.

Context {S A B : Type}.

Lemma bind_inr (m : M S A) (k : A -> M S B) s b s' :
  bind m k s = (inr b, s') ->
  exists a s1, m s = (inr a, s1) /\ k a s1 = (inr b, s').
Proof.
  unfold bind. destruct (m s) as [[e | a] s1]; [discriminate |].
  intros H. exists a, s1. split; [reflexivity | exact H].
Qed.

Lemma bind_step (m : M S A) (k : A -> M S B) s a s1 :
  m s = (inr a, s1) -> bind m k s = k a s1.
Proof. unfold bind. intros ->. reflexivity. Qed.

Lemma try_catch_inr (body : M S A) (h : Thrown -> M S A) s a s' :
  try_catch body h s = (inr a, s') ->
  body s = (inr a, s') \/ exists e s1, body s = (inl e, s1) /\ h e s1 = (inr a, s').
Proof.
  unfold try_catch. destruct (body s) as [[e | a0] s1].
  - intros H. right. exists e, s1. split; [reflexivity | exact H].
  - intros H. left. exact H.
Qed.

End Monad_facts.

(** ** ig-client.ts: properties *)

Section Client_facts.

Context (w : World).

Lemma pure_ret {S A} (a : A) : pure_m (S := S) (ret a).
Proof. intros s. reflexivity. Qed.

Lemma pure_throw {S A} (e : Thrown) : pure_m (S := S) (A := A) (throw e).
Proof. intros s. reflexivity. Qed.

Lemma pure_bind {S A B} (m : M S A) (k : A -> M S B) :
  pure_m m -> (forall a, pure_m (k a)) -> pure_m (bind m k).
Proof.
  intros Hm Hk s. unfold bind. specialize (Hm s).
  destruct (m s) as [[e | a] s1]; simpl in Hm; subst s1.
  - reflexivity.
  - apply Hk.
Qed.

Lemma pure_read {S} (v : Json) (k : string) : pure_m (S := S) (read w v k).
Proof. intros s. unfold read, get_prop. destruct (nullish v); reflexivity. Qed.

Lemma pure_to_String {S} (v : Json) : pure_m (S := S) (to_String w v).
Proof.
  intros s. unfold to_String, ToString. destruct (printable v); reflexivity.
Qed.

(** A conversion that can be made is the text of the value; one that
    cannot throws. *)
Lemma to_String_printable {S} (v : Json) :
  printable v = true -> to_String (S := S) w v = ret (js_String v).
Proof. intros H. unfold to_String, ToString. rewrite H. reflexivity. Qed.

Lemma to_String_unprintable {S} (v : Json) :
  printable v = false ->
  to_String (S := S) w v = throw (TypeError_convert (engine_stack w)).
Proof. intros H. unfold to_String, ToString. rewrite H. reflexivity. Qed.

Lemma bind_ret {S A B} (a : A) (k : A -> M S B) : bind (ret a) k = k a.
Proof. reflexivity. Qed.

Lemma bind_throw {S A B} (e : Thrown) (k : A -> M S B) :
  bind (throw e) k = throw e.
Proof. reflexivity. Qed.

Lemma try_catch_throw {S A} (e : Thrown) (h : Thrown -> M S A) :
  try_catch (throw e) h = h e.
Proof. reflexivity. Qed.

(** [handleError] neither sends a request nor touches the client. *)
Lemma pure_handleError {S T} (e : Thrown) (msg : string) :
  pure_m (S := S) (handleError (T := T) w e msg).
Proof.
  destruct e as [e | e | v].
  - intros s. simpl. destruct (if truthy _ then _ else _). reflexivity.
  - intros s. reflexivity.
  - unfold handleError. apply pure_bind; [apply pure_read |]. intros message.
    destruct (truthy message); [apply pure_ret |].
    apply pure_bind; [apply pure_to_String |]. intros text. apply pure_ret.
Qed.

Lemma handleError_state {S T} (e : Thrown) (msg : string) (s : S) :
  (handleError (T := T) w e msg s).2 = s.
Proof. apply pure_handleError. Qed.

(** A result built by [handleError] is a failure without data. *)
Lemma handleError_failure {S T} (e : Thrown) (msg : string) (s s' : S)
    (r : IGResponse T) :
  handleError w e msg s = (inr r, s') -> success r = false /\ data r = None.
Proof.
  destruct e as [e | e | v]; simpl.
  - destruct (if truthy _ then _ else _) as [code m].
    unfold ret. intros [= <- _]. split; reflexivity.
  - unfold ret. intros [= <- _]. split; reflexivity.
  - intros H. apply bind_inr in H as (message & s1 & _ & H).
    destruct (truthy message).
    + injection H as <- _. split; reflexivity.
    + apply bind_inr in H as (text & s2 & _ & H).
      injection H as <- _. split; reflexivity.
Qed.

(** The catch block of an operation whose message quotes an argument. *)
Lemma pure_catch {S T} (v : Json) (k : string -> string) (e : Thrown) :
  pure_m (S := S)
    (bind (to_String w v) (fun text => handleError (T := T) w e (k text))).
Proof.
  apply pure_bind; [apply pure_to_String |]. intros text.
  apply pure_handleError.
Qed.

(** A method that sends one request and then only inspects the answer:
    the request is on the wire afterwards, whatever the catch block makes of
    a failure. *)
Lemma one_request_sent {T} mth url hdrs params body
    (post : HttpResponse -> M ClientCtx (IGResponse T))
    (handler : Thrown -> M ClientCtx (IGResponse T)) ctx :
  (forall response, pure_m (post response)) ->
  (forall e, pure_m (handler e)) ->
  (try_catch (bind (axios_request w mth url hdrs params body) post) handler
     ctx).2
  = mkCtx (this ctx)
          (net ctx ++ [request_from (this ctx) mth url hdrs params body]).
Proof.
  intros Hpost Hh. unfold try_catch, bind, axios_request.
  destruct (broker w _ _) as [response | e].
  - specialize (Hpost response
      (mkCtx (this ctx)
         (net ctx ++ [request_from (this ctx) mth url hdrs params body]))).
    destruct (post response _) as [[e | r] c1]; simpl in Hpost; subst c1.
    + apply Hh.
    + reflexivity.
  - apply Hh.
Qed.

(** A rejected request goes to the catch block. *)
Lemma one_request_caught {T} mth url hdrs params body
    (post : HttpResponse -> M ClientCtx (IGResponse T))
    (handler : Thrown -> M ClientCtx (IGResponse T)) ctx e :
  broker w (net ctx) (request_from (this ctx) mth url hdrs params body)
  = Reject e ->
  try_catch (bind (axios_request w mth url hdrs params body) post) handler ctx
  = handler e
      (mkCtx (this ctx)
         (net ctx ++ [request_from (this ctx) mth url hdrs params body])).
Proof.
  intros Hb. unfold try_catch, bind, axios_request.
  rewrite Hb. reflexivity.
Qed.

(** C4.  For every deal id, size and direction [d] of [BUY]/[SELL],
    [closePosition(dealId, d, size)] sends the broker exactly one request, a
    [delete] on [/positions/otc], whose body carries the opposite direction
    ([SELL] for [BUY], [BUY] for [SELL]) and the given deal id and size
    unchanged, whatever the broker answers. *)
Theorem closePosition_inverts_direction (dealId size : Json) (d : Direction)
    (ctx : ClientCtx) :
  exists req,
    net (closePosition w dealId (Direction_to_Json d) size ctx).2 = (net ctx ++ [req])%list
    /\ req_method req = JStr "delete"
    /\ req_url req = "/positions/otc"
    /\ req_data req =
         JObj [("dealId", dealId);
               ("direction", Direction_to_Json (opposite d));
               ("size", size);
               ("orderType", JStr "MARKET");
               ("timeInForce", JStr "FILL_OR_KILL")].
Proof.
  eexists. unfold closePosition.
  rewrite one_request_sent.
  - simpl. split; [reflexivity |]. destruct d; repeat split; reflexivity.
  - intros response. apply pure_bind; [apply pure_to_String |].
    intros id. apply pure_ret.
  - intros e. apply pure_catch.
Qed.

Lemma pure_filterM {S} (f : Json -> M S bool) (l : list Json) :
  (forall p, pure_m (f p)) -> pure_m (filterM f l).
Proof.
  intros Hf. induction l as [| p l IH]; simpl.
  - apply pure_ret.
  - apply pure_bind; [apply Hf |]. intros keep.
    apply pure_bind; [exact IH |]. intros rest. apply pure_ret.
Qed.

Lemma pure_is_open {S} (p : Json) : pure_m (S := S) (is_open w p).
Proof.
  unfold is_open. apply pure_bind; [apply pure_read |].
  intros st. apply pure_ret.
Qed.

Lemma pure_endpoint_url {S} (endpoint : Json) :
  pure_m (S := S) (endpoint_url w endpoint).
Proof. intros s. destruct endpoint; reflexivity. Qed.


Lemma one_request_outcome {T} mth url hdrs params body
    (post : HttpResponse -> M ClientCtx (IGResponse T))
    (handler : Thrown -> M ClientCtx (IGResponse T)) ctx res ctx' req e :
  (forall response, pure_m (post response)) ->
  (forall e, pure_m (handler e)) ->
  try_catch (bind (axios_request w mth url hdrs params body) post) handler ctx
  = (res, ctx') ->
  net ctx' = (net ctx ++ [req])%list ->
  broker w (net ctx) req = Reject e ->
  handler e ctx' = (res, ctx').
Proof.
  intros Hpost Hh Hrun Hnet Hb.
  pose proof (one_request_sent mth url hdrs params body post handler ctx
                Hpost Hh) as Hst.
  rewrite Hrun in Hst. simpl in Hst. subst ctx'. simpl in Hnet.
  apply app_inj_tail in Hnet as [_ <-].
  rewrite (one_request_caught _ _ _ _ _ post handler ctx e Hb) in Hrun.
  exact Hrun.
Qed.

Ltac pure_steps :=
  repeat first
    [ apply pure_ret | apply pure_throw | apply pure_read
    | apply pure_to_String
    | apply pure_handleError | apply pure_is_open | apply pure_endpoint_url
    | apply pure_filterM; intros
    | apply pure_bind; intros
    | match goal with
      | |- pure_m (if ?b then _ else _) => destruct b
      | |- pure_m (match ?x with _ => _ end) => destruct x
      end ].

Lemma pure_catch_block (c : ResourceCall) (e : Thrown) :
  pure_m (catch_block w c e).
Proof. unfold catch_block. destruct (quoted c); pure_steps. Qed.

(** The catch block, by whether the quoted argument converts. *)
Lemma catch_block_printable (c : ResourceCall) (e : Thrown) :
  message_printable c = true ->
  catch_block w c e = handleError w e (failure_message c).
Proof.
  unfold message_printable, catch_block.
  destruct c; simpl; intros H; try reflexivity;
    rewrite (to_String_printable _ H); reflexivity.
Qed.

Lemma catch_block_unprintable (c : ResourceCall) (e : Thrown) (ctx : ClientCtx) :
  message_printable c = false ->
  catch_block w c e ctx = (inl (TypeError_convert (engine_stack w)), ctx).
Proof.
  unfold message_printable, catch_block.
  destruct (quoted c) as [v |]; simpl; intros H; [| discriminate H].
  rewrite (to_String_unprintable _ H). reflexivity.
Qed.

Lemma errors_ret {S A} (a : A) : throws_errors (S := S) (ret a).
Proof. intros s e s' H. discriminate H. Qed.

Lemma errors_throw {S A} (e : JsError) :
  throws_errors (S := S) (A := A) (throw (ThrowError e)).
Proof. intros s e' s' [= <- _]. exact I. Qed.

Lemma errors_bind {S A B} (m : M S A) (k : A -> M S B) :
  throws_errors m -> (forall a, throws_errors (k a)) ->
  throws_errors (bind m k).
Proof.
  intros Hm Hk s e s' H. unfold bind in H.
  destruct (m s) as [[e0 | a] s1] eqn:Hms.
  - injection H as <- <-. exact (Hm _ _ _ Hms).
  - exact (Hk a _ _ _ H).
Qed.

Lemma errors_read {S} (v : Json) (k : string) :
  throws_errors (S := S) (read w v k).
Proof.
  intros s e s'. unfold read, get_prop. destruct (nullish v).
  - intros [= <- _]. exact I.
  - discriminate.
Qed.

Lemma errors_to_String {S} (v : Json) : throws_errors (S := S) (to_String w v).
Proof.
  intros s e s'. unfold to_String, ToString. destruct (printable v).
  - discriminate.
  - intros [= <- _]. exact I.
Qed.

Lemma errors_is_open {S} (p : Json) : throws_errors (S := S) (is_open w p).
Proof.
  unfold is_open. apply errors_bind; [apply errors_read |].
  intros st. apply errors_ret.
Qed.

Lemma errors_filterM {S} (f : Json -> M S bool) (l : list Json) :
  (forall p, throws_errors (f p)) -> throws_errors (filterM f l).
Proof.
  intros Hf. induction l as [| p l IH]; simpl.
  - apply errors_ret.
  - apply errors_bind; [apply Hf |]. intros keep.
    apply errors_bind; [exact IH |]. intros rest. apply errors_ret.
Qed.

Ltac errors_steps :=
  repeat first
    [ apply errors_ret | apply errors_throw | apply errors_read
    | apply errors_to_String | apply errors_is_open
    | apply errors_filterM; intros
    | apply errors_bind; intros
    | match goal with
      | |- throws_errors (if ?b then _ else _) => destruct b
      | |- throws_errors (match ?x with _ => _ end) => destruct x
      end ].

Lemma succeeds_ret {S T} (d : T) (msg : string) :
  succeeds (S := S) (ret (succeeded d msg)).
Proof. intros s r s' [= <- _]. reflexivity. Qed.

Lemma succeeds_throw {S T} (e : Thrown) : succeeds (S := S) (T := T) (throw e).
Proof. intros s r s' H. discriminate H. Qed.

Lemma succeeds_bind {S A T} (m : M S A) (k : A -> M S (IGResponse T)) :
  (forall a, succeeds (k a)) -> succeeds (bind m k).
Proof.
  intros Hk s r s' H. apply bind_inr in H as (a & s1 & _ & H).
  exact (Hk a s1 r s' H).
Qed.

Ltac succeeds_steps :=
  repeat first
    [ apply succeeds_ret | apply succeeds_throw
    | apply succeeds_bind; intros ].

(** Every per-resource operation is a [try] block with the catch block of
    the operation.  Either a step before the request throws, and the catch
    block gets its error, or the block sends one request and then only
    inspects the answer. *)
Lemma perform_shape (c : ResourceCall) (ctx : ClientCtx) :
  (sends_request c = false
   /\ exists e0, is_error e0 /\ perform w c ctx = catch_block w c e0 ctx)
  \/ (exists mth url hdrs params body post,
        perform w c ctx
        = try_catch (bind (axios_request w mth url hdrs params body) post)
                    (catch_block w c) ctx
        /\ (forall response, pure_m (post response))
        /\ (forall response, throws_errors (post response))
        /\ (forall response, succeeds (post response))
        /\ (message_printable c = false ->
            forall response s,
              post response s = (inl (TypeError_convert (engine_stack w)), s))
        /\ (sends_request c = true ->
            Forall (fun k => k = "Version" \/ k = "IG-ACCOUNT-ID") (hdrs.*1))).
Proof.
  assert (forall hdrs : list (string * Json),
             hdrs = [] \/ (exists v, hdrs = [("IG-ACCOUNT-ID", v)]) ->
             forall x,
               Forall (fun k => k = "Version" \/ k = "IG-ACCOUNT-ID")
                      ((("Version", x) :: hdrs).*1)) as Hfixed.
  { intros hdrs [-> | [v ->]] x; simpl;
      repeat (constructor; [first [left; reflexivity | right; reflexivity] |]);
      constructor. }
  destruct c; simpl perform.
  - (* getAccounts *)
    right. do 6 eexists. split; [reflexivity |].
    split; [intros response; pure_steps |].
    split; [intros response; errors_steps |].
    split; [intros response; succeeds_steps |].
    split; [discriminate |]. intros _. apply Hfixed. left. reflexivity.
  - (* getAccountBalance *)
    unfold getAccountBalance.
    destruct (printable accountId0) eqn:Hp.
    + right. unfold to_String at 1, ToString at 1. rewrite Hp.
      do 6 eexists. split; [reflexivity |].
      split; [intros response; pure_steps |].
      split; [intros response; errors_steps |].
      split; [intros response; succeeds_steps |].
      split; [unfold message_printable; simpl; congruence |].
      intros _. apply Hfixed. left. reflexivity.
    + left. split; [exact Hp |]. eexists. split; [| unfold to_String at 1, ToString at 1; rewrite Hp; reflexivity].
      exact I.
  - (* getPositions *)
    right. do 6 eexists. split; [reflexivity |].
    split; [intros response; pure_steps |].
    split; [intros response; errors_steps |].
    split; [intros response; succeeds_steps |].
    split; [discriminate |]. intros _. apply Hfixed. left. reflexivity.
  - (* getOpenPositions *)
    right. do 6 eexists. split; [reflexivity |].
    split; [intros response; pure_steps |].
    split; [intros response; errors_steps |].
    split; [intros response; succeeds_steps |].
    split; [discriminate |]. intros _. apply Hfixed. left. reflexivity.
  - (* closePosition *)
    right. do 6 eexists. split; [reflexivity |].
    split; [intros response; pure_steps |].
    split; [intros response; errors_steps |].
    split; [intros response; succeeds_steps |].
    split; [| intros _; apply Hfixed; left; reflexivity].
    unfold message_printable. simpl. intros Hp response s.
    rewrite (to_String_unprintable _ Hp). reflexivity.
  - (* placeOrder *)
    unfold placeOrder, read, get_prop.
    destruct (nullish request) eqn:Hn.
    + left. split; [simpl; rewrite Hn; reflexivity |].
      eexists. split; [| reflexivity]. exact I.
    + right. do 6 eexists. split; [reflexivity |].
      split; [intros response; pure_steps |].
      split; [intros response; errors_steps |].
      split; [intros response; succeeds_steps |].
      split; [discriminate |]. intros _. apply Hfixed.
      destruct (truthy accountId0); [right; eexists; reflexivity | left; reflexivity].
  - (* getWorkingOrders *)
    right. do 6 eexists. split; [reflexivity |].
    split; [intros response; pure_steps |].
    split; [intros response; errors_steps |].
    split; [intros response; succeeds_steps |].
    split; [discriminate |]. intros _. apply Hfixed. left. reflexivity.
  - (* deleteWorkingOrder *)
    unfold deleteWorkingOrder.
    destruct (printable dealId) eqn:Hp.
    + right. unfold to_String at 1, ToString at 1. rewrite Hp.
      do 6 eexists. split; [reflexivity |].
      split; [intros response; pure_steps |].
      split; [intros response; errors_steps |].
      split; [intros response; succeeds_steps |].
      split; [unfold message_printable; simpl; congruence |].
      intros _. apply Hfixed. left. reflexivity.
    + left. split; [exact Hp |]. eexists. split; [| unfold to_String at 1, ToString at 1; rewrite Hp; reflexivity].
      exact I.
  - (* getMarketData *)
    unfold getMarketData.
    destruct (printable epic) eqn:Hp.
    + right. unfold to_String at 1, ToString at 1. rewrite Hp.
      do 6 eexists. split; [reflexivity |].
      split; [intros response; pure_steps |].
      split; [intros response; errors_steps |].
      split; [intros response; succeeds_steps |].
      split; [unfold message_printable; simpl; congruence |].
      intros _. apply Hfixed. left. reflexivity.
    + left. split; [exact Hp |]. eexists. split; [| unfold to_String at 1, ToString at 1; rewrite Hp; reflexivity].
      exact I.
  - (* searchInstruments *)
    right. do 6 eexists. split; [reflexivity |].
    split; [intros response; pure_steps |].
    split; [intros response; errors_steps |].
    split; [intros response; succeeds_steps |].
    split; [| intros _; apply Hfixed; left; reflexivity].
    unfold message_printable. simpl. intros Hp response s.
    rewrite (to_String_unprintable _ Hp). reflexivity.
  - (* getHistoricalPrices *)
    unfold getHistoricalPrices.
    destruct (printable epic) eqn:He.
    2: { left. split; [simpl; rewrite ?He, ?Hr, ?Hf, ?Ht; reflexivity |].
         eexists.
         split; [| unfold to_String at 1, ToString at 1; rewrite He; reflexivity].
         exact I. }
    destruct (printable resolution) eqn:Hr.
    2: { left. split; [simpl; rewrite ?He, ?Hr, ?Hf, ?Ht; reflexivity |].
         eexists.
         split; [| unfold to_String at 1 2, ToString at 1 2; rewrite He, Hr;
                   reflexivity].
         exact I. }
    destruct (printable from) eqn:Hf.
    2: { left. split; [simpl; rewrite ?He, ?Hr, ?Hf, ?Ht; reflexivity |].
         eexists.
         split; [| unfold to_String at 1 2 3, ToString at 1 2 3;
                   rewrite He, Hr, Hf; reflexivity].
         exact I. }
    destruct (printable to) eqn:Ht.
    2: { left. split; [simpl; rewrite ?He, ?Hr, ?Hf, ?Ht; reflexivity |].
         eexists.
         split; [| unfold to_String at 1 2 3 4, ToString at 1 2 3 4;
                   rewrite He, Hr, Hf, Ht; reflexivity].
         exact I. }
    right. unfold to_String at 1 2 3 4, ToString at 1 2 3 4.
    rewrite He, Hr, Hf, Ht.
    do 6 eexists. split; [reflexivity |].
    split; [intros response; pure_steps |].
    split; [intros response; errors_steps |].
    split; [intros response; succeeds_steps |].
    split; [unfold message_printable; simpl; congruence |].
    intros _. apply Hfixed. left. reflexivity.
  - (* getWatchlists *)
    right. do 6 eexists. split; [reflexivity |].
    split; [intros response; pure_steps |].
    split; [intros response; errors_steps |].
    split; [intros response; succeeds_steps |].
    split; [discriminate |]. intros _. apply Hfixed. left. reflexivity.
  - (* getWatchlistMarkets *)
    unfold getWatchlistMarkets.
    destruct (printable watchlistId) eqn:Hp.
    + right. unfold to_String at 1, ToString at 1. rewrite Hp.
      do 6 eexists. split; [reflexivity |].
      split; [intros response; pure_steps |].
      split; [intros response; errors_steps |].
      split; [intros response; succeeds_steps |].
      split; [unfold message_printable; simpl; congruence |].
      intros _. apply Hfixed. left. reflexivity.
    + left. split; [exact Hp |]. eexists. split; [| unfold to_String at 1, ToString at 1; rewrite Hp; reflexivity].
      exact I.
  - (* callAPI *)
    unfold callAPI.
    destruct endpoint as [| | b | t | s | l | fs];
      try (left; split; [reflexivity |]; eexists; split; [| reflexivity];
           exact I).
    unfold axios_request_config.
    destruct (truthy method && negb (is_string method)) eqn:Hm.
    + left. split; [reflexivity |]. eexists. split; [| reflexivity]. exact I.
    + right. do 6 eexists. split; [reflexivity |].
      split; [intros response; pure_steps |].
      split; [intros response; errors_steps |].
      split; [intros response; succeeds_steps |].
      split; [discriminate |]. discriminate.
Qed.

Lemma obj_to_map_lookup_absent (fs : list (string * Json)) (k : string) :
  k ∉ fs.*1 -> obj_to_map fs !! k = None.
Proof.
  unfold obj_to_map.
  assert (forall m : gmap string Json,
             k ∉ fs.*1 ->
             fold_left (fun m kv => <[kv.1 := kv.2]> m) fs m !! k = m !! k) as H.
  { induction fs as [| [k' v] fs IH]; intros m Hk; [reflexivity |].
    simpl in *. apply not_elem_of_cons in Hk as [Hne Hk].
    rewrite (IH _ Hk). apply lookup_insert_ne. congruence. }
  intros Hk. rewrite (H _ Hk). apply lookup_empty.
Qed.

(** A header that the call does not set comes from the defaults of the
    client. *)
Lemma request_from_default_header (c : IGClient) mth url hdrs params body k :
  k ∉ hdrs.*1 ->
  req_headers (request_from c mth url hdrs params body) !! k
  = defaults_headers c !! k.
Proof.
  intros Hk. unfold request_from. simpl.
  rewrite lookup_union_r; [reflexivity |].
  apply obj_to_map_lookup_absent. exact Hk.
Qed.

(** What an operation leaves behind: the client object as it was, and the
    request log with at most one request more. *)
Lemma perform_state (c : ResourceCall) (ctx : ClientCtx) :
  (sends_request c = false /\ (perform w c ctx).2 = ctx)
  \/ (exists req,
        (perform w c ctx).2 = mkCtx (this ctx) (net ctx ++ [req])
        /\ (sends_request c = true ->
            forall k, k <> "Version" -> k <> "IG-ACCOUNT-ID" ->
                      req_headers req !! k = defaults_headers (this ctx) !! k)).
Proof.
  destruct (perform_shape c ctx)
    as [(Hs & e0 & _ & ->)
       | (mth & url & hdrs & params & body & post & -> & Hpure & _ & _ & _ & Hh)].
  - left. split; [exact Hs |]. apply pure_catch_block.
  - right. eexists. split.
    + apply one_request_sent; [exact Hpure |]. intros e. apply pure_catch_block.
    + intros Hs k Hv Ha. apply request_from_default_header. intros Hin.
      specialize (Hh Hs). rewrite Forall_forall in Hh.
      destruct (Hh k Hin) as [-> | ->]; [apply Hv | apply Ha]; reflexivity.
Qed.

(** Every per-resource operation that got a request out and had it
    rejected returns what its catch block makes of the rejection. *)
Lemma perform_caught (c : ResourceCall) ctx res ctx' req e :
  perform w c ctx = (res, ctx') ->
  net ctx' = (net ctx ++ [req])%list ->
  broker w (net ctx) req = Reject e ->
  catch_block w c e ctx' = (res, ctx').
Proof.
  intros Hrun Hnet Hb.
  destruct (perform_shape c ctx)
    as [(_ & e0 & _ & Heq)
       | (mth & url & hdrs & params & body & post & Heq & Hpure & _)];
    rewrite Heq in Hrun.
  - exfalso. apply (f_equal snd) in Hrun. rewrite pure_catch_block in Hrun.
    simpl in Hrun. subst ctx'. apply (f_equal length) in Hnet.
    rewrite length_app in Hnet. simpl in Hnet. lia.
  - eapply one_request_outcome; [exact Hpure | | exact Hrun | exact Hnet | exact Hb].
    intros e'. apply pure_catch_block.
Qed.

Lemma perform_rejected (c : ResourceCall) ctx res ctx' req e :
  message_printable c = true ->
  perform w c ctx = (res, ctx') ->
  net ctx' = (net ctx ++ [req])%list ->
  broker w (net ctx) req = Reject e ->
  handleError w e (failure_message c) ctx' = (res, ctx').
Proof.
  intros Hp Hrun Hnet Hb.
  rewrite <- (catch_block_printable c e Hp).
  exact (perform_caught c ctx res ctx' req e Hrun Hnet Hb).
Qed.

(** The answer to a rejected request: what [handleError] reports of an
    axios error that carries a response. *)
Lemma handleError_axios {S T} (e : AxiosError) (resp : HttpResponse)
    (msg : string) (s : S) :
  ax_response e = Some resp ->
  exists r : IGResponse T,
    handleError w (ThrowAxios e) msg s = (inr r, s)
    /\ success r = false
    /\ data r = None
    /\ opt_get (debug r) "status" = JInt (resp_status resp)
    /\ opt_get (debug r) "response" = resp_data resp
    /\ userMessage r = Some (friendlyMessage (Some (resp_status resp)) msg)
    /\ (forall fs code,
          resp_data resp = JObj fs -> assoc "errorCode" fs = Some code ->
          error r = Some (mkIGError code
                            (js_or (default JUndef (assoc "errorMessage" fs))
                                   (JStr (err_message (ax_error e)))))).
Proof.
  intros Hresp. simpl. rewrite Hresp. simpl.
  destruct (if truthy (resp_data resp) then _ else _) as [code m] eqn:Hcm.
  eexists. split; [reflexivity |]. simpl.
  repeat split.
  intros fs code' Hfs Hcode. rewrite Hfs in Hcm. simpl in Hcm.
  rewrite Hcode in Hcm. simpl in Hcm.
  injection Hcm as <- <-. reflexivity.
Qed.

(** C7.  When a per-resource operation of the client, called with an
    argument to quote in its messages that converts to a string (as every
    string does), got its request out and the broker rejected it with an HTTP
    status, the operation returns a result with [success = false] whose
    [debug.status] is that status; for
    401 the user message asks to log in again (and [debug.status] is 401),
    for 404 it says the resource was not found, for 429 that the rate limit
    was exceeded, for 500, 502 and 503 that the API is unavailable; and
    whatever the status, an upstream body that carries an [errorCode] has
    its code and message passed through in [error]. *)
Theorem upstream_status_mapping (c : ResourceCall) (ctx ctx' : ClientCtx)
    (res : Thrown + IGResponse Json) (req : HttpRequest) (e : AxiosError)
    (resp : HttpResponse) :
  message_printable c = true ->
  perform w c ctx = (res, ctx') ->
  net ctx' = (net ctx ++ [req])%list ->
  broker w (net ctx) req = Reject (ThrowAxios e) ->
  ax_response e = Some resp ->
  exists r,
    res = inr r
    /\ success r = false
    /\ opt_get (debug r) "status" = JInt (resp_status resp)
    /\ (resp_status resp = 401 ->
        userMessage r = Some "Authentication failed. Please check your credentials and try logging in again."
        /\ opt_get (debug r) "status" = JNum "401")
    /\ (resp_status resp = 404 ->
        userMessage r = Some "The requested resource was not found. Please check the parameters.")
    /\ (resp_status resp = 429 ->
        userMessage r = Some "Rate limit exceeded. Please wait a moment before trying again.")
    /\ (resp_status resp = 500 \/ resp_status resp = 502 \/ resp_status resp = 503 ->
        userMessage r = Some "IG API is currently unavailable. Please try again later.")
    /\ (forall fs code,
          resp_data resp = JObj fs -> assoc "errorCode" fs = Some code ->
          error r = Some (mkIGError code
                            (js_or (default JUndef (assoc "errorMessage" fs))
                                   (JStr (err_message (ax_error e)))))).
Proof.
  intros Hp Hrun Hnet Hb Hresp.
  pose proof (perform_rejected c ctx res ctx' req _ Hp Hrun Hnet Hb) as Hh.
  destruct (handleError_axios (T := Json) e resp (failure_message c) ctx' Hresp)
    as (r & Hr & Hs & _ & Hst & _ & Hum & Herr).
  rewrite Hr in Hh. injection Hh as <-.
  exists r. split; [reflexivity |]. split; [exact Hs |]. split; [exact Hst |].
  split; [intros H; split; [rewrite Hum | rewrite Hst]; rewrite H; reflexivity |].
  split; [intros H; rewrite Hum, H; reflexivity |].
  split; [intros H; rewrite Hum, H; reflexivity |].
  split; [intros [H | [H | H]]; rewrite Hum, H; reflexivity |].
  exact Herr.
Qed.

(** A result of a catch block is a failure without data. *)
Lemma catch_block_failure (c : ResourceCall) (e : Thrown) ctx r ctx' :
  catch_block w c e ctx = (inr r, ctx') -> success r = false /\ data r = None.
Proof.
  unfold catch_block. destruct (quoted c) as [v |].
  - intros H. apply bind_inr in H as (text & c1 & _ & H).
    exact (handleError_failure _ _ _ _ _ H).
  - apply handleError_failure.
Qed.

Lemma perform_failure_without_data (c : ResourceCall) :
  failure_without_data (perform w c).
Proof.
  intros ctx r ctx' Hrun Hfail.
  destruct (perform_shape c ctx)
    as [(_ & e0 & _ & Heq)
       | (mth & url & hdrs & params & body & post & Heq & _ & _ & Hsucc & _)];
    rewrite Heq in Hrun.
  - exact (proj2 (catch_block_failure _ _ _ _ _ Hrun)).
  - apply try_catch_inr in Hrun as [Hrun | (e & c1 & _ & Hrun)].
    + apply bind_inr in Hrun as (response & c1 & _ & Hrun).
      rewrite (Hsucc _ _ _ _ Hrun) in Hfail. discriminate.
    + exact (proj2 (catch_block_failure _ _ _ _ _ Hrun)).
Qed.

(** [filter] with the [OPEN] test, on positions none of which is
    [null] or [undefined]. *)
Lemma filterM_is_open {S} (ps : list Json) (s : S) :
  Forall (fun p => nullish p = false) ps ->
  filterM (is_open w) ps s = (inr (open_sublist ps), s).
Proof.
  induction 1 as [| p ps Hp _ IH]; [reflexivity |].
  simpl. unfold bind at 1. unfold is_open at 1, bind at 1, read, get_prop.
  rewrite Hp. simpl. unfold bind. rewrite IH. simpl.
  destruct (strict_eq_str (opt_get p "status") "OPEN"); reflexivity.
Qed.

(** C6.  On a positions response whose body is not [null]: when
    [positions] is an array of position records, none of them [null],
    [getPositions] returns that array and [getOpenPositions] returns exactly
    its sublist of the records whose [status] is ['OPEN'], in the same order;
    when [positions] is missing, [getOpenPositions] returns the empty
    list. *)
Theorem getOpenPositions_filters_getPositions (ctx : ClientCtx)
    (response : HttpResponse) :
  broker w (net ctx)
    (request_from (this ctx) (JStr "get") "/positions" [("Version", JStr "2")]
                  JUndef JUndef) = Resolve response ->
  nullish (resp_data response) = false ->
  (forall ps,
      opt_get (resp_data response) "positions" = JArr ps ->
      Forall (fun p => nullish p = false) ps ->
      exists rp ro ctx',
        getPositions w ctx = (inr rp, ctx')
        /\ getOpenPositions w ctx = (inr ro, ctx')
        /\ success rp = true /\ success ro = true
        /\ data rp = Some (JArr ps)
        /\ data ro = Some (JArr (open_sublist ps)))
  /\ (nullish (opt_get (resp_data response) "positions") = true ->
      exists ro ctx',
        getOpenPositions w ctx = (inr ro, ctx')
        /\ success ro = true
        /\ data ro = Some (JArr [])).
Proof.
  intros Hb Hdata. split.
  - intros ps Hps Hall.
    unfold getPositions, getOpenPositions, try_catch, bind, axios_request.
    rewrite Hb. unfold read, get_prop. rewrite Hdata. simpl.
    rewrite Hps. simpl. rewrite (filterM_is_open ps _ Hall). simpl.
    do 3 eexists. repeat split.
  - intros Hnone.
    unfold getOpenPositions, try_catch, bind, axios_request.
    rewrite Hb. unfold read, get_prop. rewrite Hdata. simpl.
    rewrite Hnone. simpl.
    destruct (opt_get (resp_data response) "positions"); try discriminate;
      do 2 eexists; repeat split.
Qed.

(** C8.  When the session endpoint answers with HTTP success: if either
    token header ([cst], [x-security-token]) is missing, [authenticate]
    returns [success = false] with error code [AUTH_ERROR], no session, and
    leaves the client untouched; if both are present (and the body is not
    [null]/[undefined]), it returns [success = true] with a session that
    carries both tokens and [authenticated = true], and the two tokens have
    become default headers of the client. *)
Theorem authenticate_requires_both_tokens (creds : IGCredentials)
    (ctx : ClientCtx) (response : HttpResponse) :
  broker w (net ctx)
    (request_from (this ctx) (JStr "post") "/session" [("Version", JStr "2")]
       JUndef
       (JObj [("identifier", username creds); ("password", password creds)]))
  = Resolve response ->
  (truthy (header response "cst") = false
   \/ truthy (header response "x-security-token") = false ->
   exists r ctx',
     authenticate w creds ctx = (inr r, ctx')
     /\ success r = false
     /\ data r = None
     /\ errorCode <$> error r = Some (JStr "AUTH_ERROR")
     /\ this ctx' = this ctx)
  /\ (truthy (header response "cst") = true ->
      truthy (header response "x-security-token") = true ->
      nullish (resp_data response) = false ->
      exists r s ctx',
        authenticate w creds ctx = (inr r, ctx')
        /\ success r = true
        /\ data r = Some s
        /\ cst s = header response "cst"
        /\ xSecurityToken s = header response "x-security-token"
        /\ authenticated s = true
        /\ defaults_headers (this ctx') !! "CST" = Some (header response "cst")
        /\ defaults_headers (this ctx') !! "X-SECURITY-TOKEN"
           = Some (header response "x-security-token")).
Proof.
  intros Hb. split.
  - intros Hmissing.
    unfold authenticate, try_catch, bind, axios_request. rewrite Hb.
    assert (negb (truthy (header response "cst"))
            || negb (truthy (header response "x-security-token")) = true) as ->.
    { destruct Hmissing as [-> | ->]; [reflexivity | apply orb_true_r]. }
    simpl. do 2 eexists. repeat split.
  - intros Hc Hx Hdata.
    unfold authenticate, try_catch, bind, axios_request. rewrite Hb.
    rewrite Hc, Hx. simpl. unfold read, get_prop. rewrite Hdata. simpl.
    do 3 eexists. repeat split; simpl.
    + rewrite lookup_insert_ne by discriminate. apply lookup_insert_eq.
    + apply lookup_insert_eq.
Qed.

(** A session returned by [authenticate] is flagged authenticated. *)
Lemma authenticate_data (creds : IGCredentials) (ctx ctx' : ClientCtx)
    (r : IGResponse IGSession) (s : IGSession) :
  authenticate w creds ctx = (inr r, ctx') ->
  data r = Some s ->
  success r = true /\ authenticated s = true.
Proof.
  intros H Hd. unfold authenticate in H.
  apply try_catch_inr in H as [H | (e & c1 & _ & H)].
  - apply bind_inr in H as (response & c1 & _ & H).
    destruct (negb (truthy (header response "cst"))
              || negb (truthy (header response "x-security-token"))).
    + injection H as <- _. discriminate Hd.
    + apply bind_inr in H as (a1 & c2 & _ & H).
      apply bind_inr in H as (a2 & c3 & _ & H).
      apply bind_inr in H as (a3 & c4 & _ & H).
      apply bind_inr in H as (u1 & c5 & _ & H).
      apply bind_inr in H as (u2 & c6 & _ & H).
      injection H as <- _. injection Hd as <-. split; reflexivity.
  - apply handleError_failure in H as [_ H]. rewrite H in Hd. discriminate.
Qed.

End Client_facts.

Ltac pure_chain :=
  repeat first
    [ apply pure_ret | apply pure_throw | apply pure_read
    | apply pure_to_String
    | apply pure_handleError | apply pure_is_open | apply pure_endpoint_url
    | apply pure_filterM; intros
    | apply pure_bind; intros
    | match goal with
      | |- pure_m (if ?b then _ else _) => destruct b
      | |- pure_m (match ?x with _ => _ end) => destruct x
      end ].

(** ** session-manager.ts: properties *)

Lemma getSession_run (c : string) (st : State) :
  SessionManager.getSession c st = (inr (session_of st c), provision c st).
Proof.
  unfold SessionManager.getSession, SessionManager.getSessionStore, bind,
    session_of, provision.
  destruct (sessions st !! c); reflexivity.
Qed.

Lemma isAuthenticated_run (c : string) (st : State) :
  SessionManager.isAuthenticated c st
  = (inr (has_authenticated_session st c), provision c st).
Proof.
  unfold SessionManager.isAuthenticated.
  rewrite (bind_step _ _ _ _ _ (getSession_run c st)).
  unfold ret, has_authenticated_session, session_of.
  destruct (sessions st !! c) as [store |]; [| reflexivity].
  destruct (session store); reflexivity.
Qed.

Lemma provision_network c st : network (provision c st) = network st.
Proof. unfold provision. destruct (sessions st !! c); reflexivity. Qed.

Lemma has_authenticated_session_of (st : State) (c : string) :
  has_authenticated_session st c
  = match session_of st c with Some s => authenticated s | None => false end.
Proof.
  unfold has_authenticated_session, session_of.
  destruct (sessions st !! c); reflexivity.
Qed.

Lemma clearSession_run (c : string) (st : State) :
  exists st',
    SessionManager.clearSession c st = (inr tt, st')
    /\ sessions st' !! c = Some (mkStore None None)
    /\ network st' = network st.
Proof.
  unfold SessionManager.clearSession, SessionManager.getSessionStore, bind, modify.
  destruct (sessions st !! c); simpl;
    (eexists; split; [reflexivity |]; split; [apply lookup_insert_eq | reflexivity]).
Qed.

Lemma setSession_run (c : string) (s : IGSession) (st : State) :
  exists st',
    SessionManager.setSession c s st = (inr tt, st')
    /\ session_of st' c = Some s
    /\ network st' = network st
    /\ authenticatedConnections st' = authenticatedConnections st
    /\ currentConnectionId st' = currentConnectionId st.
Proof.
  unfold SessionManager.setSession, SessionManager.getSessionStore, bind, modify,
    session_of.
  destruct (sessions st !! c); simpl;
    (eexists; split; [reflexivity |]; simpl; rewrite lookup_insert_eq;
     repeat split).
Qed.

Lemma setCredentials_run (c : string) (cr : IGCredentials) (st : State) :
  exists st',
    SessionManager.setCredentials c cr st = (inr tt, st')
    /\ session_of st' c = session_of st c
    /\ network st' = network st
    /\ authenticatedConnections st' = authenticatedConnections st
    /\ currentConnectionId st' = currentConnectionId st.
Proof.
  unfold SessionManager.setCredentials, SessionManager.getSessionStore, bind,
    modify, session_of.
  destruct (sessions st !! c) eqn:Hc; simpl;
    (eexists; split; [reflexivity |]; simpl; rewrite lookup_insert_eq;
     repeat split).
Qed.

(** ** index.ts: properties *)

Section Dispatcher_facts.

Context (cfg : Config) (w : World).

Lemma isConnectionAuthenticated_run (c : string) (st : State) :
  isConnectionAuthenticated cfg c st = (inr (connection_allowed cfg st c), st).
Proof.
  unfold isConnectionAuthenticated, connection_allowed.
  destruct (negb (REQUIRE_AUTHENTICATION cfg)
            || bool_decide (MCP_SERVER_API_KEY cfg = EmptyString));
    reflexivity.
Qed.

Lemma authenticateConnection_run (c : string) (key : Json) (st : State) :
  exists b st',
    authenticateConnection cfg c key st = (inr b, st')
    /\ network st' = network st
    /\ (negb (REQUIRE_AUTHENTICATION cfg)
        || bool_decide (MCP_SERVER_API_KEY cfg = EmptyString) = true ->
        b = true /\ st' = st).
Proof.
  unfold authenticateConnection.
  destruct (negb (REQUIRE_AUTHENTICATION cfg)
            || bool_decide (MCP_SERVER_API_KEY cfg = EmptyString)).
  - exists true, st. repeat split.
  - destruct (validateApiKey cfg key); unfold bind, modify, ret; simpl;
      do 2 eexists; (split; [reflexivity |]); split; try reflexivity;
      discriminate.
Qed.

Lemma getClient_run (c : string) (st : State) :
  exists client st1,
    getClient cfg c st = (inr client, st1)
    /\ sessions st1 = sessions st
    /\ authenticatedConnections st1 = authenticatedConnections st
    /\ currentConnectionId st1 = currentConnectionId st
    /\ network st1 = network st.
Proof.
  unfold getClient. destruct (clients st !! c); do 2 eexists; repeat split.
Qed.

Lemma ensureAuthenticated_run (c : string) (st : State) :
  ensureAuthenticated c st
  = (inr (if has_authenticated_session st c then None
          else Some "Not authenticated. Please use the login tool first."),
     provision c st).
Proof.
  unfold ensureAuthenticated, getSession.
  rewrite (bind_step _ _ _ _ _ (getSession_run c st)).
  rewrite has_authenticated_session_of. unfold ret.
  destruct (session_of st c) as [s |]; [| reflexivity].
  destruct (authenticated s); reflexivity.
Qed.

(** A method call changes nothing but the client object and the wire. *)
Lemma invoke_inv {A} (c : string) (client : IGClient) (m : M ClientCtx A)
    (st st' : State) (r : Thrown + A) :
  invoke c client m st = (r, st') ->
  exists ctx ctx',
    m ctx = (r, ctx')
    /\ net ctx = network st /\ network st' = net ctx'
    /\ sessions st' = sessions st
    /\ authenticatedConnections st' = authenticatedConnections st
    /\ currentConnectionId st' = currentConnectionId st.
Proof.
  unfold invoke.
  destruct (m _) as [r0 c0] eqn:Hm. intros [= <- <-].
  do 2 eexists. split; [exact Hm |]. repeat split.
Qed.

Lemma client_setSession_run (s : IGSession) (ctx : ClientCtx) :
  exists ctx', setSession s ctx = (inr tt, ctx') /\ net ctx' = net ctx.
Proof.
  unfold setSession.
  destruct (truthy (cst s) && truthy (xSecurityToken s)).
  - unfold bind, set_default_header, modify. simpl. eexists. split; reflexivity.
  - eexists. split; reflexivity.
Qed.

Lemma invoke_setSession_run (c : string) (client : IGClient) (s : IGSession)
    (st : State) :
  exists st',
    invoke c client (setSession s) st = (inr tt, st')
    /\ network st' = network st
    /\ sessions st' = sessions st
    /\ authenticatedConnections st' = authenticatedConnections st
    /\ currentConnectionId st' = currentConnectionId st.
Proof.
  destruct (invoke c client (setSession s) st) as [r st'] eqn:Hi.
  destruct (invoke_inv _ _ _ _ _ _ Hi) as (ctx & ctx' & Hm & Hn & Hn' & Hs & Ha & Hc).
  destruct (client_setSession_run s ctx) as (ctx2 & Hrun & Hnet).
  rewrite Hrun in Hm. injection Hm as <- <-.
  exists st'. repeat split; try assumption. congruence.
Qed.

(** *** Reading the envelope *)

Lemma decoded_data (d : Json) (m : option string) (dbg : Json) (b : bool) :
  decoded_field "data" (envelope (formatResponse d m dbg) b)
  = match d with JUndef => None | _ => Some (wire d) end.
Proof.
  unfold decoded_field, decoded, envelope, formatResponse.
  destruct dbg as [| | [] | t | s | l | fs]; simpl;
    rewrite ?andb_false_r; destruct d; reflexivity.
Qed.

Lemma decoded_message (d : Json) (m : option string) (dbg : Json) (b : bool) :
  decoded_field "message" (envelope (formatResponse d m dbg) b)
  = Some (JStr (or_string m "Operation completed successfully")).
Proof.
  unfold decoded_field, decoded, envelope, formatResponse.
  destruct dbg as [| | [] | t | s | l | fs]; simpl;
    rewrite ?andb_false_r; reflexivity.
Qed.

Lemma shaped_error_has_no_data (env : Envelope) :
  shaped env -> isError env = true -> data_absent_or_null env.
Proof.
  intros [m dbg | body | r Hr] Herr; unfold data_absent_or_null.
  - right. apply decoded_data.
  - discriminate.
  - simpl in Herr. apply negb_true_iff in Herr.
    left. rewrite decoded_data, (Hr Herr). reflexivity.
Qed.

(** *** The broker-facing cases *)

Lemma broker_tool_unauthenticated (c : string) (client : IGClient)
    (call : M ClientCtx (IGResponse Json)) (st : State) :
  has_authenticated_session st c = false ->
  broker_tool c client call st
  = (inr (envelope
            (formatResponse JNull
               (Some "Not authenticated. Please use the login tool first.")
               JUndef)
            true),
     provision c st).
Proof.
  intros H. unfold broker_tool.
  rewrite (bind_step _ _ _ _ _ (ensureAuthenticated_run c st)), H.
  reflexivity.
Qed.

Lemma broker_tool_shaped (c : string) (client : IGClient)
    (call : M ClientCtx (IGResponse Json)) (st st' : State) (env : Envelope) :
  failure_without_data call ->
  broker_tool c client call st = (inr env, st') ->
  shaped env.
Proof.
  intros Hcall H. unfold broker_tool in H.
  rewrite (bind_step _ _ _ _ _ (ensureAuthenticated_run c st)) in H.
  destruct (has_authenticated_session st c).
  - unfold getSession in H.
    rewrite (bind_step _ _ _ _ _ (getSession_run c _)) in H.
    apply bind_inr in H as (u & s1 & _ & H).
    apply bind_inr in H as (r & s2 & Hi & H).
    injection H as <- _.
    apply invoke_inv in Hi as (ctx & ctx' & Hm & _).
    apply shaped_result. exact (Hcall _ _ _ Hm).
  - injection H as <- _. apply shaped_rejection.
Qed.

Lemma login_result_shaped (c : string) (client : IGClient)
    (creds : IGCredentials) (r : IGResponse IGSession) (st st' : State)
    (env : Envelope) :
  login_result c client creds r st = (inr env, st') -> shaped env.
Proof.
  unfold login_result. destruct (data r) as [s |].
  - destruct (success r).
    + intros H.
      apply bind_inr in H as (u1 & s1 & _ & H).
      apply bind_inr in H as (u2 & s2 & _ & H).
      apply bind_inr in H as (u3 & s3 & _ & H).
      injection H as <- _. apply shaped_success.
    + intros [= <- _]. apply shaped_rejection.
  - intros [= <- _]. apply shaped_rejection.
Qed.

(** Every envelope the [try] block returns has one of the three shapes. *)
Lemma handler_shaped (c : string) (client : IGClient) (name : string)
    (args : Json) (st st' : State) (env : Envelope) :
  handler cfg w c client name args st = (inr env, st') -> shaped env.
Proof.
  unfold handler.
  rewrite (bind_step _ _ _ _ _ (isConnectionAuthenticated_run c st)).
  destruct (negb (connection_allowed cfg st c)
            && negb (bool_decide (name = "mcp_authenticate"))).
  { intros [= <- _]. apply shaped_rejection. }
  destruct (select name tool_names) as [t |].
  2: { intros [= <- _]. apply shaped_rejection. }
  destruct t;
    try (intros H; eapply broker_tool_shaped; [| exact H];
         lazymatch goal with
         | |- failure_without_data (getAccounts _) =>
             exact (perform_failure_without_data w GetAccounts)
         | |- failure_without_data (getAccountBalance _ ?a) =>
             exact (perform_failure_without_data w (GetAccountBalance a))
         | |- failure_without_data (getPositions _) =>
             exact (perform_failure_without_data w GetPositions)
         | |- failure_without_data (getOpenPositions _) =>
             exact (perform_failure_without_data w GetOpenPositions)
         | |- failure_without_data (closePosition _ ?d ?x ?y) =>
             exact (perform_failure_without_data w (ClosePosition d x y))
         | |- failure_without_data (placeOrder _ ?r ?a) =>
             exact (perform_failure_without_data w (PlaceOrder r a))
         | |- failure_without_data (getWorkingOrders _) =>
             exact (perform_failure_without_data w GetWorkingOrders)
         | |- failure_without_data (deleteWorkingOrder _ ?d) =>
             exact (perform_failure_without_data w (DeleteWorkingOrder d))
         | |- failure_without_data (getMarketData _ ?e) =>
             exact (perform_failure_without_data w (GetMarketData e))
         | |- failure_without_data (searchInstruments _ ?t) =>
             exact (perform_failure_without_data w (SearchInstruments t))
         | |- failure_without_data (getHistoricalPrices _ ?e ?r ?f ?t ?p) =>
             exact (perform_failure_without_data w
                      (GetHistoricalPrices e r f t p))
         | |- failure_without_data (getWatchlists _) =>
             exact (perform_failure_without_data w GetWatchlists)
         | |- failure_without_data (getWatchlistMarkets _ ?i) =>
             exact (perform_failure_without_data w (GetWatchlistMarkets i))
         | |- failure_without_data (callAPI _ ?m ?e ?p ?v ?h) =>
             exact (perform_failure_without_data w (CallAPI m e p v h))
         end).
  - (* mcp_authenticate *)
    destruct (bool_decide (MCP_SERVER_API_KEY cfg = EmptyString)).
    + intros [= <- _]. apply shaped_success.
    + intros H. apply bind_inr in H as ([] & s1 & _ & H);
        injection H as <- _; [apply shaped_success | apply shaped_rejection].
  - (* ig_login *)
    destruct (REQUIRE_ENV_CREDENTIALS cfg && credentialsFromTool args).
    { intros [= <- _]. apply shaped_rejection. }
    match goal with |- context [if ?b then ret _ else _] => destruct b end.
    { intros [= <- _]. apply shaped_rejection. }
    match goal with |- context [if ?b then _ else _] => destruct b end.
    + intros H.
      apply bind_inr in H as (u1 & s1 & _ & H).
      apply bind_inr in H as (u2 & s2 & _ & H).
      apply bind_inr in H as (r & s3 & _ & H).
      exact (login_result_shaped _ _ _ _ _ _ _ H).
    + intros H.
      apply bind_inr in H as (r & s3 & _ & H).
      exact (login_result_shaped _ _ _ _ _ _ _ H).
  - (* ig_logout *)
    rewrite (bind_step _ _ _ _ _ (ensureAuthenticated_run c st)).
    destruct (has_authenticated_session st c).
    + intros H. apply bind_inr in H as (u & s1 & _ & H).
      injection H as <- _. apply shaped_success.
    + intros [= <- _]. apply shaped_rejection.
Qed.

(** [executeToolCall] is the [try] block run after [getClient], with the
    [catch] block behind it. *)
Lemma executeToolCall_unfold (name : string) (args : Json) (st : State) :
  exists client st0,
    getClient cfg (currentConnectionId st) st = (inr client, st0)
    /\ sessions st0 = sessions st
    /\ authenticatedConnections st0 = authenticatedConnections st
    /\ currentConnectionId st0 = currentConnectionId st
    /\ network st0 = network st
    /\ executeToolCall cfg w name args st
       = try_catch (handler cfg w (currentConnectionId st) client name args)
                   (fun error => ret (unexpected error)) st0.
Proof.
  destruct (getClient_run (currentConnectionId st) st)
    as (client & st0 & Hg & Hs & Ha & Hc & Hn).
  exists client, st0. repeat split; try assumption.
  unfold executeToolCall, bind at 1, gets.
  rewrite (bind_step _ _ _ _ _ Hg). reflexivity.
Qed.

End Dispatcher_facts.

Section Dispatcher_claims.

Context (cfg : Config) (w : World).

Lemma provision_clients c st : clients (provision c st) = clients st.
Proof. unfold provision. destruct (sessions st !! c); reflexivity. Qed.

Lemma select_mcp_authenticate (name : string) :
  select name tool_names = Some mcp_authenticate -> name = "mcp_authenticate".
Proof.
  unfold tool_names, select.
  repeat (case_bool_decide; [try discriminate; intros _; assumption |]).
  discriminate.
Qed.

Lemma select_ig_login (name : string) :
  select name tool_names = Some ig_login -> name = "ig_login".
Proof.
  unfold tool_names, select.
  repeat (case_bool_decide; [try discriminate; intros _; assumption |]).
  discriminate.
Qed.

Lemma handler_unauthenticated (c : string) (client : IGClient) (name : string)
    (args : Json) (st : State) :
  name <> "ig_login" -> name <> "mcp_authenticate" ->
  has_authenticated_session st c = false ->
  exists env st',
    handler cfg w c client name args st = (inr env, st')
    /\ isError env = true
    /\ network st' = network st
    /\ clients st' = clients st.
Proof.
  intros Hlogin Hmcp Hsession. unfold handler.
  rewrite (bind_step _ _ _ _ _ (isConnectionAuthenticated_run cfg c st)).
  destruct (negb (connection_allowed cfg st c)
            && negb (bool_decide (name = "mcp_authenticate"))).
  { do 2 eexists. split; [reflexivity |]. repeat split. }
  destruct (select name tool_names) as [t |] eqn:Hsel.
  2: { do 2 eexists. split; [reflexivity |]. repeat split. }
  destruct t;
    try (rewrite (broker_tool_unauthenticated _ _ _ _ Hsession);
         do 2 eexists; split; [reflexivity |];
         split; [reflexivity |];
         split; [apply provision_network | apply provision_clients]).
  - exfalso. exact (Hmcp (select_mcp_authenticate name Hsel)).
  - exfalso. exact (Hlogin (select_ig_login name Hsel)).
  - rewrite (bind_step _ _ _ _ _ (ensureAuthenticated_run c st)), Hsession.
    do 2 eexists. split; [reflexivity |].
    split; [reflexivity |].
    split; [apply provision_network | apply provision_clients].
Qed.

(** C1.  For every tool name other than [ig_login] and
    [mcp_authenticate], [executeToolCall] on a connection whose session
    store holds no session with [authenticated = true] returns an envelope
    with [isError = true]; no request reaches the broker and the client
    objects are as [getClient] left them (no method of the client ran). *)
Theorem unauthenticated_call_is_rejected (name : string) (args : Json)
    (st : State) :
  name <> "ig_login" ->
  name <> "mcp_authenticate" ->
  has_authenticated_session st (currentConnectionId st) = false ->
  exists env st',
    executeToolCall cfg w name args st = (inr env, st')
    /\ isError env = true
    /\ network st' = network st
    /\ clients st' = clients (getClient cfg (currentConnectionId st) st).2.
Proof.
  intros Hlogin Hmcp Hsession.
  destruct (executeToolCall_unfold cfg w name args st)
    as (client & st0 & Hg & Hs & _ & _ & Hn & ->).
  assert (has_authenticated_session st0 (currentConnectionId st) = false) as H0.
  { unfold has_authenticated_session in *. rewrite Hs. exact Hsession. }
  destruct (handler_unauthenticated (currentConnectionId st) client name args
              st0 Hlogin Hmcp H0) as (env & st' & Hh & Herr & Hnet & Hcl).
  exists env, st'. unfold try_catch. rewrite Hh, Hg.
  repeat split; try assumption. congruence.
Qed.

(** C2, amended.  Every envelope that [executeToolCall] produces with
    [isError = true] has a decoded [data] field that is absent or [null].
    The converse is not claimed: a successful [ig_logout] answers with
    [null] data. *)
Theorem error_envelope_has_no_data (name : string) (args : Json)
    (st st' : State) (env : Envelope) :
  executeToolCall cfg w name args st = (inr env, st') ->
  isError env = true ->
  data_absent_or_null env.
Proof.
  destruct (executeToolCall_unfold cfg w name args st)
    as (client & st0 & _ & _ & _ & _ & _ & ->).
  intros H. apply try_catch_inr in H as [H | (e & s1 & _ & H)].
  - apply shaped_error_has_no_data. exact (handler_shaped cfg w _ _ _ _ _ _ _ H).
  - injection H as <- _. intros _. right. apply decoded_data.
Qed.

Lemma select_login_label : select "ig_login" tool_names = Some ig_login.
Proof. reflexivity. Qed.

Lemma select_logout_label : select "ig_logout" tool_names = Some ig_logout.
Proof. reflexivity. Qed.

Lemma select_mcp_label :
  select "mcp_authenticate" tool_names = Some mcp_authenticate.
Proof. reflexivity. Qed.

(** C3.  With [REQUIRE_ENV_CREDENTIALS] on, an [ig_login] call whose
    arguments supply any of [username], [password], [apiKey] (the test of
    the code: one of them is truthy) returns an envelope with
    [isError = true]; no request reaches the broker and no method of the
    client ran, whatever credentials the environment holds. *)
Theorem strict_mode_rejects_tool_credentials (args : Json) (st : State) :
  REQUIRE_ENV_CREDENTIALS cfg = true ->
  credentialsFromTool args = true ->
  exists env st',
    executeToolCall cfg w "ig_login" args st = (inr env, st')
    /\ isError env = true
    /\ network st' = network st
    /\ clients st' = clients (getClient cfg (currentConnectionId st) st).2.
Proof.
  intros Hstrict Hcreds.
  destruct (executeToolCall_unfold cfg w "ig_login" args st)
    as (client & st0 & Hg & _ & _ & _ & Hn & ->).
  unfold try_catch, handler.
  rewrite (bind_step _ _ _ _ _ (isConnectionAuthenticated_run cfg _ st0)).
  rewrite Hg. simpl snd.
  destruct (negb (connection_allowed cfg st0 (currentConnectionId st))
            && negb (bool_decide ("ig_login" = "mcp_authenticate"))).
  - do 2 eexists. split; [reflexivity |]. repeat split. exact Hn.
  - rewrite select_login_label, Hstrict, Hcreds. simpl.
    do 2 eexists. split; [reflexivity |]. repeat split. exact Hn.
Qed.

Lemma truthy_js_or (a b : Json) : truthy (js_or a b) = truthy a || truthy b.
Proof. unfold js_or. destruct (truthy a) eqn:Ha; [exact Ha | reflexivity]. Qed.

(** Any field given as a non-empty string counts as a credential from the
    tool call. *)
Lemma credentialsFromTool_string (fs : list (string * Json)) (k s : string) :
  k = "username" \/ k = "password" \/ k = "apiKey" ->
  assoc k fs = Some (JStr s) -> s <> EmptyString ->
  credentialsFromTool (JObj fs) = true.
Proof.
  intros Hk Hf Hs. unfold credentialsFromTool.
  rewrite !truthy_js_or. unfold opt_get.
  assert (truthy (JStr s) = true) as Ht.
  { simpl. rewrite bool_decide_eq_false_2 by exact Hs. reflexivity. }
  destruct Hk as [-> | [-> | ->]]; rewrite Hf; simpl default; rewrite Ht.
  - reflexivity.
  - rewrite orb_true_r. reflexivity.
  - apply orb_true_r.
Qed.

(** When the strict check lets a login through, the credentials sent to
    the broker are those of the environment. *)
Lemma strict_mode_uses_environment_credentials (args : Json) :
  credentialsFromTool args = false ->
  effective_credentials cfg args
  = mkCredentials (JStr (USERNAME cfg)) (JStr (PASSWORD cfg)) (JStr (API_KEY cfg)).
Proof.
  unfold credentialsFromTool, effective_credentials.
  rewrite !truthy_js_or. intros H.
  apply orb_false_iff in H as [H Hk]. apply orb_false_iff in H as [Hu Hp].
  unfold js_or. rewrite Hu, Hp, Hk. reflexivity.
Qed.

(** C10.  Without a gatekeeping secret, [mcp_authenticate] returns the
    success envelope whatever its arguments are: [isError] is false, the
    decoded data is [{authenticated: true}] and the message says that no key
    is required.  With a secret but [REQUIRE_AUTHENTICATION] off,
    [authenticateConnection] accepts every key, and [mcp_authenticate]
    returns the success envelope whatever key is given: [isError] is false,
    the decoded data is [{authenticated: true, connectionId}] and the message
    is 'Successfully authenticated with MCP server. You can now use IG API
    tools.' *)
Theorem mcp_authenticate_without_enforcement (args : Json) (st : State) :
  (MCP_SERVER_API_KEY cfg = EmptyString ->
   exists env st',
     executeToolCall cfg w "mcp_authenticate" args st = (inr env, st')
     /\ env = envelope
               (formatResponse (JObj [("authenticated", JBool true)])
                  (Some "No API key required. Server is open for connections.")
                  JNull)
               false
     /\ isError env = false
     /\ decoded_field "data" env = Some (JObj [("authenticated", JBool true)])
     /\ decoded_field "message" env
        = Some (JStr "No API key required. Server is open for connections."))
  /\ (MCP_SERVER_API_KEY cfg <> EmptyString ->
      REQUIRE_AUTHENTICATION cfg = false ->
      (forall key c s, authenticateConnection cfg c key s = (inr true, s))
      /\ exists env st',
          executeToolCall cfg w "mcp_authenticate" args st = (inr env, st')
          /\ env = envelope
                    (formatResponse
                       (JObj [("authenticated", JBool true);
                              ("connectionId", JStr (currentConnectionId st))])
                       (Some "Successfully authenticated with MCP server. You can now use IG API tools.")
                       JNull)
                    false
          /\ isError env = false
          /\ decoded_field "data" env
             = Some (JObj [("authenticated", JBool true);
                           ("connectionId", JStr (currentConnectionId st))])
          /\ decoded_field "message" env
             = Some (JStr "Successfully authenticated with MCP server. You can now use IG API tools.")).
Proof.
  destruct (executeToolCall_unfold cfg w "mcp_authenticate" args st)
    as (client & st0 & Hg & _ & _ & _ & _ & ->).
  unfold try_catch, handler.
  rewrite (bind_step _ _ _ _ _ (isConnectionAuthenticated_run cfg _ st0)).
  rewrite select_mcp_label.
  replace (negb (bool_decide ("mcp_authenticate" = "mcp_authenticate")))
    with false by reflexivity.
  rewrite andb_false_r.
  split.
  - intros Hkey. rewrite bool_decide_eq_true_2 by exact Hkey.
    do 2 eexists. split; [reflexivity |]. split; [reflexivity |].
    split; [reflexivity |]. split; reflexivity.
  - intros Hkey Hoff. split.
    + intros key c s. unfold authenticateConnection. rewrite Hoff. reflexivity.
    + rewrite bool_decide_eq_false_2 by exact Hkey.
      unfold bind, authenticateConnection. rewrite Hoff. simpl.
      do 2 eexists. split; [reflexivity |]. split; [reflexivity |].
      split; [reflexivity |]. split; reflexivity.
Qed.

(** [executeToolCall] always returns an envelope. *)
Lemma executeToolCall_returns (name : string) (args : Json) (st : State) :
  exists env st', executeToolCall cfg w name args st = (inr env, st').
Proof.
  destruct (executeToolCall_unfold cfg w name args st)
    as (client & st0 & _ & _ & _ & _ & _ & ->).
  unfold try_catch.
  destruct (handler _ _ _ _ _ _ _) as [[e | env] st1]; do 2 eexists; reflexivity.
Qed.

(** C9.  Whatever the [try] block of [executeToolCall] does, the call
    returns an envelope: the one the block returned, or, when the block
    threw, the envelope of the [catch] block, which has [isError = true],
    [null] data, the message of the exception after 'Unexpected error: ',
    and the stack of the exception under [debug.error]. *)
Theorem handler_exception_is_caught (name : string) (args : Json)
    (st st0 st1 : State) (client : IGClient) (outcome : Thrown + Envelope) :
  getClient cfg (currentConnectionId st) st = (inr client, st0) ->
  handler cfg w (currentConnectionId st) client name args st0 = (outcome, st1) ->
  exists env,
    executeToolCall cfg w name args st = (inr env, st1)
    /\ match outcome with
       | inr result => env = result
       | inl error =>
           env = unexpected error
           /\ isError env = true
           /\ decoded_field "message" env
              = Some (JStr ("Unexpected error: " +:+
                            match instanceof_Error error with
                            | Some e => err_message e
                            | None => Thrown_String error
                            end))
           /\ decoded_field "data" env = Some JNull
           /\ (forall e stack,
                 instanceof_Error error = Some e ->
                 err_stack e = Some stack ->
                 decoded_field "debug" env = Some (JObj [("error", JStr stack)]))
       end.
Proof.
  intros Hg Hh. unfold executeToolCall, bind at 1, gets.
  rewrite (bind_step _ _ _ _ _ Hg). unfold try_catch. rewrite Hh.
  destruct outcome as [error | result].
  - exists (unexpected error). split; [reflexivity |].
    split; [reflexivity |]. split; [reflexivity |].
    split; [apply decoded_message |].
    split; [apply decoded_data |].
    intros e stack He Hstack. unfold unexpected. rewrite He, Hstack.
    reflexivity.
  - exists result. split; reflexivity.
Qed.

Lemma login_result_success (c : string) (client : IGClient)
    (creds : IGCredentials) (r : IGResponse IGSession) (st st' : State)
    (env : Envelope) :
  login_result c client creds r st = (inr env, st') ->
  isError env = false ->
  exists s,
    data r = Some s
    /\ session_of st' c = Some s
    /\ authenticatedConnections st' = authenticatedConnections st
    /\ currentConnectionId st' = currentConnectionId st.
Proof.
  unfold login_result. destruct (data r) as [s |].
  2: { intros [= <- _]. discriminate. }
  destruct (success r).
  2: { intros [= <- _]. discriminate. }
  destruct (setSession_run c s st) as (s1 & H1 & Hs1 & _ & Ha1 & Hc1).
  rewrite (bind_step _ _ _ _ _ H1).
  destruct (setCredentials_run c creds s1) as (s2 & H2 & Hs2 & _ & Ha2 & Hc2).
  rewrite (bind_step _ _ _ _ _ H2).
  destruct (invoke_setSession_run c client s s2) as (s3 & H3 & _ & Hs3 & Ha3 & Hc3).
  rewrite (bind_step _ _ _ _ _ H3).
  intros [= _ <-] _. exists s. split; [reflexivity |].
  repeat split; try congruence.
  unfold session_of in *. rewrite Hs3. congruence.
Qed.

Lemma login_success_state (c : string) (client : IGClient) (args : Json)
    (st st' : State) (env : Envelope) :
  handler cfg w c client "ig_login" args st = (inr env, st') ->
  isError env = false ->
  connection_allowed cfg st c = true
  /\ has_authenticated_session st' c = true
  /\ authenticatedConnections st' = authenticatedConnections st
  /\ currentConnectionId st' = currentConnectionId st.
Proof.
  unfold handler.
  rewrite (bind_step _ _ _ _ _ (isConnectionAuthenticated_run cfg c st)).
  destruct (connection_allowed cfg st c).
  2: { intros [= <- _]. discriminate. }
  simpl negb. rewrite andb_false_l, select_login_label.
  destruct (REQUIRE_ENV_CREDENTIALS cfg && credentialsFromTool args).
  { intros [= <- _]. discriminate. }
  match goal with |- context [if ?b then ret _ else _] => destruct b end.
  { intros [= <- _]. discriminate. }
  assert (forall client0 creds (s0 : State),
             authenticatedConnections s0 = authenticatedConnections st ->
             currentConnectionId s0 = currentConnectionId st ->
             bind (invoke c client0 (authenticate w creds))
                  (fun result => login_result c client0 creds result) s0
             = (inr env, st') ->
             isError env = false ->
             true = true
             /\ has_authenticated_session st' c = true
             /\ authenticatedConnections st' = authenticatedConnections st
             /\ currentConnectionId st' = currentConnectionId st) as Hcore.
  { intros client0 creds s0 Ha0 Hc0 H Herr.
    apply bind_inr in H as (r & s1 & Hi & H).
    apply invoke_inv in Hi as (ctx & ctx' & Hm & _ & _ & _ & Ha1 & Hc1).
    destruct (login_result_success _ _ _ _ _ _ _ H Herr)
      as (s & Hd & Hs & Ha2 & Hc2).
    destruct (authenticate_data w _ _ _ _ _ Hm Hd) as [_ Hauth].
    split; [reflexivity |].
    split; [rewrite has_authenticated_session_of, Hs; exact Hauth |].
    split; congruence. }
  match goal with |- context [if ?b then _ else _] => destruct b end.
  - intros H Herr.
    unfold bind at 1, modify in H. unfold bind at 1 in H.
    refine (Hcore _ _ _ _ _ H Herr); reflexivity.
  - intros H Herr. refine (Hcore _ _ _ _ _ H Herr); reflexivity.
Qed.

(** C5.  After an [ig_login] that succeeded, [isAuthenticated] answers
    [true] for the connection; an [ig_logout] that follows succeeds and
    [isAuthenticated] then answers [false]; and [isAuthenticated] answers
    [true] exactly when the store holds a session whose [authenticated]
    flag is [true]. *)
Theorem login_then_logout (args args' : Json) (st st' : State) (env : Envelope) :
  executeToolCall cfg w "ig_login" args st = (inr env, st') ->
  isError env = false ->
  (SessionManager.isAuthenticated (currentConnectionId st) st').1 = inr true
  /\ (exists env2 st2,
        executeToolCall cfg w "ig_logout" args' st' = (inr env2, st2)
        /\ isError env2 = false
        /\ (SessionManager.isAuthenticated (currentConnectionId st) st2).1
           = inr false)
  /\ (forall c s0,
        (SessionManager.isAuthenticated c s0).1 = inr true <->
        exists store s,
          sessions s0 !! c = Some store
          /\ session store = Some s
          /\ authenticated s = true).
Proof.
  intros Hlogin Herr.
  destruct (executeToolCall_unfold cfg w "ig_login" args st)
    as (client & st0 & _ & _ & Ha0 & Hc0 & _ & Heq).
  rewrite Heq in Hlogin.
  apply try_catch_inr in Hlogin as [H | (e & s1 & _ & [= <- _])].
  2: { discriminate Herr. }
  destruct (login_success_state _ _ _ _ _ _ H Herr) as (Hallow & Hsess & Ha & Hc).
  split; [rewrite isAuthenticated_run; simpl; rewrite Hsess; reflexivity |].
  split.
  - destruct (executeToolCall_unfold cfg w "ig_logout" args' st')
      as (client' & st0' & _ & Hs' & Ha' & Hc' & _ & ->).
    assert (currentConnectionId st' = currentConnectionId st) as Hcur
      by congruence.
    rewrite Hcur.
    unfold try_catch, handler.
    rewrite (bind_step _ _ _ _ _ (isConnectionAuthenticated_run cfg _ st0')).
    assert (connection_allowed cfg st0' (currentConnectionId st) = true) as ->.
    { unfold connection_allowed in *. rewrite Ha', Ha. exact Hallow. }
    simpl negb. rewrite andb_false_l, select_logout_label.
    rewrite (bind_step _ _ _ _ _ (ensureAuthenticated_run _ st0')).
    assert (has_authenticated_session st0' (currentConnectionId st) = true) as ->.
    { unfold has_authenticated_session in *. rewrite Hs'. exact Hsess. }
    destruct (clearSession_run (currentConnectionId st)
                (provision (currentConnectionId st) st0'))
      as (s2 & Hclear & Hlook & _).
    rewrite (bind_step _ _ _ _ _ Hclear).
    do 2 eexists. split; [reflexivity |]. split; [reflexivity |].
    rewrite isAuthenticated_run. simpl.
    unfold has_authenticated_session. rewrite Hlook. reflexivity.
  - intros c s0. rewrite isAuthenticated_run. simpl.
    unfold has_authenticated_session. split.
    + intros [= Hb].
      destruct (sessions s0 !! c) as [store |]; [| discriminate].
      destruct (session store) as [s |] eqn:Hs; [| discriminate].
      exists store, s. split; [reflexivity |]. split; [exact Hs | exact Hb].
    + intros (store & s & -> & Hs & Hauth). rewrite Hs, Hauth. reflexivity.
Qed.

End Dispatcher_claims.

(** ** The statements at concrete inputs *)

Module Witness.

Import Scenario Cases.

Lemma unauthenticated_call_is_rejected_witness :
  exists env st',
    executeToolCall cfg_open w_ok "ig_get_positions" JUndef st_fresh
    = (inr env, st')
    /\ isError env = true
    /\ network st' = network st_fresh
    /\ clients st' = clients (getClient cfg_open (currentConnectionId st_fresh) st_fresh).2.
Proof.
  apply (unauthenticated_call_is_rejected cfg_open w_ok "ig_get_positions"
           JUndef st_fresh); [discriminate | discriminate | reflexivity].
Defined.

(** Counterexample to C2 as stated: the envelope of a successful
    [ig_logout] has [isError = false] and [null] data, so [isError] is not
    equivalent to the absence of data. *)
Lemma logout_success_carries_null_data :
  exists env st',
    executeToolCall cfg_open w_ok "ig_logout" JUndef st_logged_in = (inr env, st')
    /\ ~ (isError env = true <-> data_absent_or_null env).
Proof.
  do 2 eexists. split; [vm_compute; reflexivity |].
  intros [_ H]. assert (false = true) as Habs; [| discriminate Habs].
  apply H. right. reflexivity.
Qed.

Lemma error_envelope_has_no_data_witness :
  data_absent_or_null
    (envelope
       (formatResponse JNull
          (Some "Not authenticated. Please use the login tool first.") JUndef)
       true).
Proof.
  apply (error_envelope_has_no_data cfg_open w_ok "ig_get_accounts" JUndef
           st_fresh
           (executeToolCall cfg_open w_ok "ig_get_accounts" JUndef st_fresh).2);
    [vm_compute; reflexivity | reflexivity].
Defined.

Lemma strict_mode_rejects_tool_credentials_witness :
  exists env st',
    executeToolCall cfg_strict w_ok "ig_login"
      (JObj [("username", JStr "alice")]) st_fresh = (inr env, st')
    /\ isError env = true
    /\ network st' = network st_fresh
    /\ clients st' = clients (getClient cfg_strict (currentConnectionId st_fresh) st_fresh).2.
Proof.
  apply (strict_mode_rejects_tool_credentials cfg_strict w_ok
           (JObj [("username", JStr "alice")]) st_fresh);
    reflexivity.
Defined.

Lemma login_then_logout_witness :
  (SessionManager.isAuthenticated "conn_1" st_logged_in).1 = inr true
  /\ exists env2 st2,
      executeToolCall cfg_open w_ok "ig_logout" JUndef st_logged_in
      = (inr env2, st2)
      /\ isError env2 = false
      /\ (SessionManager.isAuthenticated "conn_1" st2).1 = inr false.
Proof.
  pose proof (login_then_logout cfg_open w_ok JUndef JUndef st_fresh st_logged_in
                (envelope
                   (formatResponse
                      (JObj [("authenticated", JBool true);
                             ("accountId", JStr "ABC123");
                             ("accountType", JStr "SPREADBET")])
                      (Some "Successfully authenticated with IG API")
                      (JObj [("sessionToken", JStr "***hidden***")]))
                   false)) as H.
  destruct H as (H1 & H2 & _); [vm_compute; reflexivity | reflexivity |].
  split; [exact H1 | exact H2].
Defined.

Lemma getOpenPositions_filters_getPositions_witness :
  exists rp ro ctx',
    getPositions w_ok ctx_fresh = (inr rp, ctx')
    /\ getOpenPositions w_ok ctx_fresh = (inr ro, ctx')
    /\ success rp = true /\ success ro = true
    /\ data rp = Some (JArr [position "D1" "OPEN"; position "D2" "CLOSED";
                             position "D3" "OPEN"])
    /\ data ro = Some (JArr [position "D1" "OPEN"; position "D3" "OPEN"]).
Proof.
  apply (proj1 (getOpenPositions_filters_getPositions w_ok ctx_fresh
                  positions_response eq_refl eq_refl)).
  - reflexivity.
  - repeat constructor.
Defined.

Lemma upstream_status_mapping_witness :
  exists r,
    (getPositions w_401 ctx_fresh).1 = inr r
    /\ success r = false
    /\ userMessage r
       = Some "Authentication failed. Please check your credentials and try logging in again."
    /\ opt_get (debug r) "status" = JNum "401".
Proof.
  destruct (upstream_status_mapping w_401 GetPositions ctx_fresh
              (getPositions w_401 ctx_fresh).2
              (getPositions w_401 ctx_fresh).1
              (request_from (this ctx_fresh) (JStr "get") "/positions"
                 [("Version", JStr "2")] JUndef JUndef)
              unauthorized
              (mkResponse 401 "Unauthorized" ∅
                 (JObj [("errorCode", JStr "error.security.client-token-invalid")])))
    as (r & Hr & Hs & _ & H401 & _);
    [reflexivity | reflexivity | reflexivity | reflexivity | reflexivity |].
  exists r. destruct (H401 eq_refl) as [Hm Hst].
  repeat split; assumption.
Defined.

Lemma authenticate_requires_both_tokens_witness :
  (exists r ctx',
      authenticate w_tokenless (mkCredentials (JStr "u") (JStr "p") (JStr "k"))
        ctx_fresh = (inr r, ctx')
      /\ success r = false
      /\ data r = None
      /\ errorCode <$> error r = Some (JStr "AUTH_ERROR")
      /\ this ctx' = this ctx_fresh)
  /\ (exists r s ctx',
        authenticate w_ok (mkCredentials (JStr "u") (JStr "p") (JStr "k"))
          ctx_fresh = (inr r, ctx')
        /\ success r = true
        /\ data r = Some s
        /\ cst s = JStr "CST-1"
        /\ xSecurityToken s = JStr "XST-1"
        /\ authenticated s = true
        /\ defaults_headers (this ctx') !! "CST" = Some (JStr "CST-1")
        /\ defaults_headers (this ctx') !! "X-SECURITY-TOKEN"
           = Some (JStr "XST-1")).
Proof.
  split.
  - apply (proj1 (authenticate_requires_both_tokens w_tokenless
                    (mkCredentials (JStr "u") (JStr "p") (JStr "k"))
                    ctx_fresh tokenless_response eq_refl)).
    right. reflexivity.
  - apply (proj2 (authenticate_requires_both_tokens w_ok
                    (mkCredentials (JStr "u") (JStr "p") (JStr "k"))
                    ctx_fresh session_response eq_refl));
      reflexivity.
Defined.

Lemma handler_exception_is_caught_witness :
  exists env st1,
    executeToolCall cfg_open w_null "ig_login" JUndef st_fresh = (inr env, st1)
    /\ isError env = true
    /\ decoded_field "message" env
       = Some (JStr "Unexpected error: Cannot read properties of null (reading 'message')")
    /\ decoded_field "debug" env
       = Some (JObj [("error",
                      JStr "TypeError: Cannot read properties of null (reading 'message')")]).
Proof.
  destruct (handler_exception_is_caught cfg_open w_null "ig_login" JUndef st_fresh
              (getClient cfg_open "conn_1" st_fresh).2
              (handler cfg_open w_null "conn_1"
                 (new_IGClient (JStr "env-key") url) "ig_login" JUndef
                 (getClient cfg_open "conn_1" st_fresh).2).2
              (new_IGClient (JStr "env-key") url)
              (inl (TypeError_read stack JNull "message")))
    as (env & Hrun & -> & Herr & Hmsg & _ & Hdbg);
    [reflexivity | vm_compute; reflexivity |].
  do 2 eexists. split; [exact Hrun |]. split; [exact Herr |].
  split; [exact Hmsg |]. exact (Hdbg _ _ eq_refl eq_refl).
Defined.

Lemma mcp_authenticate_without_enforcement_witness :
  (exists env st',
      executeToolCall cfg_open w_ok "mcp_authenticate"
        (JObj [("apiKey", JStr "anything")]) st_fresh = (inr env, st')
      /\ isError env = false
      /\ decoded_field "data" env = Some (JObj [("authenticated", JBool true)])
      /\ decoded_field "message" env
         = Some (JStr "No API key required. Server is open for connections."))
  /\ (exists env st',
        executeToolCall cfg_gate_off w_ok "mcp_authenticate"
          (JObj [("apiKey", JStr "wrong")]) st_fresh = (inr env, st')
        /\ isError env = false
        /\ decoded_field "data" env
           = Some (JObj [("authenticated", JBool true);
                         ("connectionId", JStr "conn_1")])
        /\ decoded_field "message" env
           = Some (JStr "Successfully authenticated with MCP server. You can now use IG API tools.")).
Proof.
  split.
  - destruct (proj1 (mcp_authenticate_without_enforcement cfg_open w_ok
                       (JObj [("apiKey", JStr "anything")]) st_fresh) eq_refl)
      as (env & st' & Hrun & _ & Herr & Hdata & Hmsg).
    exists env, st'. repeat split; assumption.
  - destruct (proj2 (mcp_authenticate_without_enforcement cfg_gate_off w_ok
                       (JObj [("apiKey", JStr "wrong")]) st_fresh)
                ltac:(discriminate) eq_refl)
      as (_ & env & st' & Hrun & _ & Herr & Hdata & Hmsg).
    exists env, st'. repeat split; assumption.
Defined.

(** Counterexample to C6 as stated: on a positions array that holds a
    [null], [getPositions] returns the array while [getOpenPositions] fails,
    so its result is not the [OPEN] sublist. *)
Lemma null_position_breaks_the_filter :
  exists rp ro ctx',
    getPositions w_ragged ctx_fresh = (inr rp, ctx')
    /\ getOpenPositions w_ragged ctx_fresh = (inr ro, ctx')
    /\ data rp = Some (JArr [position "D1" "OPEN"; JNull])
    /\ success ro = false
    /\ data ro <> Some (JArr (open_sublist [position "D1" "OPEN"; JNull])).
Proof.
  do 3 eexists. split; [vm_compute; reflexivity |].
  split; [vm_compute; reflexivity |]. split; [reflexivity |].
  split; [reflexivity |]. discriminate.
Qed.

(** Counterexample to C7 as stated: [closePosition] on a deal id that has
    no conversion to a string gets its request out, has it rejected with a
    401, and throws instead of returning a result. *)
Lemma unprintable_deal_id_throws_on_401 :
  exists req e ctx',
    closePosition w_401 odd_id (JStr "BUY") (JNum "1") ctx_fresh = (inl e, ctx')
    /\ net ctx' = [req]
    /\ broker w_401 [] req = Reject (ThrowAxios unauthorized)
    /\ (resp_status <$> ax_response unauthorized) = Some 401.
Proof.
  do 3 eexists. split; [vm_compute; reflexivity |].
  split; [reflexivity |]. split; reflexivity.
Qed.

(** Counterexample to C8 as stated: the session endpoint answers with
    both tokens and a [null] body; [authenticate] reports a failure and
    caches no token. *)
Lemma tokens_without_body_fail :
  exists r ctx',
    authenticate w_bodiless some_credentials ctx_fresh = (inr r, ctx')
    /\ broker w_bodiless [] (request_from (this ctx_fresh) (JStr "post")
                               "/session" [("Version", JStr "2")] JUndef
                               (JObj [("identifier", JStr "u");
                                      ("password", JStr "p")]))
       = Resolve bodiless_response
    /\ truthy (header bodiless_response "cst") = true
    /\ truthy (header bodiless_response "x-security-token") = true
    /\ success r = false
    /\ data r = None
    /\ errorCode <$> error r = Some (JStr "UNKNOWN_ERROR")
    /\ defaults_headers (this ctx') !! "CST" = None
    /\ defaults_headers (this ctx') !! "X-SECURITY-TOKEN" = None.
Proof.
  do 2 eexists. split; [vm_compute; reflexivity |].
  repeat split.
Qed.

End Witness.

(** ** session-manager.ts: further properties *)

Lemma getSessionStore_run (c : string) (st : State) :
  SessionManager.getSessionStore c st
  = (inr (default (mkStore None None) (sessions st !! c)), provision c st).
Proof.
  unfold SessionManager.getSessionStore, provision.
  destruct (sessions st !! c); reflexivity.
Qed.

Lemma provision_lookup (c : string) (st : State) :
  sessions (provision c st) !! c
  = Some (default (mkStore None None) (sessions st !! c)).
Proof.
  unfold provision. destruct (sessions st !! c) eqn:H; simpl.
  - exact H.
  - apply lookup_insert_eq.
Qed.

Lemma provision_lookup_ne (c c' : string) (st : State) :
  c <> c' -> sessions (provision c st) !! c' = sessions st !! c'.
Proof.
  intros Hne. unfold provision. destruct (sessions st !! c); [reflexivity |].
  simpl. apply lookup_insert_ne. exact Hne.
Qed.

Lemma provision_present (c : string) (st : State) (store : ConnectionSession) :
  sessions st !! c = Some store -> provision c st = st.
Proof. intros H. unfold provision. rewrite H. reflexivity. Qed.

Lemma setSession_state (c : string) (s : IGSession) (st : State) :
  SessionManager.setSession c s st
  = (inr tt,
     set_sessions
       (insert c (mkStore (Some s)
                    (credentials (default (mkStore None None) (sessions st !! c)))))
       (provision c st)).
Proof.
  unfold SessionManager.setSession.
  rewrite (bind_step _ _ _ _ _ (getSessionStore_run c st)). reflexivity.
Qed.

Lemma setCredentials_state (c : string) (cr : IGCredentials) (st : State) :
  SessionManager.setCredentials c cr st
  = (inr tt,
     set_sessions
       (insert c (mkStore
                    (session (default (mkStore None None) (sessions st !! c)))
                    (Some cr)))
       (provision c st)).
Proof.
  unfold SessionManager.setCredentials.
  rewrite (bind_step _ _ _ _ _ (getSessionStore_run c st)). reflexivity.
Qed.

Lemma clearSession_state (c : string) (st : State) :
  SessionManager.clearSession c st
  = (inr tt, set_sessions (insert c (mkStore None None)) (provision c st)).
Proof.
  unfold SessionManager.clearSession.
  rewrite (bind_step _ _ _ _ _ (getSessionStore_run c st)).
  unfold bind, modify, set_sessions. simpl. rewrite insert_insert_eq.
  reflexivity.
Qed.

(** X1.  What [setSession] stores for a connection is what [getSession]
    returns for it afterwards, and [isAuthenticated] then answers with the
    [authenticated] flag of that session; neither read changes the state. *)
Theorem setSession_then_getSession (c : string) (s : IGSession) (st : State) :
  exists st1,
    SessionManager.setSession c s st = (inr tt, st1)
    /\ SessionManager.getSession c st1 = (inr (Some s), st1)
    /\ SessionManager.isAuthenticated c st1 = (inr (authenticated s), st1).
Proof.
  rewrite setSession_state. eexists. split; [reflexivity |].
  set (st1 := set_sessions _ _).
  assert (sessions st1 !! c
          = Some (mkStore (Some s)
                    (credentials (default (mkStore None None) (sessions st !! c)))))
    as Hl by apply lookup_insert_eq.
  rewrite getSession_run, isAuthenticated_run.
  rewrite (provision_present _ _ _ Hl).
  unfold session_of, has_authenticated_session. rewrite Hl. split; reflexivity.
Qed.

(** X2.  The store operations on one connection leave the entry (session
    and credentials) of every other connection as it was. *)
Theorem session_store_isolation (c c' : string) (s : IGSession)
    (cr : IGCredentials) (st : State) :
  c <> c' ->
  sessions (SessionManager.setSession c s st).2 !! c' = sessions st !! c'
  /\ sessions (SessionManager.setCredentials c cr st).2 !! c' = sessions st !! c'
  /\ sessions (SessionManager.clearSession c st).2 !! c' = sessions st !! c'
  /\ sessions (SessionManager.getSession c st).2 !! c' = sessions st !! c'
  /\ sessions (SessionManager.isAuthenticated c st).2 !! c' = sessions st !! c'.
Proof.
  intros Hne.
  rewrite setSession_state, setCredentials_state, clearSession_state,
    getSession_run, isAuthenticated_run. simpl.
  rewrite !lookup_insert_ne by exact Hne.
  rewrite provision_lookup_ne by exact Hne. repeat split.
Qed.

(** X3.  [setSession] keeps the credentials cached for the connection and
    [setCredentials] keeps its session; [clearSession] removes both, leaves
    the connection unauthenticated, and clearing again changes nothing. *)
Theorem clearSession_removes_session_and_credentials (c : string)
    (s : IGSession) (cr : IGCredentials) (st : State) :
  let before := default (mkStore None None) (sessions st !! c) in
  sessions (SessionManager.setSession c s st).2 !! c
  = Some (mkStore (Some s) (credentials before))
  /\ sessions (SessionManager.setCredentials c cr st).2 !! c
     = Some (mkStore (session before) (Some cr))
  /\ exists st',
       SessionManager.clearSession c st = (inr tt, st')
       /\ sessions st' !! c = Some (mkStore None None)
       /\ SessionManager.isAuthenticated c st' = (inr false, st')
       /\ SessionManager.clearSession c st' = (inr tt, st').
Proof.
  intros before. rewrite setSession_state, setCredentials_state. simpl.
  rewrite !lookup_insert_eq. split; [reflexivity |]. split; [reflexivity |].
  rewrite clearSession_state. eexists. split; [reflexivity |].
  set (st' := set_sessions _ _).
  assert (sessions st' !! c = Some (mkStore None None)) as Hl
    by apply lookup_insert_eq.
  split; [exact Hl |].
  rewrite isAuthenticated_run, clearSession_state.
  rewrite (provision_present _ _ _ Hl).
  unfold has_authenticated_session. rewrite Hl. split; [reflexivity |].
  f_equal. destruct st' as [ss ac cl cur nw]. unfold set_sessions. simpl in *.
  rewrite (insert_id _ _ _ Hl). reflexivity.
Qed.

(** X4.  [getAllSessions] lists exactly the connections that have a store
    entry, each once and with its current session, and changes nothing. *)
Theorem getAllSessions_lists_the_store (st : State) :
  exists l,
    SessionManager.getAllSessions st = (inr l, st)
    /\ NoDup (l.*1)
    /\ forall c o,
         (c, o) ∈ l <->
         exists store, sessions st !! c = Some store /\ session store = o.
Proof.
  eexists. split; [reflexivity |]. split.
  - apply NoDup_fst_map_to_list.
  - intros c o. rewrite elem_of_map_to_list, lookup_fmap.
    destruct (sessions st !! c) as [store |]; simpl; split.
    + intros [= <-]. exists store. split; reflexivity.
    + intros (store' & [= <-] & <-). reflexivity.
    + discriminate.
    + intros (store' & H & _). discriminate.
Qed.

(** X5.  Reading never changes what is stored: [getSession] and
    [isAuthenticated] may create an empty entry, but the session of every
    connection, the gate set, the clients and the request log stay as they
    were; and the two reads agree with [ensureAuthenticated]. *)
Theorem reading_keeps_every_session (c c' : string) (st : State) :
  let st1 := (SessionManager.isAuthenticated c st).2 in
  (SessionManager.getSession c st).2 = st1
  /\ session_of st1 c' = session_of st c'
  /\ authenticatedConnections st1 = authenticatedConnections st
  /\ clients st1 = clients st
  /\ network st1 = network st
  /\ ((ensureAuthenticated c st).1 = inr None <->
      (SessionManager.isAuthenticated c st).1 = inr true).
Proof.
  intros st1. subst st1.
  rewrite isAuthenticated_run, getSession_run, ensureAuthenticated_run. simpl.
  split; [reflexivity |]. split.
  - unfold session_of. destruct (decide (c = c')) as [<- | Hne].
    + rewrite provision_lookup. destruct (sessions st !! c); reflexivity.
    + rewrite provision_lookup_ne by exact Hne. reflexivity.
  - split; [unfold provision; destruct (sessions st !! c); reflexivity |].
    split; [apply provision_clients |].
    split; [apply provision_network |].
    destruct (has_authenticated_session st c); split; congruence.
Qed.

(** ** ig-client.ts: further properties *)

Section Client_results.

Context (w : World).

Lemma perform_appends (c : ResourceCall) : appends (perform w c).
Proof.
  intros ctx.
  destruct (perform_state w c ctx) as [[_ H] | (req & H & _)]; rewrite H.
  - exists []. rewrite app_nil_r. reflexivity.
  - exists [req]. reflexivity.
Qed.


(** [handleError] makes a result of every instance of [Error]. *)
Lemma handleError_error {S T} (e : Thrown) (msg : string) (s : S) :
  is_error e ->
  exists r : IGResponse T,
    handleError w e msg s = (inr r, s) /\ success r = false /\ data r = None.
Proof.
  intros He. destruct e as [e | e | v]; simpl.
  - destruct (if truthy _ then _ else _) as [code m].
    eexists. repeat split.
  - eexists. repeat split.
  - destruct He.
Qed.

Lemma errors_axios_request mth url hdrs params body :
  rejects_with_errors w ->
  throws_errors (axios_request w mth url hdrs params body).
Proof.
  intros Hw s e s'. unfold axios_request.
  destruct (broker w _ _) as [response | e0] eqn:Hb; [discriminate |].
  intros [= <- _]. exact (Hw _ _ _ Hb).
Qed.

Lemma errors_set_default_header (k : string) (v : Json) :
  throws_errors (set_default_header k v).
Proof. intros s e s' H. discriminate H. Qed.

(** X7.  Over a transport that rejects with instances of [Error] only, a
    per-resource operation returns a result object exactly when the argument
    that its messages quote converts to a string: HTTP failures, malformed
    bodies and type errors are then all reported through [success = false].
    When the quoted argument does not convert, the operation throws the
    [TypeError] of the conversion, whatever the broker answers.
    [authenticate], which quotes nothing, always returns a result. *)
Theorem client_operations_return_results (c : ResourceCall)
    (creds : IGCredentials) (ctx : ClientCtx) :
  rejects_with_errors w ->
  (message_printable c = true ->
   exists r ctx', perform w c ctx = (inr r, ctx'))
  /\ (message_printable c = false ->
      exists ctx',
        perform w c ctx = (inl (TypeError_convert (engine_stack w)), ctx'))
  /\ (exists r ctx', authenticate w creds ctx = (inr r, ctx')).
Proof.
  intros Hw.
  assert (forall e msg (c1 : ClientCtx),
             is_error e ->
             exists (r : IGResponse Json) ctx',
               handleError w e msg c1 = (inr r, ctx')) as Hreturn.
  { intros e msg c1 He.
    destruct (handleError_error (T := Json) e msg c1 He) as (r & Hr & _).
    exists r, c1. exact Hr. }
  split; [| split].
  - intros Hp.
    destruct (perform_shape w c ctx)
      as [(_ & e0 & He0 & ->)
         | (mth & url & hdrs & params & body & post & -> & _ & Herr & _)].
    + rewrite (catch_block_printable w c e0 Hp). apply Hreturn, He0.
    + unfold try_catch, bind.
      destruct (axios_request w mth url hdrs params body ctx)
        as [[e | response] c1] eqn:Hreq.
      * rewrite (catch_block_printable w c e Hp). apply Hreturn.
        exact (errors_axios_request _ _ _ _ _ Hw _ _ _ Hreq).
      * destruct (post response c1) as [[e | r] c2] eqn:Hpost.
        -- rewrite (catch_block_printable w c e Hp). apply Hreturn.
           exact (Herr _ _ _ _ Hpost).
        -- exists r, c2. reflexivity.
  - intros Hp.
    destruct (perform_shape w c ctx)
      as [(_ & e0 & He0 & ->)
         | (mth & url & hdrs & params & body & post & -> & _ & _ & _ & Hnever & _)].
    + eexists. apply catch_block_unprintable, Hp.
    + unfold try_catch, bind.
      destruct (axios_request w mth url hdrs params body ctx)
        as [[e | response] c1] eqn:Hreq.
      * eexists. apply catch_block_unprintable, Hp.
      * rewrite (Hnever Hp response c1).
        eexists. apply catch_block_unprintable, Hp.
  - assert (forall e msg (c1 : ClientCtx),
               is_error e ->
               exists (r : IGResponse IGSession) ctx',
                 handleError w e msg c1 = (inr r, ctx')) as Hsession.
    { intros e msg c1 He.
      destruct (handleError_error (T := IGSession) e msg c1 He) as (r & Hr & _).
      exists r, c1. exact Hr. }
    unfold authenticate, try_catch, bind.
    destruct (axios_request w _ _ _ _ _ ctx) as [[e | response] c1] eqn:Hreq.
    + apply Hsession.
      exact (errors_axios_request _ _ _ _ _ Hw _ _ _ Hreq).
    + cbv zeta.
      destruct (negb (truthy (header response "cst"))
                || negb (truthy (header response "x-security-token")));
        [do 2 eexists; reflexivity |].
      unfold read, get_prop.
      destruct (nullish (resp_data response)).
      * apply Hsession. exact I.
      * do 2 eexists. reflexivity.
Qed.

End Client_results.

Section Client_requests.

Context (w : World).



Lemma js_or_defined (a b : Json) : b <> JUndef -> js_or a b <> JUndef.
Proof.
  intros Hb. unfold js_or. destruct (truthy a) eqn:Ha; [| exact Hb].
  intros ->. discriminate Ha.
Qed.



(** X9.  [callAPI] with a method and an endpoint that are strings, a
    version that is a string or left out, and no additional headers hands
    axios one request: the caller's method, the endpoint, prefixed with a
    slash when it has none, and the version (['1'] when left out) in the
    [Version] header.  A truthy payload travels as the body for [POST] and
    [PUT], as the query parameters for [GET], and is dropped for any other
    method. *)
Theorem callAPI_request (method payload version additionalHeaders : Json)
    (endpoint : string) (ctx : ClientCtx) :
  is_string method = true ->
  version = JUndef \/ is_string version = true ->
  truthy additionalHeaders = false ->
  exists req,
    net (callAPI w method (JStr endpoint) payload version additionalHeaders ctx).2
    = (net ctx ++ [req])%list
    /\ req_method req = method
    /\ req_url req
       = (if String.prefix "/" endpoint then endpoint else "/" +:+ endpoint)
    /\ String.prefix "/" (req_url req) = true
    /\ req_data req
       = (if strict_eq_str method "POST" || strict_eq_str method "PUT"
          then (if truthy payload then payload else JUndef) else JUndef)
    /\ req_params req
       = (if strict_eq_str method "GET"
          then (if truthy payload then payload else JUndef) else JUndef)
    /\ req_headers req !! "Version"
       = Some (match version with JUndef => JStr "1" | _ => version end).
Proof.
  intros Hmethod _ Hheaders.
  assert (spread additionalHeaders = []) as Hspread
    by (destruct additionalHeaders; try reflexivity; discriminate Hheaders).
  unfold callAPI. simpl endpoint_url. rewrite bind_ret. cbv beta zeta.
  unfold axios_request_config. rewrite Hmethod, andb_false_r, Hspread.
  rewrite one_request_sent;
    [| intros response; pure_chain
     | intros e; apply pure_bind; [apply pure_to_String |];
       intros path; apply pure_handleError].
  eexists. split; [reflexivity |]. split; [reflexivity |].
  split; [reflexivity |].
  split.
  { unfold request_from, req_url.
    destruct (String.prefix "/" endpoint) eqn:Hp; [exact Hp |].
    destruct endpoint; reflexivity. }
  split.
  { unfold request_from, req_data.
    destruct (truthy payload); simpl;
      destruct (strict_eq_str method "POST" || strict_eq_str method "PUT");
      reflexivity. }
  split.
  { unfold request_from, req_params.
    destruct method as [| | b | t | s | l | fs]; simpl;
      rewrite ?andb_false_r; try reflexivity.
    repeat case_bool_decide; subst; try discriminate;
      destruct (truthy payload); reflexivity. }
  unfold request_from, req_headers.
  erewrite lookup_union_Some_l; [reflexivity |].
  unfold obj_to_map. simpl. apply lookup_insert_eq.
Qed.

(** X10.  [callAPI] on an endpoint that is not a string but converts to
    one ([undefined], a number, an object without a [toString] member, ...)
    sends nothing and returns a failure: [success = false], no data, error
    code [UNKNOWN_ERROR], and the message 'Failed to call API endpoint: ...'
    with the text of the endpoint. *)
Theorem callAPI_rejects_non_string_endpoint
    (method endpoint payload version additionalHeaders : Json) (ctx : ClientCtx) :
  (forall s, endpoint <> JStr s) ->
  printable endpoint = true ->
  exists r,
    callAPI w method endpoint payload version additionalHeaders ctx = (inr r, ctx)
    /\ success r = false
    /\ data r = None
    /\ errorCode <$> error r = Some (JStr "UNKNOWN_ERROR")
    /\ userMessage r
       = Some ("Failed to call API endpoint: " +:+ js_String endpoint).
Proof.
  intros Hs Hp. unfold callAPI.
  destruct endpoint as [| | b | t | s | l | fs];
    try (unfold endpoint_url; rewrite bind_throw, try_catch_throw;
         rewrite (to_String_printable w _ Hp), bind_ret;
         eexists; split; [reflexivity |]; repeat split; fail).
  exfalso. exact (Hs s eq_refl).
Qed.

(** The request of an operation that runs after [setSession]. *)
Lemma perform_after_setSession (s : IGSession) (c : ResourceCall)
    (ctx : ClientCtx) :
  sends_request c = true ->
  exists ctx1 req,
    setSession s ctx = (inr tt, ctx1)
    /\ net (perform w c ctx1).2 = (net ctx ++ [req])%list
    /\ req_headers req !! "CST"
       = (if truthy (cst s) && truthy (xSecurityToken s) then Some (cst s)
          else defaults_headers (this ctx) !! "CST")
    /\ req_headers req !! "X-SECURITY-TOKEN"
       = (if truthy (cst s) && truthy (xSecurityToken s)
          then Some (xSecurityToken s)
          else defaults_headers (this ctx) !! "X-SECURITY-TOKEN")
    /\ req_headers req !! "X-IG-API-KEY"
       = defaults_headers (this ctx) !! "X-IG-API-KEY".
Proof.
  intros Hc.
  assert (exists ctx1,
             setSession s ctx = (inr tt, ctx1)
             /\ net ctx1 = net ctx
             /\ defaults_headers (this ctx1) !! "CST"
                = (if truthy (cst s) && truthy (xSecurityToken s)
                   then Some (cst s) else defaults_headers (this ctx) !! "CST")
             /\ defaults_headers (this ctx1) !! "X-SECURITY-TOKEN"
                = (if truthy (cst s) && truthy (xSecurityToken s)
                   then Some (xSecurityToken s)
                   else defaults_headers (this ctx) !! "X-SECURITY-TOKEN")
             /\ defaults_headers (this ctx1) !! "X-IG-API-KEY"
                = defaults_headers (this ctx) !! "X-IG-API-KEY")
    as (ctx1 & Hset & Hnet & Hcst & Hxst & Hkey).
  { unfold setSession.
    destruct (truthy (cst s) && truthy (xSecurityToken s)).
    - eexists. split; [reflexivity |]. simpl.
      split; [reflexivity |].
      split; [rewrite lookup_insert_ne by discriminate; apply lookup_insert_eq |].
      split; [apply lookup_insert_eq |].
      rewrite !lookup_insert_ne by discriminate. reflexivity.
    - exists ctx. repeat split. }
  exists ctx1. rewrite <- Hnet, <- Hcst, <- Hxst, <- Hkey. clear Hcst Hxst Hkey.
  destruct (perform_state w c ctx1) as [[Hno _] | (req & Hst & Hh)];
    [congruence |].
  exists req. split; [exact Hset |]. rewrite Hst. split; [reflexivity |].
  repeat split; apply (Hh Hc); discriminate.
Qed.

(** X11.  Once [setSession] ran, every per-resource operation whose
    request the code and the arguments determine (the URL fixed or built
    from arguments that convert to strings; not the generic [callAPI]) sends
    one request whose [CST] and [X-SECURITY-TOKEN] headers are the tokens of
    the session if the session has both; if it lacks one, the headers are
    whatever the client had cached before.  The [X-IG-API-KEY] header is the
    one the client already had. *)
Theorem requests_carry_session_tokens (s : IGSession) (c : ResourceCall)
    (ctx : ClientCtx) :
  sends_request c = true ->
  exists ctx1 req,
    setSession s ctx = (inr tt, ctx1)
    /\ net (perform w c ctx1).2 = (net ctx ++ [req])%list
    /\ req_headers req !! "CST"
       = (if truthy (cst s) && truthy (xSecurityToken s) then Some (cst s)
          else defaults_headers (this ctx) !! "CST")
    /\ req_headers req !! "X-SECURITY-TOKEN"
       = (if truthy (cst s) && truthy (xSecurityToken s)
          then Some (xSecurityToken s)
          else defaults_headers (this ctx) !! "X-SECURITY-TOKEN")
    /\ req_headers req !! "X-IG-API-KEY"
       = defaults_headers (this ctx) !! "X-IG-API-KEY".
Proof. exact (perform_after_setSession s c ctx). Qed.

End Client_requests.

Section Client_failures.

Context (w : World).

(** X12.  For an operation whose quoted argument converts to a string, an
    upstream 403 gets the same re-authentication message as a 401, and a
    status the mapping does not list (400 or 504, say) keeps the failure
    message of the operation itself. *)
Theorem unlisted_status_keeps_operation_message (c : ResourceCall)
    (ctx ctx' : ClientCtx) (res : Thrown + IGResponse Json) (req : HttpRequest)
    (e : AxiosError) (resp : HttpResponse) :
  message_printable c = true ->
  perform w c ctx = (res, ctx') ->
  net ctx' = (net ctx ++ [req])%list ->
  broker w (net ctx) req = Reject (ThrowAxios e) ->
  ax_response e = Some resp ->
  exists r,
    res = inr r
    /\ success r = false
    /\ (resp_status resp = 403 ->
        userMessage r
        = Some "Authentication failed. Please check your credentials and try logging in again.")
    /\ (resp_status resp ∉ [401; 403; 404; 429; 500; 502; 503] ->
        userMessage r = Some (failure_message c)).
Proof.
  intros Hp Hrun Hnet Hb Hresp.
  pose proof (perform_rejected w c ctx res ctx' req _ Hp Hrun Hnet Hb) as Hh.
  destruct (handleError_axios w (T := Json) e resp (failure_message c) ctx' Hresp)
    as (r & Hr & Hs & _ & _ & _ & Hum & _).
  rewrite Hr in Hh. injection Hh as <-.
  exists r. split; [reflexivity |]. split; [exact Hs |]. split.
  - intros H. rewrite Hum, H. reflexivity.
  - intros H. rewrite Hum. unfold friendlyMessage.
    rewrite !bool_decide_eq_false_2
      by (intros Heq; apply H; rewrite Heq; apply (bool_decide_unpack _);
          reflexivity).
    reflexivity.
Qed.

(** X13.  For an operation whose quoted argument converts to a string, a
    request that fails without an HTTP answer (an axios error without
    response, or any other [Error]) is reported with [success = false], no
    data, error code [UNKNOWN_ERROR], the message of the error, and the
    failure message of the operation for the user. *)
Theorem transport_failure_result (c : ResourceCall) (ctx ctx' : ClientCtx)
    (res : Thrown + IGResponse Json) (req : HttpRequest) (e : Thrown) :
  message_printable c = true ->
  perform w c ctx = (res, ctx') ->
  net ctx' = (net ctx ++ [req])%list ->
  broker w (net ctx) req = Reject e ->
  match e with
  | ThrowAxios a => ax_response a = None
  | ThrowError _ => True
  | ThrowValue _ => False
  end ->
  exists r,
    res = inr r
    /\ success r = false
    /\ data r = None
    /\ userMessage r = Some (failure_message c)
    /\ error r
       = Some (mkIGError (JStr "UNKNOWN_ERROR")
                 match e with
                 | ThrowAxios a => JStr (err_message (ax_error a))
                 | ThrowError x =>
                     if bool_decide (err_message x = EmptyString)
                     then JStr (Error_toString x) else JStr (err_message x)
                 | ThrowValue v => v
                 end).
Proof.
  intros Hp Hrun Hnet Hb He.
  pose proof (perform_rejected w c ctx res ctx' req _ Hp Hrun Hnet Hb) as Hh.
  destruct e as [a | x | v]; [| | destruct He]; simpl in Hh.
  - rewrite He in Hh. simpl in Hh. injection Hh as <-.
    eexists. repeat split.
  - injection Hh as <-. eexists. split; [reflexivity |].
    repeat split. simpl. unfold js_or. simpl.
    destruct (bool_decide (err_message x = EmptyString)); reflexivity.
Qed.

Lemma filterM_is_open_throws {S} (ps : list Json) (s : S) :
  Exists (fun p => nullish p = true) ps ->
  exists e, filterM (is_open w) ps s = (inl (ThrowError e), s).
Proof.
  induction 1 as [p ps Hp | p ps _ IH]; simpl.
  - unfold bind at 1. unfold is_open at 1, bind at 1, read, get_prop.
    rewrite Hp. eexists. reflexivity.
  - unfold bind at 1. unfold is_open at 1, bind at 1, read, get_prop.
    destruct (nullish p); [eexists; reflexivity |]. simpl.
    destruct IH as [e IH]. unfold bind. rewrite IH. eexists. reflexivity.
Qed.

(** X14.  If the positions array of the answer holds a [null] entry, or
    [positions] is neither an array nor missing, [getPositions] still
    returns it with [success = true], while [getOpenPositions] reports a
    failure ([success = false], no data, [UNKNOWN_ERROR], 'Failed to
    retrieve open positions'). *)
Theorem getOpenPositions_fails_on_malformed_positions (ctx : ClientCtx)
    (response : HttpResponse) :
  broker w (net ctx)
    (request_from (this ctx) (JStr "get") "/positions" [("Version", JStr "2")]
                  JUndef JUndef) = Resolve response ->
  nullish (resp_data response) = false ->
  match opt_get (resp_data response) "positions" with
  | JArr ps => Exists (fun p => nullish p = true) ps
  | JUndef | JNull => False
  | _ => True
  end ->
  (exists rp ctx',
      getPositions w ctx = (inr rp, ctx')
      /\ success rp = true
      /\ data rp = Some (opt_get (resp_data response) "positions"))
  /\ (exists ro ctx',
        getOpenPositions w ctx = (inr ro, ctx')
        /\ success ro = false
        /\ data ro = None
        /\ errorCode <$> error ro = Some (JStr "UNKNOWN_ERROR")
        /\ userMessage ro = Some "Failed to retrieve open positions").
Proof.
  intros Hb Hdata Hbad. split.
  - unfold getPositions, try_catch, bind, axios_request. rewrite Hb.
    unfold read, get_prop. rewrite Hdata. simpl. do 2 eexists. repeat split.
  - unfold getOpenPositions, try_catch, bind, axios_request. rewrite Hb.
    unfold read, get_prop. rewrite Hdata. simpl.
    destruct (opt_get (resp_data response) "positions")
      as [| | b | t | s | ps | fs];
      try (destruct Hbad; fail); simpl;
      try (do 2 eexists; repeat split; fail).
    match goal with
    | |- context [filterM (is_open w) ps ?c] =>
        destruct (filterM_is_open_throws ps c Hbad) as [e He]
    end.
    rewrite He. simpl. do 2 eexists. repeat split.
Qed.

(** The request of [authenticate], and the client after a call that did
    not succeed. *)
Lemma authenticate_state (creds : IGCredentials)
    (ctx ctx' : ClientCtx) (res : Thrown + IGResponse IGSession) :
  authenticate w creds ctx = (res, ctx') ->
  net ctx'
  = (net ctx ++
     [request_from (this ctx) (JStr "post") "/session" [("Version", JStr "2")]
        JUndef
        (JObj [("identifier", username creds); ("password", password creds)])])%list
  /\ ((forall r, res = inr r -> success r = false) -> this ctx' = this ctx).
Proof.
  unfold authenticate, try_catch, bind at 1, axios_request.
  destruct (broker w _ _) as [response | e].
  - cbv zeta.
    destruct (negb (truthy (header response "cst"))
              || negb (truthy (header response "x-security-token"))).
    + intros [= <- <-]. split; [reflexivity | intros _; reflexivity].
    + unfold read, get_prop.
      destruct (nullish (resp_data response)).
      * unfold bind at 1, throw. intros H.
        pose proof (handleError_state w (T := IGSession)
                      (TypeError_read (engine_stack w) (resp_data response)
                         "accountId")
                      "Authentication failed"
                      (mkCtx (this ctx)
                         (net ctx ++ [request_from (this ctx) (JStr "post")
                                        "/session" [("Version", JStr "2")] JUndef
                                        (JObj [("identifier", username creds);
                                               ("password", password creds)])])))
          as Hst.
        rewrite H in Hst. simpl in Hst. subst ctx'.
        split; [reflexivity | intros _; reflexivity].
      * simpl. intros [= <- <-]. split; [reflexivity |].
        intros H. specialize (H _ eq_refl). discriminate H.
  - intros H.
    match type of H with
    | handleError ?w0 ?e0 ?m0 ?c0 = _ =>
        pose proof (handleError_state w0 (T := IGSession) e0 m0 c0) as Hst
    end.
    rewrite H in Hst. simpl in Hst. subst ctx'.
    split; [reflexivity | intros _; reflexivity].
Qed.

(** X15.  [authenticate] sends exactly one request, a [post] to
    [/session] whose body holds the identifier and the password; unless it
    returns [success = true], the client object is left as it was (no token
    is cached). *)
Theorem failed_authenticate_keeps_client (creds : IGCredentials)
    (ctx ctx' : ClientCtx) (res : Thrown + IGResponse IGSession) :
  authenticate w creds ctx = (res, ctx') ->
  (exists req,
      net ctx' = (net ctx ++ [req])%list
      /\ req_method req = JStr "post"
      /\ req_url req = "/session"
      /\ req_data req
         = JObj [("identifier", username creds); ("password", password creds)])
  /\ ((forall r, res = inr r -> success r = false) -> this ctx' = this ctx).
Proof.
  intros H. destruct (authenticate_state creds ctx ctx' res H) as [Hn Hc].
  split; [| exact Hc]. eexists. split; [exact Hn |]. repeat split.
Qed.

Lemma authenticate_appends (creds : IGCredentials) :
  appends (authenticate w creds).
Proof.
  intros ctx. eexists.
  destruct (authenticate w creds ctx) as [res ctx'] eqn:Ha.
  exact (proj1 (authenticate_state creds ctx ctx' res Ha)).
Qed.

End Client_failures.

(** ** index.ts: what a tool call may change *)

Section Preservation.

Context {S : Type} (R : S -> S -> Prop) `{!PreOrder R}.

Lemma preserves_ret {A} (a : A) : preserves R (ret a).
Proof. intros s. simpl. reflexivity. Qed.

Lemma preserves_throw {A} (e : Thrown) : preserves R (throw (A := A) e).
Proof. intros s. simpl. reflexivity. Qed.

Lemma preserves_gets {A} (f : S -> A) : preserves R (gets f).
Proof. intros s. simpl. reflexivity. Qed.

Lemma preserves_bind {A B} (m : M S A) (k : A -> M S B) :
  preserves R m -> (forall a, preserves R (k a)) -> preserves R (bind m k).
Proof.
  intros Hm Hk s. unfold bind. specialize (Hm s).
  destruct (m s) as [[e | a] s1]; simpl in *; [exact Hm |].
  etransitivity; [exact Hm | apply Hk].
Qed.

Lemma preserves_try_catch {A} (body : M S A) (h : Thrown -> M S A) :
  preserves R body -> (forall e, preserves R (h e)) ->
  preserves R (try_catch body h).
Proof.
  intros Hb Hh s. unfold try_catch. specialize (Hb s).
  destruct (body s) as [[e | a] s1]; simpl in *; [| exact Hb].
  etransitivity; [exact Hb | apply Hh].
Qed.

End Preservation.

(** The client call that an operation of the client performs. *)
Ltac call_of m :=
  lazymatch m with
  | getAccounts _ => constr:(GetAccounts)
  | getAccountBalance _ ?a => constr:(GetAccountBalance a)
  | getPositions _ => constr:(GetPositions)
  | getOpenPositions _ => constr:(GetOpenPositions)
  | closePosition _ ?d ?x ?y => constr:(ClosePosition d x y)
  | placeOrder _ ?r ?a => constr:(PlaceOrder r a)
  | getWorkingOrders _ => constr:(GetWorkingOrders)
  | deleteWorkingOrder _ ?d => constr:(DeleteWorkingOrder d)
  | getMarketData _ ?e => constr:(GetMarketData e)
  | searchInstruments _ ?t => constr:(SearchInstruments t)
  | getHistoricalPrices _ ?e ?r ?f ?t ?p =>
      constr:(GetHistoricalPrices e r f t p)
  | getWatchlists _ => constr:(GetWatchlists)
  | getWatchlistMarkets _ ?i => constr:(GetWatchlistMarkets i)
  | callAPI _ ?m ?e ?p ?v ?h => constr:(CallAPI m e p v h)
  end.

Section Handler_preservation.

Context (cfg : Config) (w : World).

Lemma select_ig_logout (name : string) :
  select name tool_names = Some ig_logout -> name = "ig_logout".
Proof.
  unfold tool_names, select.
  repeat (case_bool_decide; [try discriminate; intros _; assumption |]).
  discriminate.
Qed.

(** A relation kept by every step of the [try] block is kept by the
    block: the gate check, the session reads, the calls on the client, and
    the steps reserved to [mcp_authenticate], [ig_login] and [ig_logout]. *)
Lemma handler_preserves (R : State -> State -> Prop) `{!PreOrder R}
    (c : string) (client : IGClient) (name : string) (args : Json) :
  preserves R (ensureAuthenticated c) ->
  preserves R (getSession c) ->
  (forall client' A (m : M ClientCtx A),
      appends m -> preserves R (invoke c client' m)) ->
  (name = "mcp_authenticate" ->
   forall key, preserves R (authenticateConnection cfg c key)) ->
  (name = "ig_login" ->
   (forall s, preserves R (SessionManager.setSession c s))
   /\ (forall cr, preserves R (SessionManager.setCredentials c cr))
   /\ (forall f : gmap string IGClient -> gmap string IGClient,
          (forall m c', c' <> c -> f m !! c' = m !! c') ->
          preserves R (modify (set_clients f)))) ->
  (name = "ig_logout" -> preserves R (SessionManager.clearSession c)) ->
  preserves R (handler cfg w c client name args).
Proof.
  intros Hens Hget Hinv Hmcp Hlogin Hlogout.
  assert (forall call, appends call -> preserves R (broker_tool c client call))
    as Hbroker.
  { intros call Hcall. unfold broker_tool.
    apply preserves_bind; [exact _ | exact Hens |]. intros [msg |].
    - apply preserves_ret; exact _.
    - apply preserves_bind; [exact _ | exact Hget |]. intros s.
      apply preserves_bind; [exact _ | |].
      + destruct s as [s |]; [| apply preserves_ret; exact _].
        apply Hinv. intros ctx.
        destruct (client_setSession_run s ctx) as (ctx' & Hr & Hn).
        exists []. rewrite Hr. simpl. rewrite Hn, app_nil_r. reflexivity.
      + intros _. apply preserves_bind; [exact _ | apply Hinv; exact Hcall |].
        intros r. apply preserves_ret; exact _. }
  pose proof (perform_appends w) as Hperform.
  unfold handler.
  apply preserves_bind; [exact _ | |].
  { intros st. rewrite isConnectionAuthenticated_run. simpl. reflexivity. }
  intros allowed.
  destruct (negb allowed && negb (bool_decide (name = "mcp_authenticate")));
    [apply preserves_ret; exact _ |].
  destruct (select name tool_names) as [t |] eqn:Hsel;
    [| apply preserves_ret; exact _].
  destruct t;
    try (apply Hbroker;
         lazymatch goal with
         | |- appends ?m => let call := call_of m in exact (Hperform call)
         end).
  - (* mcp_authenticate *)
    destruct (bool_decide (MCP_SERVER_API_KEY cfg = EmptyString));
      [apply preserves_ret; exact _ |].
    apply preserves_bind; [exact _ | |].
    + apply Hmcp. exact (select_mcp_authenticate name Hsel).
    + intros []; apply preserves_ret; exact _.
  - (* ig_login *)
    destruct (Hlogin (select_ig_login name Hsel)) as (Hset & Hcred & Hcl).
    assert (forall client' creds r,
               preserves R (login_result c client' creds r)) as Hres.
    { intros client' creds r. unfold login_result.
      destruct (data r) as [s |]; [| apply preserves_ret; exact _].
      destruct (success r); [| apply preserves_ret; exact _].
      apply preserves_bind; [exact _ | apply Hset |]. intros _.
      apply preserves_bind; [exact _ | apply Hcred |]. intros _.
      apply preserves_bind; [exact _ | |].
      - apply Hinv. intros ctx.
        destruct (client_setSession_run s ctx) as (ctx' & Hr & Hn).
        exists []. rewrite Hr. simpl. rewrite Hn, app_nil_r. reflexivity.
      - intros _. apply preserves_ret; exact _. }
    pose proof (authenticate_appends w) as Hauth.
    destruct (REQUIRE_ENV_CREDENTIALS cfg && credentialsFromTool args);
      [apply preserves_ret; exact _ |].
    match goal with |- context [if ?b then ret _ else _] => destruct b end;
      [apply preserves_ret; exact _ |].
    match goal with |- context [if ?b then _ else _] => destruct b end.
    + apply preserves_bind; [exact _ | |].
      { apply Hcl. intros m c' Hne. apply lookup_delete_ne. congruence. }
      intros _. apply preserves_bind; [exact _ | |].
      { apply Hcl. intros m c' Hne. apply lookup_insert_ne. congruence. }
      intros _. apply preserves_bind; [exact _ | apply Hinv, Hauth |].
      intros r. apply Hres.
    + apply preserves_bind; [exact _ | apply Hinv, Hauth |].
      intros r. apply Hres.
  - (* ig_logout *)
    apply preserves_bind; [exact _ | exact Hens |]. intros [msg |].
    + apply preserves_ret; exact _.
    + apply preserves_bind; [exact _ | |].
      * apply Hlogout. exact (select_ig_logout name Hsel).
      * intros _. apply preserves_ret; exact _.
Qed.

End Handler_preservation.

Section Tool_call_invariants.

Context (cfg : Config) (w : World).

#[local] Instance framed_preorder (c : string) : PreOrder (framed c).
Proof.
  split.
  - intros st. unfold framed. repeat split; try reflexivity.
    exists []. rewrite app_nil_r. reflexivity.
  - intros s1 s2 s3 (Hc1 & Ha1 & Hs1 & Hk1 & [n1 Hn1]) (Hc2 & Ha2 & Hs2 & Hk2 & [n2 Hn2]).
    unfold framed. split; [congruence |].
    split; [etransitivity; eassumption |].
    split; [intros c' Hne; rewrite Hs2, Hs1 by exact Hne; reflexivity |].
    split; [intros c' Hne; rewrite Hk2, Hk1 by exact Hne; reflexivity |].
    exists (n1 ++ n2)%list. rewrite Hn2, Hn1, app_assoc. reflexivity.
Qed.

#[local] Instance same_gate_preorder : PreOrder same_gate.
Proof.
  split; [intros st; reflexivity |].
  intros s1 s2 s3 H1 H2. unfold same_gate in *. congruence.
Qed.

#[local] Instance same_sessions_preorder : PreOrder same_sessions.
Proof.
  split; [intros st c; reflexivity |].
  intros s1 s2 s3 H1 H2 c. rewrite H2, H1. reflexivity.
Qed.

Lemma provision_session_of (c c' : string) (st : State) :
  session_of (provision c st) c' = session_of st c'.
Proof.
  unfold session_of. destruct (decide (c = c')) as [<- | Hne].
  - rewrite provision_lookup. destruct (sessions st !! c); reflexivity.
  - rewrite provision_lookup_ne by exact Hne. reflexivity.
Qed.

Lemma provision_connections (c : string) (st : State) :
  authenticatedConnections (provision c st) = authenticatedConnections st.
Proof. unfold provision. destruct (sessions st !! c); reflexivity. Qed.

Lemma provision_current (c : string) (st : State) :
  currentConnectionId (provision c st) = currentConnectionId st.
Proof. unfold provision. destruct (sessions st !! c); reflexivity. Qed.

Lemma provision_framed (c : string) (st : State) : framed c st (provision c st).
Proof.
  unfold framed. split; [apply provision_current |].
  split; [rewrite provision_connections; reflexivity |].
  split; [intros c' Hne; apply provision_lookup_ne; congruence |].
  split; [intros c' _; rewrite provision_clients; reflexivity |].
  exists []. rewrite provision_network, app_nil_r. reflexivity.
Qed.

(** A rewrite of the store entry of [c] after [provision]. *)
Lemma store_update_framed (c : string) (store : ConnectionSession) (st : State) :
  framed c st (set_sessions (insert c store) (provision c st)).
Proof.
  etransitivity; [apply provision_framed |].
  unfold framed. simpl. repeat split; try reflexivity.
  - intros c' Hne. apply lookup_insert_ne. congruence.
  - exists []. rewrite app_nil_r. reflexivity.
Qed.

Lemma invoke_framed {A} (c : string) (client : IGClient) (m : M ClientCtx A) :
  appends m -> preserves (framed c) (invoke c client m).
Proof.
  intros Hm st. unfold invoke.
  destruct (Hm (mkCtx (default client (clients st !! c)) (network st)))
    as [sent Hsent].
  destruct (m _) as [r ctx']. simpl in *.
  unfold framed. simpl. repeat split; try reflexivity.
  - intros c' Hne. apply lookup_insert_ne. congruence.
  - exists sent. exact Hsent.
Qed.

(** What the wrapper around the [try] block adds. *)
Lemma executeToolCall_preserves (R : State -> State -> Prop) `{!PreOrder R}
    (name : string) (args : Json) (st : State) :
  preserves R (getClient cfg (currentConnectionId st)) ->
  (forall client,
      preserves R (handler cfg w (currentConnectionId st) client name args)) ->
  R st (executeToolCall cfg w name args st).2.
Proof.
  intros Hg Hh. unfold executeToolCall, bind at 1, gets.
  assert (preserves R
            (bind (getClient cfg (currentConnectionId st))
               (fun client =>
                  try_catch
                    (handler cfg w (currentConnectionId st) client name args)
                    (fun error => ret (unexpected error))))) as H.
  { apply preserves_bind; [exact _ | apply Hg |]. intros client.
    apply preserves_try_catch; [exact _ | apply Hh |].
    intros e. apply preserves_ret; exact _. }
  exact (H st).
Qed.

Lemma getClient_framed (c : string) : preserves (framed c) (getClient cfg c).
Proof.
  intros st. unfold getClient.
  destruct (clients st !! c); simpl; [reflexivity |].
  unfold framed. simpl. repeat split; try reflexivity.
  - intros c' Hne. apply lookup_insert_ne. congruence.
  - exists []. rewrite app_nil_r. reflexivity.
Qed.

Lemma handler_framed (c : string) (client : IGClient) (name : string)
    (args : Json) :
  preserves (framed c) (handler cfg w c client name args).
Proof.
  apply handler_preserves; try exact _.
  - intros st. rewrite ensureAuthenticated_run. apply provision_framed.
  - intros st. unfold getSession. rewrite getSession_run. apply provision_framed.
  - intros client' A m Hm. apply invoke_framed. exact Hm.
  - intros _ key st.
    destruct (authenticateConnection_run cfg c key st) as (b & st' & Hr & Hn & _).
    unfold authenticateConnection in *.
    destruct (negb (REQUIRE_AUTHENTICATION cfg)
              || bool_decide (MCP_SERVER_API_KEY cfg = EmptyString));
      [simpl; reflexivity |].
    destruct (validateApiKey cfg key); simpl; [| reflexivity].
    unfold framed. simpl. repeat split; try reflexivity.
    + apply union_subseteq_r.
    + exists []. rewrite app_nil_r. reflexivity.
  - intros _. split; [| split].
    + intros s st. rewrite setSession_state. apply store_update_framed.
    + intros cr st. rewrite setCredentials_state. apply store_update_framed.
    + intros f Hf st. unfold framed. simpl. repeat split; try reflexivity.
      * intros c' Hne. apply Hf. exact Hne.
      * exists []. rewrite app_nil_r. reflexivity.
  - intros _ st. rewrite clearSession_state. apply store_update_framed.
Qed.

(** X16.  A tool call touches nothing of the other connections: the store
    entry (session and credentials) and the client object of every
    connection other than the current one are the same before and after. *)
Theorem executeToolCall_keeps_other_connections (name : string) (args : Json)
    (st : State) (c : string) :
  c <> currentConnectionId st ->
  sessions (executeToolCall cfg w name args st).2 !! c = sessions st !! c
  /\ clients (executeToolCall cfg w name args st).2 !! c = clients st !! c.
Proof.
  intros Hne.
  destruct (executeToolCall_preserves (framed (currentConnectionId st))
              name args st (getClient_framed _)
              (fun client => handler_framed _ client name args))
    as (_ & _ & Hs & Hc & _).
  split; [apply Hs | apply Hc]; exact Hne.
Qed.

Lemma handler_same_gate (c : string) (client : IGClient) (name : string)
    (args : Json) :
  name <> "mcp_authenticate" ->
  preserves same_gate (handler cfg w c client name args).
Proof.
  intros Hname. apply handler_preserves; try exact _.
  - intros st. rewrite ensureAuthenticated_run. apply provision_connections.
  - intros st. unfold getSession. rewrite getSession_run.
    apply provision_connections.
  - intros client' A m _ st.
    destruct (invoke c client' m st) as [r st'] eqn:Hi.
    apply invoke_inv in Hi as (_ & _ & _ & _ & _ & _ & Ha & _). exact Ha.
  - intros Hn. destruct (Hname Hn).
  - intros _. split; [| split].
    + intros s st. rewrite setSession_state. apply provision_connections.
    + intros cr st. rewrite setCredentials_state. apply provision_connections.
    + intros f _ st. reflexivity.
  - intros _ st. rewrite clearSession_state. apply provision_connections.
Qed.

(** X17.  A tool call keeps the current connection identity, never removes
    a connection from the gate set (and changes the set only when the tool
    is [mcp_authenticate]), and only appends to the log of requests sent to
    the broker. *)
Theorem executeToolCall_only_adds (name : string) (args : Json) (st : State) :
  let st' := (executeToolCall cfg w name args st).2 in
  currentConnectionId st' = currentConnectionId st
  /\ authenticatedConnections st ⊆ authenticatedConnections st'
  /\ (name <> "mcp_authenticate" ->
      authenticatedConnections st' = authenticatedConnections st)
  /\ exists sent, network st' = (network st ++ sent)%list.
Proof.
  intros st'. subst st'.
  destruct (executeToolCall_preserves (framed (currentConnectionId st))
              name args st (getClient_framed _)
              (fun client => handler_framed _ client name args))
    as (Hc & Ha & _ & _ & Hn).
  split; [exact Hc |]. split; [exact Ha |]. split; [| exact Hn].
  intros Hname.
  apply (executeToolCall_preserves same_gate name args st).
  - intros s0. unfold getClient.
    destruct (clients s0 !! currentConnectionId st); reflexivity.
  - intros client. apply handler_same_gate. exact Hname.
Qed.

Lemma handler_same_sessions (c : string) (client : IGClient) (name : string)
    (args : Json) :
  name <> "ig_login" -> name <> "ig_logout" ->
  preserves same_sessions (handler cfg w c client name args).
Proof.
  intros Hlogin Hlogout. apply handler_preserves; try exact _.
  - intros st c'. rewrite ensureAuthenticated_run. apply provision_session_of.
  - intros st c'. unfold getSession. rewrite getSession_run.
    apply provision_session_of.
  - intros client' A m _ st c'.
    destruct (invoke c client' m st) as [r st'] eqn:Hi.
    apply invoke_inv in Hi as (_ & _ & _ & _ & _ & Hs & _).
    simpl. unfold session_of. rewrite Hs. reflexivity.
  - intros _ key st c'.
    unfold authenticateConnection.
    destruct (negb (REQUIRE_AUTHENTICATION cfg)
              || bool_decide (MCP_SERVER_API_KEY cfg = EmptyString));
      [reflexivity |].
    destruct (validateApiKey cfg key); reflexivity.
  - intros Hn. destruct (Hlogin Hn).
  - intros Hn. destruct (Hlogout Hn).
Qed.

(** X18.  Only [ig_login] and [ig_logout] change a session: after a call of
    any other tool every connection has the session it had before, so no
    other tool can make a connection authenticated or unauthenticated. *)
Theorem only_login_and_logout_change_sessions (name : string) (args : Json)
    (st : State) (c : string) :
  name <> "ig_login" ->
  name <> "ig_logout" ->
  session_of (executeToolCall cfg w name args st).2 c = session_of st c
  /\ has_authenticated_session (executeToolCall cfg w name args st).2 c
     = has_authenticated_session st c.
Proof.
  intros Hlogin Hlogout.
  assert (same_sessions st (executeToolCall cfg w name args st).2) as H.
  { apply (executeToolCall_preserves same_sessions name args st).
    - intros s0 c'. unfold getClient.
      destruct (clients s0 !! currentConnectionId st); reflexivity.
    - intros client. apply handler_same_sessions; assumption. }
  split; [apply H |]. rewrite !has_authenticated_session_of, H. reflexivity.
Qed.

End Tool_call_invariants.

(** ** index.ts: the gate and the login case *)

Section Gate_and_login.

Context (cfg : Config) (w : World).

(** X19.  With a gatekeeping secret configured and enforcement on, a call
    of any tool other than [mcp_authenticate] on a connection that has not
    presented the secret returns the 'Unauthorized' envelope
    ([isError = true], [null] data); nothing happens beyond [getClient]: no
    store entry is created and no request is sent. *)
Theorem gate_rejects_unauthorized_connection (name : string) (args : Json)
    (st : State) :
  REQUIRE_AUTHENTICATION cfg = true ->
  MCP_SERVER_API_KEY cfg <> EmptyString ->
  currentConnectionId st ∉ authenticatedConnections st ->
  name <> "mcp_authenticate" ->
  executeToolCall cfg w name args st
  = (inr (gate_refusal cfg), (getClient cfg (currentConnectionId st) st).2)
  /\ isError (gate_refusal cfg) = true
  /\ decoded_field "data" (gate_refusal cfg) = Some JNull
  /\ network (getClient cfg (currentConnectionId st) st).2 = network st
  /\ sessions (getClient cfg (currentConnectionId st) st).2 = sessions st.
Proof.
  intros Hreq Hkey Hconn Hname.
  destruct (executeToolCall_unfold cfg w name args st)
    as (client & st0 & Hg & Hs & Ha & _ & Hn & ->).
  rewrite Hg. simpl snd.
  split; [| split; [reflexivity | split; [apply decoded_data | split; assumption]]].
  unfold try_catch, handler.
  rewrite (bind_step _ _ _ _ _ (isConnectionAuthenticated_run cfg _ st0)).
  assert (connection_allowed cfg st0 (currentConnectionId st) = false) as ->.
  { unfold connection_allowed. rewrite Hreq, Ha. simpl.
    rewrite bool_decide_eq_false_2 by exact Hkey.
    rewrite bool_decide_eq_false_2 by exact Hconn. reflexivity. }
  rewrite bool_decide_eq_false_2 by exact Hname. reflexivity.
Qed.

(** X20.  With a secret configured and enforcement on, [mcp_authenticate]
    compares the given key with the secret.  The right key yields the
    success envelope and puts the connection in the gate set, so that the
    gate lets it through from then on; any other key, or none, yields the
    'Invalid API key' error and leaves the gate set as it was. *)
Theorem mcp_authenticate_checks_the_key (args : Json) (st : State) :
  REQUIRE_AUTHENTICATION cfg = true ->
  MCP_SERVER_API_KEY cfg <> EmptyString ->
  (opt_get args "apiKey" = JStr (MCP_SERVER_API_KEY cfg) ->
   exists env st',
     executeToolCall cfg w "mcp_authenticate" args st = (inr env, st')
     /\ isError env = false
     /\ decoded_field "data" env
        = Some (JObj [("authenticated", JBool true);
                      ("connectionId", JStr (currentConnectionId st))])
     /\ currentConnectionId st ∈ authenticatedConnections st'
     /\ connection_allowed cfg st' (currentConnectionId st) = true)
  /\ (opt_get args "apiKey" <> JStr (MCP_SERVER_API_KEY cfg) ->
      exists env st',
        executeToolCall cfg w "mcp_authenticate" args st = (inr env, st')
        /\ isError env = true
        /\ decoded_field "message" env
           = Some (JStr "Authentication failed: Invalid API key. Please provide the correct MCP_SERVER_API_KEY.")
        /\ authenticatedConnections st' = authenticatedConnections st
        /\ network st' = network st).
Proof.
  intros Hreq Hkey.
  destruct (executeToolCall_unfold cfg w "mcp_authenticate" args st)
    as (client & st0 & Hg & _ & Ha & _ & Hn & ->).
  unfold try_catch, handler.
  rewrite (bind_step _ _ _ _ _ (isConnectionAuthenticated_run cfg _ st0)).
  rewrite select_mcp_label.
  replace (negb (bool_decide ("mcp_authenticate" = "mcp_authenticate")))
    with false by reflexivity.
  rewrite andb_false_r.
  unfold bind, authenticateConnection, validateApiKey. rewrite Hreq.
  rewrite !(bool_decide_eq_false_2 _ Hkey). simpl negb. simpl orb.
  split.
  - intros Hgiven. rewrite Hgiven. unfold js_or.
    assert (truthy (JStr (MCP_SERVER_API_KEY cfg)) = true) as ->.
    { simpl. rewrite (bool_decide_eq_false_2 _ Hkey). reflexivity. }
    assert (strict_eq_str (JStr (MCP_SERVER_API_KEY cfg))
              (MCP_SERVER_API_KEY cfg) = true) as ->.
    { simpl. apply bool_decide_eq_true_2. reflexivity. }
    cbn [negb orb bind modify ret].
    do 2 eexists. split; [reflexivity |]. split; [reflexivity |].
    split; [reflexivity |].
    split; [apply elem_of_union_l, elem_of_singleton; reflexivity |].
    unfold connection_allowed. simpl.
    rewrite (bool_decide_eq_true_2 (_ ∈ _));
      [apply orb_true_r |].
    apply elem_of_union_l, elem_of_singleton. reflexivity.
  - intros Hgiven.
    assert (strict_eq_str (js_or (opt_get args "apiKey") (JStr EmptyString))
              (MCP_SERVER_API_KEY cfg) = false) as ->.
    { unfold js_or. destruct (truthy (opt_get args "apiKey")).
      - destruct (opt_get args "apiKey") as [| | b | t | s | l | fs];
          try reflexivity.
        simpl. apply bool_decide_eq_false_2. congruence.
      - simpl. apply bool_decide_eq_false_2. congruence. }
    cbn [negb orb bind modify ret].
    do 2 eexists. split; [reflexivity |]. split; [reflexivity |].
    split; [reflexivity |]. split; assumption.
Qed.

(** X21.  An [ig_login] that passes the gate and the strict-credential
    check but lacks a username, a password or an API key, from the arguments
    and from the environment alike, returns the 'Missing credentials' error
    without sending anything or touching a session. *)
Theorem login_without_credentials_is_refused (args : Json) (st : State) :
  connection_allowed cfg st (currentConnectionId st) = true ->
  REQUIRE_ENV_CREDENTIALS cfg && credentialsFromTool args = false ->
  truthy (username (effective_credentials cfg args))
  && truthy (password (effective_credentials cfg args))
  && truthy (apiKey (effective_credentials cfg args)) = false ->
  exists env,
    executeToolCall cfg w "ig_login" args st
    = (inr env, (getClient cfg (currentConnectionId st) st).2)
    /\ isError env = true
    /\ decoded_field "message" env
       = Some (JStr "Missing credentials. Please provide username, password, and apiKey, or set them via environment variables (IG_USERNAME, IG_PASSWORD, IG_API_KEY).")
    /\ network (getClient cfg (currentConnectionId st) st).2 = network st
    /\ sessions (getClient cfg (currentConnectionId st) st).2 = sessions st.
Proof.
  intros Hallow Hstrict Hmissing.
  destruct (executeToolCall_unfold cfg w "ig_login" args st)
    as (client & st0 & Hg & Hs & Ha & _ & Hn & ->).
  rewrite Hg. simpl snd.
  unfold try_catch, handler.
  rewrite (bind_step _ _ _ _ _ (isConnectionAuthenticated_run cfg _ st0)).
  assert (connection_allowed cfg st0 (currentConnectionId st) = true) as ->.
  { unfold connection_allowed in *. rewrite Ha. exact Hallow. }
  simpl negb. rewrite andb_false_l, select_login_label, Hstrict.
  cbv zeta.
  assert (negb (truthy (username (effective_credentials cfg args)))
          || negb (truthy (password (effective_credentials cfg args)))
          || negb (truthy (apiKey (effective_credentials cfg args))) = true) as ->.
  { destruct (truthy (username _)), (truthy (password _)), (truthy (apiKey _));
      first [reflexivity | discriminate Hmissing]. }
  eexists. split; [reflexivity |]. split; [reflexivity |].
  split; [apply decoded_message |]. split; assumption.
Qed.

(** The ways the [ig_login] case can end: with a success envelope, or with
    every session as it was. *)
Lemma login_outcome (c : string) (client : IGClient) (args : Json)
    (st st1 : State) (r : Thrown + Envelope) :
  handler cfg w c client "ig_login" args st = (r, st1) ->
  (exists env, r = inr env /\ isError env = false) \/ same_sessions st st1.
Proof.
  unfold handler.
  rewrite (bind_step _ _ _ _ _ (isConnectionAuthenticated_run cfg c st)).
  destruct (negb (connection_allowed cfg st c)
            && negb (bool_decide ("ig_login" = "mcp_authenticate"))).
  { intros [= _ <-]. right. intros c'. reflexivity. }
  rewrite select_login_label.
  destruct (REQUIRE_ENV_CREDENTIALS cfg && credentialsFromTool args).
  { intros [= _ <-]. right. intros c'. reflexivity. }
  cbv zeta.
  match goal with |- context [if ?b then ret _ else _] => destruct b end.
  { intros [= _ <-]. right. intros c'. reflexivity. }
  assert (forall client0 creds (s0 : State),
             sessions s0 = sessions st ->
             bind (invoke c client0 (authenticate w creds))
                  (fun result => login_result c client0 creds result) s0
             = (r, st1) ->
             (exists env, r = inr env /\ isError env = false)
             \/ same_sessions st st1) as Hcore.
  { intros client0 creds s0 Hs0 H. unfold bind in H.
    destruct (invoke c client0 (authenticate w creds) s0) as [[e | res] s1] eqn:Hi;
      apply invoke_inv in Hi as (_ & _ & _ & _ & _ & Hs1 & _).
    - injection H as <- <-. right. intros c'. unfold session_of.
      rewrite Hs1, Hs0. reflexivity.
    - unfold login_result in H.
      destruct (data res) as [s |];
        [destruct (success res) |];
        try (injection H as <- <-; right; intros c'; unfold session_of;
             rewrite Hs1, Hs0; reflexivity).
      destruct (setSession_run c s s1) as (s2 & H2 & _).
      rewrite (bind_step _ _ _ _ _ H2) in H.
      destruct (setCredentials_run c creds s2) as (s3 & H3 & _).
      rewrite (bind_step _ _ _ _ _ H3) in H.
      destruct (invoke_setSession_run c client0 s s3) as (s4 & H4 & _).
      rewrite (bind_step _ _ _ _ _ H4) in H.
      injection H as <- <-. left. eexists. split; reflexivity. }
  match goal with |- context [if ?b then _ else _] => destruct b end.
  - intros H. unfold bind at 1, modify in H. unfold bind at 1 in H.
    refine (Hcore _ _ _ _ H). reflexivity.
  - intros H. refine (Hcore _ _ _ _ H). reflexivity.
Qed.

(** X22.  An [ig_login] that fails, whatever the reason (gate, strict
    mode, missing credentials, broker refusal, missing tokens, an exception),
    leaves the session of every connection as it was: a connection that was
    authenticated stays so, with its old session. *)
Theorem failed_login_keeps_sessions (args : Json) (st st' : State)
    (env : Envelope) (c : string) :
  executeToolCall cfg w "ig_login" args st = (inr env, st') ->
  isError env = true ->
  session_of st' c = session_of st c.
Proof.
  destruct (executeToolCall_unfold cfg w "ig_login" args st)
    as (client & st0 & _ & Hs & _ & _ & _ & ->).
  intros H Herr. unfold try_catch in H.
  destruct (handler cfg w (currentConnectionId st) client "ig_login" args st0)
    as [r st1] eqn:Hh.
  destruct (login_outcome _ _ _ _ _ _ Hh) as [(env1 & -> & Hok) | Hsame].
  - injection H as <- <-. rewrite Hok in Herr. discriminate Herr.
  - assert (st' = st1) as -> by (destruct r; injection H as _ <-; reflexivity).
    rewrite Hsame. unfold session_of. rewrite Hs. reflexivity.
Qed.

End Gate_and_login.

(** ** index.ts: the broker-facing cases on an authenticated connection *)

Section Authenticated_calls.

Context (cfg : Config) (w : World).

(** With the gate open, a broker-facing [case] is [broker_tool] on the
    client call that [call_of_tool] names. *)
Lemma handler_broker_case (c : string) (client : IGClient) (name : string)
    (args : Json) (st : State) (t : Tool) (c0 : ResourceCall) :
  connection_allowed cfg st c = true ->
  select name tool_names = Some t ->
  call_of_tool t args = Some c0 ->
  handler cfg w c client name args st = broker_tool c client (perform w c0) st.
Proof.
  intros Hallow Hsel Hcall. unfold handler.
  rewrite (bind_step _ _ _ _ _ (isConnectionAuthenticated_run cfg c st)).
  rewrite Hallow, Hsel. simpl negb. rewrite andb_false_l.
  destruct t; try discriminate Hcall; injection Hcall as <-; reflexivity.
Qed.

Lemma session_of_provision (c : string) (st : State) (s : IGSession) :
  session_of st c = Some s -> provision c st = st.
Proof.
  unfold session_of, provision. destruct (sessions st !! c); [reflexivity |].
  discriminate.
Qed.

Lemma ClientCtx_eta (ctx : ClientCtx) : mkCtx (this ctx) (net ctx) = ctx.
Proof. destruct ctx. reflexivity. Qed.

(** The requests of a broker-facing call on an authenticated connection
    are those of the client call, made once [setSession] has re-applied the
    session to the client of the connection. *)
Lemma authenticated_call_network (name : string) (args : Json) (st : State)
    (t : Tool) (c0 : ResourceCall) (s : IGSession) :
  connection_allowed cfg st (currentConnectionId st) = true ->
  select name tool_names = Some t ->
  call_of_tool t args = Some c0 ->
  session_of st (currentConnectionId st) = Some s ->
  authenticated s = true ->
  exists ctx0,
    net ctx0 = network st
    /\ (getClient cfg (currentConnectionId st) st).1 = inr (this ctx0)
    /\ network (executeToolCall cfg w name args st).2
       = net (perform w c0 (setSession s ctx0).2).2.
Proof.
  intros Hallow Hsel Hcall Hsess Hauth.
  set (conn := currentConnectionId st).
  unfold executeToolCall, bind at 1, gets. fold conn.
  unfold bind at 1.
  destruct (getClient cfg conn st) as [[e | client] st0] eqn:Hg.
  { unfold getClient in Hg. destruct (clients st !! conn); discriminate Hg. }
  assert (sessions st0 = sessions st /\ network st0 = network st
          /\ authenticatedConnections st0 = authenticatedConnections st
          /\ clients st0 !! conn = Some client) as (Hs0 & Hn0 & Ha0 & Hc0).
  { unfold getClient in Hg. destruct (clients st !! conn) eqn:Hl.
    - injection Hg as <- <-. repeat split. exact Hl.
    - injection Hg as <- <-. repeat split. apply lookup_insert_eq. }
  assert (connection_allowed cfg st0 conn = true) as Hallow0.
  { unfold connection_allowed in *. rewrite Ha0. exact Hallow. }
  assert (session_of st0 conn = Some s) as Hsess0.
  { unfold session_of in *. rewrite Hs0. exact Hsess. }
  unfold try_catch.
  rewrite (handler_broker_case conn client name args st0 t c0 Hallow0 Hsel Hcall).
  unfold broker_tool.
  rewrite (bind_step _ _ _ _ _ (ensureAuthenticated_run conn st0)).
  rewrite has_authenticated_session_of, Hsess0, Hauth.
  rewrite (session_of_provision _ _ _ Hsess0).
  unfold getSession.
  rewrite (bind_step _ _ _ _ _ (getSession_run conn st0)).
  rewrite Hsess0, (session_of_provision _ _ _ Hsess0).
  exists (mkCtx client (network st0)). split; [exact Hn0 |].
  split; [reflexivity |].
  destruct (client_setSession_run s (mkCtx client (network st0)))
    as (ctx1 & Hset & Hnet1).
  rewrite Hset. simpl snd.
  unfold bind at 1. unfold invoke at 1. rewrite Hc0. simpl default.
  rewrite Hset.
  unfold bind at 1, invoke at 1. simpl clients. simpl network.
  rewrite lookup_insert_eq. simpl default. rewrite ClientCtx_eta.
  destruct (perform w c0 ctx1) as [[e | r] ctx2]; reflexivity.
Qed.

(** X23.  On a connection that passed the gate and holds an authenticated
    session with both tokens, every broker-facing tool whose request the
    arguments determine ([sends_request]: the arguments that go into the URL
    convert to strings, an order comes with its request object; the generic
    [ig_call_api] apart) sends exactly one request, no required field being
    checked, and that request carries the [CST] and [X-SECURITY-TOKEN] of
    the stored session, even if the client object of the connection had
    other tokens or none. *)
Theorem authenticated_call_sends_session_tokens (name : string) (args : Json)
    (st : State) (t : Tool) (c0 : ResourceCall) (s : IGSession) :
  connection_allowed cfg st (currentConnectionId st) = true ->
  select name tool_names = Some t ->
  call_of_tool t args = Some c0 ->
  sends_request c0 = true ->
  session_of st (currentConnectionId st) = Some s ->
  authenticated s = true ->
  truthy (cst s) && truthy (xSecurityToken s) = true ->
  exists req,
    network (executeToolCall cfg w name args st).2 = (network st ++ [req])%list
    /\ req_headers req !! "CST" = Some (cst s)
    /\ req_headers req !! "X-SECURITY-TOKEN" = Some (xSecurityToken s).
Proof.
  intros Hallow Hsel Hcall Hapi Hsess Hauth Htok.
  destruct (authenticated_call_network name args st t c0 s
              Hallow Hsel Hcall Hsess Hauth) as (ctx0 & Hn & _ & ->).
  destruct (perform_after_setSession w s c0 ctx0 Hapi)
    as (ctx1 & req & Hset & Hnet & Hcst & Hxst & _).
  rewrite Hset. simpl snd. rewrite Htok in Hcst, Hxst.
  exists req. rewrite Hnet, Hn. repeat split; assumption.
Qed.

(** X24.  [ig_close_position] on an authenticated connection sends one
    [delete] to [/positions/otc] whatever the arguments are: the direction
    sent is [SELL] only when the [direction] argument is the string ['BUY'],
    and [BUY] in every other case, a missing direction included; deal id and
    size go out as given, missing ones as [undefined]. *)
Theorem close_position_without_validation (args : Json) (st : State)
    (s : IGSession) :
  connection_allowed cfg st (currentConnectionId st) = true ->
  session_of st (currentConnectionId st) = Some s ->
  authenticated s = true ->
  exists req,
    network (executeToolCall cfg w "ig_close_position" args st).2
    = (network st ++ [req])%list
    /\ req_method req = JStr "delete"
    /\ req_url req = "/positions/otc"
    /\ req_data req
       = JObj [("dealId", opt_get args "dealId");
               ("direction",
                if strict_eq_str (opt_get args "direction") "BUY"
                then JStr "SELL" else JStr "BUY");
               ("size", opt_get args "size");
               ("orderType", JStr "MARKET");
               ("timeInForce", JStr "FILL_OR_KILL")].
Proof.
  intros Hallow Hsess Hauth.
  destruct (authenticated_call_network "ig_close_position" args st
              ig_close_position _ s Hallow eq_refl eq_refl Hsess Hauth)
    as (ctx0 & Hn & _ & ->).
  destruct (client_setSession_run s ctx0) as (ctx1 & Hset & Hnet1).
  rewrite Hset. simpl snd. simpl perform. unfold closePosition.
  rewrite one_request_sent by (intros; pure_chain).
  eexists. simpl net. rewrite Hnet1, Hn. split; [reflexivity |].
  repeat split.
Qed.

Lemma select_declared (name : string) :
  name ∈ declared_tool_names <-> is_Some (select name tool_names).
Proof.
  split.
  - intros Hin. unfold declared_tool_names in Hin.
    repeat (apply elem_of_cons in Hin as [-> | Hin]; [eexists; reflexivity |]).
    inversion Hin.
  - unfold tool_names, select.
    repeat (case_bool_decide as Hd;
            [intros _; rewrite Hd; apply (bool_decide_unpack _); reflexivity |];
            clear Hd).
    intros [x Hx]. discriminate Hx.
Qed.

(** X25.  The registry and the dispatcher agree: the seventeen declared
    tool names are distinct, and a name has a [case] in the [switch] exactly
    when a tool is declared under it. *)
Theorem declared_tools_are_the_dispatched_ones :
  NoDup declared_tool_names
  /\ length declared_tool_names = 17%nat
  /\ forall name,
       name ∈ declared_tool_names <-> is_Some (select name tool_names).
Proof.
  split; [apply (bool_decide_unpack _); vm_compute; reflexivity |].
  split; [reflexivity |]. exact select_declared.
Qed.

(** X26.  A name under which no tool is declared gets, once the gate is
    passed, the 'Unknown tool' error: an envelope flagged [isError] whose
    text decodes to the message 'Unknown tool: ' followed by the name and to
    [null] data, whether or not the connection has a session; nothing
    happens beyond [getClient]. *)
Theorem undeclared_tool_is_unknown (name : string) (args : Json) (st : State) :
  name ∉ declared_tool_names ->
  connection_allowed cfg st (currentConnectionId st) = true ->
  exists env,
    executeToolCall cfg w name args st
    = (inr env, (getClient cfg (currentConnectionId st) st).2)
    /\ env = envelope
               (formatResponse JNull (Some ("Unknown tool: " +:+ name)) JNull)
               true
    /\ isError env = true
    /\ decoded_field "message" env = Some (JStr ("Unknown tool: " +:+ name))
    /\ decoded_field "data" env = Some JNull
    /\ network (getClient cfg (currentConnectionId st) st).2 = network st
    /\ sessions (getClient cfg (currentConnectionId st) st).2 = sessions st.
Proof.
  intros Hname Hallow.
  exists (envelope
            (formatResponse JNull (Some ("Unknown tool: " +:+ name)) JNull)
            true).
  rewrite decoded_message, decoded_data.
  destruct (executeToolCall_unfold cfg w name args st)
    as (client & st0 & Hg & Hs & Ha & _ & Hn & ->).
  rewrite Hg. simpl snd.
  split; [| repeat split; assumption].
  unfold try_catch, handler.
  rewrite (bind_step _ _ _ _ _ (isConnectionAuthenticated_run cfg _ st0)).
  assert (connection_allowed cfg st0 (currentConnectionId st) = true) as ->.
  { unfold connection_allowed in *. rewrite Ha. exact Hallow. }
  simpl negb. rewrite andb_false_l.
  destruct (select name tool_names) as [t |] eqn:Hsel; [| reflexivity].
  exfalso. apply Hname, select_declared. rewrite Hsel. eexists. reflexivity.
Qed.

End Authenticated_calls.

(** ** index.ts: the request of [ig_login], and the HTTP JSON-RPC handler *)

Section Login_and_transport.

Context (cfg : Config) (w : World).




(** [executeToolCall] returns an envelope for a name of any type. *)
Lemma executeToolCall_any_returns (name args : Json) (st : State) :
  exists env st', executeToolCall_any cfg w name args st = (inr env, st').
Proof.
  destruct name; try apply executeToolCall_returns;
    unfold executeToolCall_any, bind at 1, gets;
    destruct (getClient_run cfg (currentConnectionId st) st)
      as (client & st0 & Hg & _);
    rewrite (bind_step _ _ _ _ _ Hg); unfold try_catch;
    rewrite (bind_step _ _ _ _ _
               (isConnectionAuthenticated_run cfg (currentConnectionId st) st0));
    (destruct (negb (connection_allowed cfg st0 (currentConnectionId st)));
     [do 2 eexists; reflexivity |]);
    unfold to_String, ToString;
    match goal with
    | |- context [printable ?v] => destruct (printable v)
    end;
    do 2 eexists; reflexivity.
Qed.

(** X28.  [handleMCPRequest] answers every body and never throws.  An
    error reply has one of the codes -32700, -32600, -32601 and means that
    nothing ran: the state is as it was.  A reply with a tool envelope is
    given to a [tools/call] only. *)
Theorem handleMCPRequest_always_replies (body : JsError + Json) (st : State) :
  exists reply st',
    handleMCPRequest cfg w body st = (inr reply, st')
    /\ match reply with
       | Failure _ code _ _ =>
           st' = st /\ (code = -32700 \/ code = -32600 \/ code = -32601)
       | Reply id (ToolCallResult _) =>
           exists request,
             body = inr request
             /\ id = opt_get request "id"
             /\ strict_eq_str (opt_get request "method") "tools/call" = true
       | Reply _ _ => st' = st
       end.
Proof.
  unfold handleMCPRequest, try_catch.
  destruct body as [e | request].
  { do 2 eexists. split; [reflexivity |]. split; [reflexivity | left; reflexivity]. }
  unfold bind at 1, ret at 1. unfold read, get_prop.
  destruct (nullish request).
  { do 2 eexists. split; [reflexivity |]. split; [reflexivity | left; reflexivity]. }
  unfold bind at 1, ret at 1.
  destruct (strict_eq_str (opt_get request "jsonrpc") "2.0"); cbn [negb].
  2: { do 2 eexists. split; [reflexivity |]. split; [reflexivity |].
       right. left. reflexivity. }
  destruct (strict_eq_str (opt_get request "method") "tools/list").
  { do 2 eexists. split; reflexivity. }
  destruct (strict_eq_str (opt_get request "method") "tools/call") eqn:Hcall.
  - destruct (nullish (opt_get request "params")).
    { do 2 eexists. split; [reflexivity |]. split; [reflexivity | left; reflexivity]. }
    unfold bind at 1, ret at 1. unfold bind at 1, ret at 1. unfold handleCallTool.
    destruct (executeToolCall_any_returns
                (opt_get (opt_get request "params") "name")
                (js_or (opt_get (opt_get request "params") "arguments") (JObj []))
                st) as (env & st' & Hrun).
    rewrite (bind_step _ _ _ _ _ Hrun).
    do 2 eexists. split; [reflexivity |].
    exists request. repeat split. exact Hcall.
  - destruct (strict_eq_str (opt_get request "method") "initialize").
    + do 2 eexists. split; reflexivity.
    + unfold to_String, ToString.
      destruct (printable (opt_get request "method")).
      * do 2 eexists. split; [reflexivity |]. split; [reflexivity |].
        right. right. reflexivity.
      * do 2 eexists. split; [reflexivity |]. split; [reflexivity |].
        left. reflexivity.
Qed.

(** X29.  A body that is no JSON, that parses to [null], or that is a
    [tools/call] without [params] is answered with the error -32700 'Parse
    error' under the id [null], whatever id the request had; no tool runs
    and the state is as it was. *)
Theorem unreadable_request_is_parse_error (body : JsError + Json) (st : State) :
  match body with
  | inl _ => True
  | inr request =>
      nullish request = true
      \/ (strict_eq_str (opt_get request "jsonrpc") "2.0" = true
          /\ strict_eq_str (opt_get request "method") "tools/call" = true
          /\ nullish (opt_get request "params") = true)
  end ->
  exists detail,
    handleMCPRequest cfg w body st
    = (inr (Failure JNull (-32700) "Parse error" (Some detail)), st).
Proof.
  unfold handleMCPRequest, try_catch.
  destruct body as [e | request].
  { intros _. eexists. reflexivity. }
  unfold bind at 1, ret at 1. unfold read, get_prop.
  intros [Hnull | (Hv & Hm & Hp)].
  { rewrite Hnull. eexists. reflexivity. }
  destruct (nullish request) eqn:Hnull.
  { eexists. reflexivity. }
  unfold bind at 1, ret at 1. rewrite Hv. cbn [negb].
  assert (strict_eq_str (opt_get request "method") "tools/list" = false) as ->.
  { destruct (opt_get request "method"); try reflexivity.
    unfold strict_eq_str in *. apply bool_decide_eq_true_1 in Hm. subst.
    reflexivity. }
  rewrite Hm, Hp. eexists. reflexivity.
Qed.

(** X30.  A well-formed [tools/call] is answered with what
    [executeToolCall] returns for [params.name] and [params.arguments || {}],
    as the [result] of the reply and under the id of the request: a tool
    that fails, is unknown or is refused by the gate yields a result with
    [isError], never a JSON-RPC error. *)
Theorem tools_call_result (request : Json) (st : State) :
  nullish request = false ->
  strict_eq_str (opt_get request "jsonrpc") "2.0" = true ->
  strict_eq_str (opt_get request "method") "tools/call" = true ->
  nullish (opt_get request "params") = false ->
  exists env st',
    executeToolCall_any cfg w
      (opt_get (opt_get request "params") "name")
      (js_or (opt_get (opt_get request "params") "arguments") (JObj [])) st
    = (inr env, st')
    /\ handleMCPRequest cfg w (inr request) st
       = (inr (Reply (opt_get request "id") (ToolCallResult env)), st').
Proof.
  intros Hnull Hv Hm Hp.
  destruct (executeToolCall_any_returns
              (opt_get (opt_get request "params") "name")
              (js_or (opt_get (opt_get request "params") "arguments") (JObj []))
              st) as (env & st' & Hrun).
  exists env, st'. split; [exact Hrun |].
  unfold handleMCPRequest, try_catch.
  unfold bind at 1, ret at 1. unfold read, get_prop. rewrite Hnull.
  unfold bind at 1, ret at 1. rewrite Hv. cbn [negb].
  assert (strict_eq_str (opt_get request "method") "tools/list" = false) as ->.
  { destruct (opt_get request "method"); try reflexivity.
    unfold strict_eq_str in *. apply bool_decide_eq_true_1 in Hm. subst.
    reflexivity. }
  rewrite Hm, Hp.
  unfold bind at 1, ret at 1. unfold bind at 1, ret at 1. unfold handleCallTool.
  rewrite (bind_step _ _ _ _ _ Hrun). reflexivity.
Qed.

End Login_and_transport.

(** ** Examples for the properties above *)

Module Examples.

Import Scenario Cases.

Lemma session_store_isolation_witness :
  sessions (SessionManager.setSession "conn_1" granted st_logged_in).2 !! "conn_2"
  = sessions st_logged_in !! "conn_2"
  /\ sessions (SessionManager.setCredentials "conn_1" some_credentials
                 st_logged_in).2 !! "conn_2"
     = sessions st_logged_in !! "conn_2"
  /\ sessions (SessionManager.clearSession "conn_1" st_logged_in).2 !! "conn_2"
     = sessions st_logged_in !! "conn_2"
  /\ sessions (SessionManager.getSession "conn_1" st_logged_in).2 !! "conn_2"
     = sessions st_logged_in !! "conn_2"
  /\ sessions (SessionManager.isAuthenticated "conn_1" st_logged_in).2 !! "conn_2"
     = sessions st_logged_in !! "conn_2".
Proof.
  apply (session_store_isolation "conn_1" "conn_2" granted some_credentials
           st_logged_in).
  discriminate.
Defined.



Lemma client_operations_return_results_witness :
  (exists r ctx', perform w_401 GetPositions ctx_fresh = (inr r, ctx'))
  /\ (exists r ctx',
        authenticate w_401 some_credentials ctx_fresh = (inr r, ctx')).
Proof.
  destruct (client_operations_return_results w_401 GetPositions
              some_credentials ctx_fresh)
    as (Hresult & _ & Hlogin).
  - intros history req e [= <-]. exact I.
  - split; [apply Hresult; reflexivity | exact Hlogin].
Defined.

Lemma callAPI_request_witness :
  exists req,
    net (callAPI w_ok (JStr "GET") (JStr "markets") JUndef JUndef JUndef
           ctx_fresh).2
    = [req]
    /\ req_method req = JStr "GET"
    /\ req_url req = "/markets"
    /\ req_headers req !! "Version" = Some (JStr "1").
Proof.
  destruct (callAPI_request w_ok (JStr "GET") JUndef JUndef JUndef "markets"
              ctx_fresh)
    as (req & Hnet & Hmethod & Hurl & _ & _ & _ & Hversion);
    [reflexivity | left; reflexivity | reflexivity |].
  exists req. repeat split; assumption.
Defined.

Lemma callAPI_rejects_non_string_endpoint_witness :
  exists r,
    callAPI w_ok (JStr "GET") JUndef JUndef JUndef JUndef ctx_fresh
    = (inr r, ctx_fresh)
    /\ success r = false
    /\ data r = None
    /\ errorCode <$> error r = Some (JStr "UNKNOWN_ERROR")
    /\ userMessage r = Some "Failed to call API endpoint: undefined".
Proof.
  apply (callAPI_rejects_non_string_endpoint w_ok (JStr "GET") JUndef JUndef
           JUndef JUndef ctx_fresh).
  - discriminate.
  - reflexivity.
Defined.

Lemma requests_carry_session_tokens_witness :
  exists req,
    net (perform w_ok GetPositions (setSession granted ctx_fresh).2).2 = [req]
    /\ req_headers req !! "CST" = Some (JStr "CST-1")
    /\ req_headers req !! "X-SECURITY-TOKEN" = Some (JStr "XST-1")
    /\ req_headers req !! "X-IG-API-KEY" = Some (JStr "env-key").
Proof.
  destruct (requests_carry_session_tokens w_ok granted GetPositions ctx_fresh)
    as (ctx1 & req & Hset & Hnet & Hcst & Hxst & Hkey); [reflexivity |].
  exists req. rewrite Hset. repeat split; assumption.
Defined.

Lemma unlisted_status_keeps_operation_message_witness :
  exists r,
    (getPositions w_418 ctx_fresh).1 = inr r
    /\ success r = false
    /\ userMessage r = Some "Failed to retrieve positions".
Proof.
  destruct (unlisted_status_keeps_operation_message w_418 GetPositions ctx_fresh
              (getPositions w_418 ctx_fresh).2
              (getPositions w_418 ctx_fresh).1
              (request_from (this ctx_fresh) (JStr "get") "/positions"
                 [("Version", JStr "2")] JUndef JUndef)
              teapot
              (mkResponse 418 "I'm a teapot" ∅ JNull))
    as (r & Hr & Hs & _ & Hmsg);
    [reflexivity | reflexivity | reflexivity | reflexivity | reflexivity |].
  exists r. split; [exact Hr |]. split; [exact Hs |].
  apply Hmsg. vm_compute.
  intros Hin. repeat (apply elem_of_cons in Hin as [Hin | Hin]; [discriminate Hin |]).
  inversion Hin.
Defined.

Lemma transport_failure_result_witness :
  exists r,
    (getPositions w_down ctx_fresh).1 = inr r
    /\ success r = false
    /\ data r = None
    /\ userMessage r = Some "Failed to retrieve positions"
    /\ error r
       = Some (mkIGError (JStr "UNKNOWN_ERROR") (JStr "connect ECONNREFUSED")).
Proof.
  apply (transport_failure_result w_down GetPositions ctx_fresh
           (getPositions w_down ctx_fresh).2
           (getPositions w_down ctx_fresh).1
           (request_from (this ctx_fresh) (JStr "get") "/positions"
              [("Version", JStr "2")] JUndef JUndef)
           (ThrowAxios unreachable));
    reflexivity.
Defined.

Lemma getOpenPositions_fails_on_malformed_positions_witness :
  (exists rp ctx',
      getPositions w_ragged ctx_fresh = (inr rp, ctx')
      /\ success rp = true
      /\ data rp = Some (JArr [position "D1" "OPEN"; JNull]))
  /\ (exists ro ctx',
        getOpenPositions w_ragged ctx_fresh = (inr ro, ctx')
        /\ success ro = false
        /\ data ro = None
        /\ errorCode <$> error ro = Some (JStr "UNKNOWN_ERROR")
        /\ userMessage ro = Some "Failed to retrieve open positions").
Proof.
  apply (getOpenPositions_fails_on_malformed_positions w_ragged ctx_fresh
           ragged_response).
  - reflexivity.
  - reflexivity.
  - right. left. reflexivity.
Defined.

Lemma failed_authenticate_keeps_client_witness :
  (exists req,
      net (authenticate w_tokenless some_credentials ctx_fresh).2 = [req]
      /\ req_method req = JStr "post"
      /\ req_url req = "/session"
      /\ req_data req = JObj [("identifier", JStr "u"); ("password", JStr "p")])
  /\ this (authenticate w_tokenless some_credentials ctx_fresh).2
     = this ctx_fresh.
Proof.
  destruct (failed_authenticate_keeps_client w_tokenless some_credentials
              ctx_fresh
              (authenticate w_tokenless some_credentials ctx_fresh).2
              (authenticate w_tokenless some_credentials ctx_fresh).1)
    as [Hreq Hthis]; [reflexivity |].
  split; [exact Hreq |].
  apply Hthis. intros r [= <-]. reflexivity.
Defined.

Lemma executeToolCall_keeps_other_connections_witness :
  sessions (executeToolCall cfg_open w_ok "ig_logout" JUndef st_logged_in).2
    !! "conn_2"
  = sessions st_logged_in !! "conn_2"
  /\ clients (executeToolCall cfg_open w_ok "ig_logout" JUndef st_logged_in).2
       !! "conn_2"
     = clients st_logged_in !! "conn_2".
Proof.
  apply (executeToolCall_keeps_other_connections cfg_open w_ok "ig_logout"
           JUndef st_logged_in "conn_2").
  discriminate.
Defined.

Lemma only_login_and_logout_change_sessions_witness :
  session_of
    (executeToolCall cfg_open w_ok "ig_get_positions" JUndef st_logged_in).2
    "conn_1"
  = session_of st_logged_in "conn_1"
  /\ has_authenticated_session
       (executeToolCall cfg_open w_ok "ig_get_positions" JUndef st_logged_in).2
       "conn_1"
     = has_authenticated_session st_logged_in "conn_1".
Proof.
  apply (only_login_and_logout_change_sessions cfg_open w_ok "ig_get_positions"
           JUndef st_logged_in "conn_1");
    discriminate.
Defined.

Lemma gate_rejects_unauthorized_connection_witness :
  executeToolCall cfg_gated w_ok "ig_login" JUndef st_fresh
  = (inr (gate_refusal cfg_gated), (getClient cfg_gated "conn_1" st_fresh).2)
  /\ isError (gate_refusal cfg_gated) = true
  /\ decoded_field "data" (gate_refusal cfg_gated) = Some JNull
  /\ network (getClient cfg_gated "conn_1" st_fresh).2 = network st_fresh
  /\ sessions (getClient cfg_gated "conn_1" st_fresh).2 = sessions st_fresh.
Proof.
  apply (gate_rejects_unauthorized_connection cfg_gated w_ok "ig_login" JUndef
           st_fresh).
  - reflexivity.
  - discriminate.
  - apply not_elem_of_empty.
  - discriminate.
Defined.

Lemma mcp_authenticate_checks_the_key_witness :
  (exists env st',
      executeToolCall cfg_gated w_ok "mcp_authenticate"
        (JObj [("apiKey", JStr "s3cret")]) st_fresh = (inr env, st')
      /\ isError env = false
      /\ connection_allowed cfg_gated st' "conn_1" = true)
  /\ (exists env st',
        executeToolCall cfg_gated w_ok "mcp_authenticate"
          (JObj [("apiKey", JStr "guess")]) st_fresh = (inr env, st')
        /\ isError env = true
        /\ authenticatedConnections st' = authenticatedConnections st_fresh).
Proof.
  split.
  - destruct (proj1 (mcp_authenticate_checks_the_key cfg_gated w_ok
                       (JObj [("apiKey", JStr "s3cret")]) st_fresh
                       eq_refl ltac:(discriminate)) eq_refl)
      as (env & st' & Hrun & Herr & _ & _ & Hallow).
    exists env, st'. repeat split; assumption.
  - destruct (proj2 (mcp_authenticate_checks_the_key cfg_gated w_ok
                       (JObj [("apiKey", JStr "guess")]) st_fresh
                       eq_refl ltac:(discriminate)) ltac:(discriminate))
      as (env & st' & Hrun & Herr & _ & Hgate & _).
    exists env, st'. repeat split; assumption.
Defined.

Lemma login_without_credentials_is_refused_witness :
  exists env,
    executeToolCall cfg_bare w_ok "ig_login"
      (JObj [("username", JStr "alice"); ("password", JStr "pw")]) st_fresh
    = (inr env, (getClient cfg_bare "conn_1" st_fresh).2)
    /\ isError env = true
    /\ network (getClient cfg_bare "conn_1" st_fresh).2 = network st_fresh.
Proof.
  destruct (login_without_credentials_is_refused cfg_bare w_ok
              (JObj [("username", JStr "alice"); ("password", JStr "pw")])
              st_fresh)
    as (env & Hrun & Herr & _ & Hnet & _);
    [reflexivity | reflexivity | reflexivity |].
  exists env. repeat split; assumption.
Defined.

Lemma failed_login_keeps_sessions_witness :
  session_of (executeToolCall cfg_open w_401 "ig_login" JUndef st_logged_in).2
    "conn_1"
  = Some granted.
Proof.
  refine (eq_trans
            (failed_login_keeps_sessions cfg_open w_401 JUndef st_logged_in
               _ _ "conn_1" _ _) _).
  - vm_compute. reflexivity.
  - reflexivity.
  - reflexivity.
Defined.

Lemma authenticated_call_sends_session_tokens_witness :
  exists req,
    network
      (executeToolCall cfg_open w_ok "ig_get_market_data" JUndef st_logged_in).2
    = (network st_logged_in ++ [req])%list
    /\ req_headers req !! "CST" = Some (JStr "CST-1")
    /\ req_headers req !! "X-SECURITY-TOKEN" = Some (JStr "XST-1").
Proof.
  apply (authenticated_call_sends_session_tokens cfg_open w_ok
           "ig_get_market_data" JUndef st_logged_in ig_get_market_data
           (GetMarketData JUndef) granted);
    reflexivity.
Defined.

Lemma close_position_without_validation_witness :
  exists req,
    network
      (executeToolCall cfg_open w_ok "ig_close_position"
         (JObj [("dealId", JStr "D1"); ("direction", JStr "sell")])
         st_logged_in).2
    = (network st_logged_in ++ [req])%list
    /\ req_method req = JStr "delete"
    /\ req_url req = "/positions/otc"
    /\ req_data req
       = JObj [("dealId", JStr "D1");
               ("direction", JStr "BUY");
               ("size", JUndef);
               ("orderType", JStr "MARKET");
               ("timeInForce", JStr "FILL_OR_KILL")].
Proof.
  apply (close_position_without_validation cfg_open w_ok
           (JObj [("dealId", JStr "D1"); ("direction", JStr "sell")])
           st_logged_in granted);
    reflexivity.
Defined.

Lemma undeclared_tool_is_unknown_witness :
  exists env,
    executeToolCall cfg_open w_ok "ig_get_orders" JUndef st_logged_in
    = (inr env, (getClient cfg_open "conn_1" st_logged_in).2)
    /\ isError env = true
    /\ decoded_field "message" env = Some (JStr "Unknown tool: ig_get_orders")
    /\ decoded_field "data" env = Some JNull.
Proof.
  destruct (undeclared_tool_is_unknown cfg_open w_ok "ig_get_orders" JUndef
              st_logged_in)
    as (env & Hrun & _ & Herr & Hmsg & Hdata & _).
  - intros Hin.
    repeat (apply elem_of_cons in Hin as [Hin | Hin]; [discriminate Hin |]).
    inversion Hin.
  - reflexivity.
  - exists env.
    split; [exact Hrun |]. split; [exact Herr |]. split; [exact Hmsg |].
    exact Hdata.
Defined.


Lemma unreadable_request_is_parse_error_witness :
  exists detail,
    handleMCPRequest cfg_open w_ok (inr call_without_params) st_logged_in
    = (inr (Failure JNull (-32700) "Parse error" (Some detail)), st_logged_in).
Proof.
  apply (unreadable_request_is_parse_error cfg_open w_ok
           (inr call_without_params) st_logged_in).
  right. repeat split.
Defined.

Lemma tools_call_result_witness :
  exists env st',
    executeToolCall_any cfg_open w_ok (JStr "ig_get_positions") (JObj [])
      st_fresh
    = (inr env, st')
    /\ handleMCPRequest cfg_open w_ok (inr call_positions) st_fresh
       = (inr (Reply (JNum "8") (ToolCallResult env)), st').
Proof.
  apply (tools_call_result cfg_open w_ok call_positions st_fresh); reflexivity.
Defined.

End Examples.
